(** * QueryProcessor (src/app.py): a shallow embedding and its properties

    The development follows the source top-down:
    - Python values as they come out of [json.loads], with the few
      built-ins the code uses ([dict.get], [or], truthiness, f-string
      formatting), and the interpreter's string and float functions;
    - an exception-carrying result type for the pure code and a small
      history/trace monad for the code that talks to the language model,
      the browser driver, the spreadsheet, the clock and the file system;
    - the five methods of [QueryProcessor]: [parse_query],
      [generate_mcp_workflow], [scrape_site], [create_excel_report] and
      [process_query], then its constructor and [main];
    - the properties.

    Conventions.  A Python [str] is modelled by the [string] of its UTF-8
    bytes.  The functions of [str] and [re] that look at Unicode tables
    ([str.lower], [str.strip], iteration over a [str], the class [\d],
    [float], [len]) are fields of the record [Python]; the record fixes
    them on ASCII strings only, where they are computed here.  A Python
    [float] is a binary64 number ([spec_float] with the operations of
    [SpecFloat] at precision 53).  An exception is an instance of the
    class [Exception]. *)

From Stdlib Require Import List String Ascii ZArith Bool Lia Arith.
From Stdlib Require Import DecimalString SpecFloat.
Import ListNotations.
Open Scope string_scope.
Open Scope list_scope.

Set Implicit Arguments.
Set Warnings "-register-all".

(** ** Exceptions and results *)

(** A Python exception: its class name and [str(e)]. *)
Record exn : Type := Exn { exn_class : string; exn_msg : string }.

Inductive result (A : Type) : Type :=
| Ok (a : A)
| Raise (e : exn).
Arguments Ok {A} a.
Arguments Raise {A} e.

Definition rbind {A B} (r : result A) (k : A -> result B) : result B :=
  match r with
  | Ok a => k a
  | Raise e => Raise e
  end.

Notation "x <-? r ;; k" := (rbind r (fun x => k))
  (at level 100, r at next level, right associativity).

(** ** Binary64 *)

Definition float : Type := spec_float.

Definition fadd : float -> float -> float := SFadd 53 1024.
Definition fsub : float -> float -> float := SFsub 53 1024.
Definition fmul : float -> float -> float := SFmul 53 1024.
Definition fdiv : float -> float -> float := SFdiv 53 1024.
Definition fltb : float -> float -> bool := SFltb.
Definition fleb : float -> float -> bool := SFleb.
Definition fabs : float -> float := SFabs.

(** [(double) z], rounded to nearest even. *)
Definition float_of_Z (z : Z) : float := binary_normalize 53 1024 z 0 false.

Definition fzero : float := S754_zero false.

Definition is_zero (f : float) : bool :=
  match f with
  | S754_zero _ => true
  | _ => false
  end.

Definition is_finite (f : float) : bool :=
  match f with
  | S754_zero _ | S754_finite _ _ _ => true
  | _ => false
  end.

(** ** Python values *)

Inductive pyval : Type :=
| PNone
| PBool (b : bool)
| PInt (z : Z)
| PFloat (f : float)
| PStr (s : string)
| PList (l : list pyval)
| PDict (d : list (string * pyval)).

(** [bool(v)]. *)
Definition truthy (v : pyval) : bool :=
  match v with
  | PNone => false
  | PBool b => b
  | PInt z => negb (z =? 0)%Z
  | PFloat f => negb (is_zero f)
  | PStr s => negb (s =? "")
  | PList l => match l with [] => false | _ => true end
  | PDict d => match d with [] => false | _ => true end
  end.

Definition type_name (v : pyval) : string :=
  match v with
  | PNone => "NoneType"
  | PBool _ => "bool"
  | PInt _ => "int"
  | PFloat _ => "float"
  | PStr _ => "str"
  | PList _ => "list"
  | PDict _ => "dict"
  end.

Definition no_attribute (v : pyval) (attr : string) : exn :=
  Exn "AttributeError"
      ("'" ++ type_name v ++ "' object has no attribute '" ++ attr ++ "'").

Fixpoint assoc {V} (k : string) (d : list (string * V)) : option V :=
  match d with
  | [] => None
  | (k', v) :: d' => if k' =? k then Some v else assoc k d'
  end.

(** [d.get(k, default)] on an already evaluated receiver. *)
Definition dict_get (d : list (string * pyval)) (k : string) (default : pyval)
  : pyval :=
  match assoc k d with
  | Some v => v
  | None => default
  end.

(** [v.get(k, default)]: only a dict has the method. *)
Definition py_get (v : pyval) (k : string) (default : pyval) : result pyval :=
  match v with
  | PDict d => Ok (dict_get d k default)
  | _ => Raise (no_attribute v "get")
  end.

Definition str_of_Z (z : Z) : string := NilZero.string_of_int (Z.to_int z).

Definition str_of_nat (n : nat) : string := str_of_Z (Z.of_nat n).

(** What an f-string field [{v}] expands to.  [repr] of a float, a list or
    a dict is left to the interpreter: it is the parameter
    [repr_container]. *)
Definition py_str (repr_container : pyval -> string) (v : pyval) : string :=
  match v with
  | PNone => "None"
  | PBool true => "True"
  | PBool false => "False"
  | PInt z => str_of_Z z
  | PStr s => s
  | PFloat _ | PList _ | PDict _ => repr_container v
  end.

(** ** Strings

    The ASCII fragment of the string functions, computed. *)

Definition is_ascii_char (c : ascii) : bool := (nat_of_ascii c <? 128)%nat.

Fixpoint is_ascii (s : string) : bool :=
  match s with
  | EmptyString => true
  | String c s' => is_ascii_char c && is_ascii s'
  end.

Definition lower_ascii (c : ascii) : ascii :=
  let n := nat_of_ascii c in
  if ((65 <=? n) && (n <=? 90))%nat then ascii_of_nat (n + 32) else c.

Fixpoint ascii_lower (s : string) : string :=
  match s with
  | EmptyString => EmptyString
  | String c s' => String (lower_ascii c) (ascii_lower s')
  end.

(** The one-character strings of a string. *)
Definition ascii_chars (s : string) : list string :=
  map (fun c => String c EmptyString) (list_ascii_of_string s).

Definition is_space (c : ascii) : bool :=
  let n := nat_of_ascii c in
  ((9 <=? n) && (n <=? 13) || (28 <=? n) && (n <=? 32))%nat.

Fixpoint lstrip (s : string) : string :=
  match s with
  | EmptyString => EmptyString
  | String c s' => if is_space c then lstrip s' else s
  end.

Fixpoint rstrip (s : string) : string :=
  match s with
  | EmptyString => EmptyString
  | String c s' =>
      let r := rstrip s' in
      if is_space c && (r =? "") then EmptyString else String c r
  end.

Definition ascii_strip (s : string) : string := rstrip (lstrip s).

Definition is_digit (c : ascii) : bool :=
  let n := nat_of_ascii c in ((48 <=? n) && (n <=? 57))%nat.

Definition is_dot (c : ascii) : bool := (nat_of_ascii c =? 46)%nat.

(** Drop every character that is neither an ASCII digit nor a dot. *)
Fixpoint ascii_sub_non_numeric (s : string) : string :=
  match s with
  | EmptyString => EmptyString
  | String c s' =>
      if is_digit c || is_dot c then String c (ascii_sub_non_numeric s')
      else ascii_sub_non_numeric s'
  end.

Fixpoint digits_and_dots (s : string) : bool :=
  match s with
  | EmptyString => true
  | String c s' => (is_digit c || is_dot c) && digits_and_dots s'
  end.

(** The digits read so far and how many there are. *)
Fixpoint read_digits (s : string) (acc : Z) (count : nat) : Z * nat * string :=
  match s with
  | String c s' =>
      if is_digit c
      then read_digits s' (10 * acc + Z.of_nat (nat_of_ascii c - 48)) (S count)
      else (acc, count, s)
  | EmptyString => (acc, count, s)
  end.

(** The binary64 number nearest to [m / 10 ^ k], ties to even. *)
Definition decimal (m : Z) (k : nat) : float :=
  match m with
  | Zpos p =>
      fdiv (S754_finite false p 0)
           (S754_finite false (Z.to_pos (10 ^ Z.of_nat k)) 0)
  | _ => fzero
  end.

(** [float(s)] on a string of ASCII digits and dots: digits with an
    optional dot and more digits, or a dot followed by digits; anything
    else is a [ValueError] ([None]). *)
Definition parse_float (s : string) : option float :=
  let '(int_part, n_int, rest) := read_digits s 0 0 in
  match rest with
  | EmptyString =>
      if (n_int =? 0)%nat then None else Some (decimal int_part 0)
  | String c rest' =>
      if is_dot c then
        let '(all_digits, n_all, rest'') := read_digits rest' int_part n_int in
        match rest'' with
        | EmptyString =>
            if (n_all =? 0)%nat then None
            else Some (decimal all_digits (n_all - n_int))
        | String _ _ => None
        end
      else None
  end.

Fixpoint repeat_string (s : string) (n : nat) : string :=
  match n with
  | O => EmptyString
  | S n' => s ++ repeat_string s n'
  end.

(** ** The interpreter

    [str.lower], iteration over a [str], [str.strip], the substitution
    [re.sub(r'[^\d.]', '', s)], [float], [len], and whether [sum] adds
    floats with Neumaier's compensation (CPython 3.12 and later) or
    plainly.  The laws say what these do on ASCII strings; the remaining
    one bounds the lower-case form of a single character, which has at
    most four bytes. *)
Record Python : Type := {
  lower : string -> string;
  chars : string -> list string;
  strip : string -> string;
  sub_non_numeric : string -> string;
  float_of_str : string -> option float;
  len : string -> nat;
  compensated_sum : bool;
  lower_on_ascii : forall s, is_ascii s = true -> lower s = ascii_lower s;
  chars_on_ascii : forall s, is_ascii s = true -> chars s = ascii_chars s;
  lower_of_char : forall s c, In c (chars s) -> (String.length (lower c) <= 4)%nat;
  strip_on_ascii : forall s, is_ascii s = true -> strip s = ascii_strip s;
  sub_non_numeric_on_ascii :
    forall s, is_ascii s = true -> sub_non_numeric s = ascii_sub_non_numeric s;
  float_of_digits :
    forall s, digits_and_dots s = true -> float_of_str s = parse_float s;
  len_on_ascii : forall s, is_ascii s = true -> len s = String.length s
}.

(** The items a [for] loop over [v] visits. *)
Definition py_iter (py : Python) (v : pyval) : result (list pyval) :=
  match v with
  | PList l => Ok l
  | PStr s => Ok (map PStr (chars py s))
  | PDict d => Ok (map PStr (nodup string_dec (map fst d)))
  | _ => Raise (Exn "TypeError" ("'" ++ type_name v ++ "' object is not iterable"))
  end.

(** [v * 1000]. *)
Definition py_mul_1000 (v : pyval) : result pyval :=
  match v with
  | PInt z => Ok (PInt (z * 1000))
  | PBool b => Ok (PInt ((if b then 1 else 0) * 1000))
  | PFloat f => Ok (PFloat (fmul f (float_of_Z 1000)))
  | PStr s => Ok (PStr (repeat_string s 1000))
  | PList l => Ok (PList (List.concat (repeat l 1000)))
  | PNone | PDict _ =>
      Raise (Exn "TypeError"
                 ("unsupported operand type(s) for *: '" ++ type_name v ++ "' and 'int'"))
  end.

(** *** Numbers of the price list *)

(** An element of [prices]: the float of a price, or the int [0]. *)
Inductive number : Type :=
| Int (z : Z)
| Float (f : float).

(** [sum] once it has met a float: [f_result] and the compensation [c]. *)
Fixpoint sum_floats (compensated : bool) (xs : list number) (f_result c : float)
  : float :=
  match xs with
  | [] =>
      if compensated && negb (is_zero c) && is_finite c then fadd f_result c
      else f_result
  | Float x :: xs' =>
      if compensated then
        let t := fadd f_result x in
        let c' := if fleb (fabs x) (fabs f_result)
                  then fadd c (fadd (fsub f_result t) x)
                  else fadd c (fadd (fsub x t) f_result) in
        sum_floats compensated xs' t c'
      else sum_floats compensated xs' (fadd f_result x) c
  | Int z :: xs' => sum_floats compensated xs' (fadd f_result (float_of_Z z)) c
  end.

(** [sum] while it has met ints only. *)
Fixpoint sum_ints (compensated : bool) (xs : list number) (i_result : Z) : number :=
  match xs with
  | [] => Int i_result
  | Int z :: xs' => sum_ints compensated xs' (i_result + z)
  | Float _ :: _ => Float (sum_floats compensated xs (float_of_Z i_result) fzero)
  end.

(** [sum(xs)]. *)
Definition py_sum (compensated : bool) (xs : list number) : number :=
  sum_ints compensated xs 0.

(** The binary64 number nearest to [a / b], for [b] positive. *)
Definition ratio (a : Z) (b : positive) : float :=
  match a with
  | Z0 => fzero
  | Zpos p => fdiv (S754_finite false p 0) (S754_finite false b 0)
  | Zneg p => fdiv (S754_finite true p 0) (S754_finite false b 0)
  end.

(** [x / n] for a positive int [n]. *)
Definition div_by_count (x : number) (n : nat) : float :=
  match x with
  | Int i => ratio i (Pos.of_nat n)
  | Float f => fdiv f (float_of_Z (Z.of_nat n))
  end.

(** [x < y] for a float [x]; an int on the right is compared as the float
    it converts to, which is exact for the only int that occurs, 0. *)
Definition lt_number (x : float) (y : number) : bool :=
  match y with
  | Int z => fltb x (float_of_Z z)
  | Float f => fltb x f
  end.

(** ** Listings and the report sheet *)

(** One scraped record: the dict with keys site, title, price, timestamp. *)
Module Listing.
Record t : Type := mk {
  site : string;
  title : string;
  price : string;
  timestamp : string
}.
End Listing.

(** A chart: its titles, the references to the data (column, first row,
    last row) and to the categories, and the anchor cell. *)
Record bar_chart : Type := BarChart {
  chart_title : string;
  x_axis_title : string;
  y_axis_title : string;
  chart_data : nat * nat * nat;
  chart_cats : nat * nat * nat;
  chart_anchor : string
}.

(** The worksheet: its title, the values of its cells by (row, column),
    the last write first, the cells with the header style, the cells with
    the highlight fill, the range of the auto-filter, the charts, and the
    column widths by column number. *)
Record worksheet : Type := Worksheet {
  ws_title : string;
  ws_cells : list (nat * nat * string);
  ws_header_style : list (nat * nat);
  ws_fills : list (nat * nat);
  ws_auto_filter : option string;
  ws_charts : list bar_chart;
  ws_widths : list (nat * nat)
}.

(** [ws.cell(row, column).value]. *)
Fixpoint lookup_cell (cells : list (nat * nat * string)) (row col : nat)
  : option string :=
  match cells with
  | [] => None
  | (r, c, v) :: cells' =>
      if ((r =? row) && (c =? col))%nat then Some v else lookup_cell cells' row col
  end.

Definition cell_value (ws : worksheet) (row col : nat) : option string :=
  lookup_cell (ws_cells ws) row col.

Definition set_value (ws : worksheet) (row col : nat) (v : string) : worksheet :=
  Worksheet (ws_title ws) ((row, col, v) :: ws_cells ws) (ws_header_style ws)
            (ws_fills ws) (ws_auto_filter ws) (ws_charts ws) (ws_widths ws).

Definition set_header_style (ws : worksheet) (row col : nat) : worksheet :=
  Worksheet (ws_title ws) (ws_cells ws) ((row, col) :: ws_header_style ws)
            (ws_fills ws) (ws_auto_filter ws) (ws_charts ws) (ws_widths ws).

Definition set_fill (ws : worksheet) (row col : nat) : worksheet :=
  Worksheet (ws_title ws) (ws_cells ws) (ws_header_style ws)
            ((row, col) :: ws_fills ws) (ws_auto_filter ws) (ws_charts ws)
            (ws_widths ws).

Definition set_auto_filter (ws : worksheet) (ref : string) : worksheet :=
  Worksheet (ws_title ws) (ws_cells ws) (ws_header_style ws) (ws_fills ws)
            (Some ref) (ws_charts ws) (ws_widths ws).

Definition add_chart (ws : worksheet) (chart : bar_chart) : worksheet :=
  Worksheet (ws_title ws) (ws_cells ws) (ws_header_style ws) (ws_fills ws)
            (ws_auto_filter ws) (chart :: ws_charts ws) (ws_widths ws).

Definition set_width (ws : worksheet) (col width : nat) : worksheet :=
  Worksheet (ws_title ws) (ws_cells ws) (ws_header_style ws) (ws_fills ws)
            (ws_auto_filter ws) (ws_charts ws) ((col, width) :: ws_widths ws).

(** [Workbook().active] with its title set. *)
Definition new_sheet (title : string) : worksheet :=
  Worksheet title [] [] [] None [] [].

(** ** The outside world

    Everything the processor does to its environment is an [event]; the
    environment answers a call knowing the whole history of events so far.
    Of the log records only those of level WARNING and ERROR are kept in
    the history. *)

Inductive provider : Type := Groq | OpenAI | Ollama.

Definition provider_name (p : provider) : string :=
  match p with
  | Groq => "groq"
  | OpenAI => "openai"
  | Ollama => "ollama"
  end.

Inductive level : Type := WARNING | ERROR.

(** A handle on a page element. *)
Definition elem : Type := nat.

Inductive event : Type :=
| Log (lvl : level) (msg : string)
| LLMChat (p : provider) (prompt : string)
| Sleep (seconds : Z)
| PlaywrightStart
| PlaywrightStop
| Launch
| NewPage
| OnDialog
| Goto (url : pyval)
| Evaluate (script : string)
| WaitForTimeout (ms : pyval)
| Fill (sel : string) (text : pyval)
| Press (key : pyval)
| WaitForSelector (sel : string) (timeout : Z)
| QuerySelectorAll (sel : string)
| QuerySelector (item : elem) (sel : string)
| InnerText (e : elem)
| Now
| PageClose
| BrowserClose
| CellWrite (row col : nat) (value : string)
| Uuid4
| SaveWorkbook (filename : string) (sheet : worksheet)
| LoopCleanup.

Definition history : Type := list event.

(** ** Workflows *)

(** One entry of a site's [steps] list: the dict
    [{"command": ..., "selector": ..., "value": ...}]; [selector] is [None]
    when the key is absent. *)
Record step : Type := Step {
  command : string;
  selector : option string;
  value : pyval
}.

(** One entry of the workflow: [{"site": site, "steps": steps}]. *)
Record site_workflow : Type := SiteWorkflow {
  site : string;
  steps : list step
}.

(** [self.supported_sites]. *)
Definition supported_sites : list (string * string) :=
  [ ("amazon", "https://www.amazon.com");
    ("flipkart", "https://www.flipkart.com") ].

Section Compiler.

Variable py : Python.
Variable repr_container : pyval -> string.
Let fmt := py_str repr_container.

(** The three steps every supported site gets (lines 159-163). *)
Definition base_steps (base_url : string) (search_term : pyval) : list step :=
  [ Step "browser_navigate" None (PStr (base_url ++ "/s?k=" ++ fmt search_term));
    Step "browser_scroll" None (PInt 2000);
    Step "browser_wait" None (PInt 2) ].

(** The two steps appended for flipkart with a budget (lines 165-166). *)
Definition budget_steps (search_term budget : pyval) : list step :=
  [ Step "browser_type" (Some "input[name='q']")
         (PStr (fmt search_term ++ " under " ++ fmt budget));
    Step "browser_press" None (PStr "Enter") ].

Definition site_steps (key base_url : string) (search_term budget : pyval)
  : list step :=
  if truthy budget && (key =? "flipkart")
  then base_steps base_url search_term ++ budget_steps search_term budget
  else base_steps base_url search_term.

(** The record of line 170. *)
Definition unsupported_site (name : string) : event :=
  Log WARNING ("Unsupported site: " ++ name).

(** The body of [for site in target_websites] (lines 157-170), with the
    workflow built so far as accumulator: the warnings it logs, and the
    workflow or the exception it ends with. *)
Fixpoint compile_sites (search_term budget : pyval) (sites : list pyval)
         (workflow : list site_workflow)
  : list event * result (list site_workflow) :=
  match sites with
  | [] => ([], Ok workflow)
  | PStr name :: rest =>
      match assoc (lower py name) supported_sites with
      | Some base_url =>
          compile_sites search_term budget rest
            (workflow ++
             [SiteWorkflow name
                (site_steps (lower py name) base_url search_term budget)])
      | None =>
          let (warnings, r) := compile_sites search_term budget rest workflow in
          (unsupported_site name :: warnings, r)
      end
  | v :: _ => ([], Raise (no_attribute v "lower"))
  end.

(** The [try] of [generate_mcp_workflow] up to the loop (lines 151-155)
    and what is handed to the loop: the search term, the budget and the
    items of [target_websites].  [a or b] evaluates [b] only when [a] is
    falsy. *)
Definition compile_inputs (parsed_query : pyval)
  : result (pyval * pyval * list pyval) :=
  target_websites <-? py_get parsed_query "target_websites" (PList []) ;;
  search_params <-? py_get parsed_query "search_params" (PDict []) ;;
  specific_product <-? py_get search_params "specific_product" (PStr "") ;;
  search_term <-?
    (if truthy specific_product then Ok specific_product
     else py_get search_params "category" (PStr "")) ;;
  budget <-? py_get search_params "budget" (PStr "") ;;
  sites <-? py_iter py target_websites ;;
  Ok (search_term, budget, sites).

(** [generate_mcp_workflow] (lines 147-175) with the records it logs: the
    warnings of the loop and, when an exception leaves the [try], the
    error record of the [except] clause, which re-raises. *)
Definition generate_mcp_workflow_logged (parsed_query : pyval)
  : list event * result (list site_workflow) :=
  let (warnings, r) :=
    match compile_inputs parsed_query with
    | Ok (search_term, budget, sites) => compile_sites search_term budget sites []
    | Raise e => ([], Raise e)
    end in
  match r with
  | Ok workflow => (warnings, Ok workflow)
  | Raise e =>
      (warnings ++ [Log ERROR ("Error generating MCP workflow: " ++ exn_msg e)],
       Raise e)
  end.

(** What [generate_mcp_workflow] returns or raises. *)
Definition generate_mcp_workflow (parsed_query : pyval)
  : result (list site_workflow) :=
  snd (generate_mcp_workflow_logged parsed_query).

End Compiler.

(** The environment: the interpreter and one oracle per kind of answer. *)
Record World : Type := {
  python : Python;
  (** [repr] of floats, lists and dicts, for f-strings *)
  repr_container : pyval -> string;
  (** [json.loads] *)
  json_loads : string -> result pyval;
  (** the content of the model's reply, or the exception of the call *)
  llm_chat : history -> provider -> string -> result string;
  (** calls that return nothing: [None] when the call returns *)
  driver : history -> event -> option exn;
  query_selector_all : history -> string -> result (list elem);
  query_selector : history -> elem -> string -> result (option elem);
  inner_text : history -> elem -> result string;
  (** [datetime.now().strftime('%Y-%m-%d %H:%M:%S')] *)
  now : history -> string;
  (** [uuid.uuid4().hex[:8]] *)
  uuid_hex8 : history -> string
}.

(** A computation reads the history it starts from and returns its outcome
    with the events it added. *)
Definition M (A : Type) : Type := history -> result A * list event.

Definition ret {A} (a : A) : M A := fun _ => (Ok a, []).

Definition raise {A} (e : exn) : M A := fun _ => (Raise e, []).

Definition bind {A B} (m : M A) (k : A -> M B) : M B :=
  fun h =>
    match m h with
    | (Ok a, t) => let (r, t') := k a (h ++ t) in (r, t ++ t')
    | (Raise e, t) => (Raise e, t)
    end.

Notation "x <- m ;; k" := (bind m (fun x => k))
  (at level 100, m at next level, right associativity).
Notation "m ;;; k" := (bind m (fun _ => k))
  (at level 100, right associativity).

(** [try: m], with the outcome handed to the code that follows. *)
Definition try_ {A} (m : M A) : M (result A) :=
  fun h => let (r, t) := m h in (Ok r, t).

(** [try: m finally: cleanup]. *)
Definition finally {A} (m : M A) (cleanup : M unit) : M A :=
  fun h =>
    let (r, t) := m h in
    match cleanup (h ++ t) with
    | (Ok _, t') => (r, t ++ t')
    | (Raise e, t') => (Raise e, t ++ t')
    end.

Definition lift {A} (r : result A) : M A := fun _ => (r, []).

(** A pure computation that has logged [records]. *)
Definition logged {A} (run : list event * result A) : M A :=
  fun _ => (snd run, fst run).

Definition emit (e : event) : M unit := fun _ => (Ok tt, [e]).

Definition log (lvl : level) (msg : string) : M unit := emit (Log lvl msg).

Definition nl : string := String (ascii_of_nat 10) EmptyString.
Definition dq : string := String (ascii_of_nat 34) EmptyString.

Section Processor.

Variable w : World.
Variable llm_provider : provider.

Let fmt := py_str (repr_container w).

(** A call to the driver that returns nothing. *)
Definition call (e : event) : M unit :=
  fun h => (match driver w h e with None => Ok tt | Some x => Raise x end, [e]).

(** *** [parse_query] (lines 84-145) *)

Definition prompt (query : string) : string :=
  nl ++
  "                Analyze this user query: " ++ dq ++ query ++
  dq ++ nl ++
  "                Return a JSON object with:" ++ nl ++
  "                - query_type (product_search, price_comparison, flight_search)" ++ nl ++
  "                - target_websites (list of sites)" ++ nl ++
  "                - search_params (dict with category, budget, specific_product, etc.)" ++ nl ++
  "                Ensure the response is a valid JSON string." ++ nl ++
  "                Example response:" ++ nl ++
  "                {" ++ nl ++
  "                    " ++ dq ++ "query_type" ++ dq ++ ": " ++ dq ++ "product_search" ++ dq ++ "," ++ nl ++
  "                    " ++ dq ++ "target_websites" ++ dq ++ ": [" ++ dq ++ "amazon" ++ dq ++ ", " ++ dq ++ "flipkart" ++ dq ++ "]," ++ nl ++
  "                    " ++ dq ++ "search_params" ++ dq ++ ": {" ++ dq ++ "category" ++ dq ++ ": " ++ dq ++ "trimmers" ++ dq ++ ", " ++ dq ++ "budget" ++ dq ++ ": " ++ dq ++ "₹1000" ++ dq ++ ", " ++ dq ++ "specific_product" ++ dq ++ ": null}" ++ nl ++
  "                }" ++ nl ++
  "                ".

(** The chat-completion call of the configured provider. *)
Definition chat (p : string) : M string :=
  fun h => (llm_chat w h llm_provider p, [LLMChat llm_provider p]).

(** The body of the [try] of one attempt (lines 90-136). *)
Definition attempt_body (query : string) : M pyval :=
  content <- chat (prompt query) ;;
  match llm_provider with
  | Groq | OpenAI => lift (json_loads w content)
  | Ollama =>
      if content =? "" then
        log WARNING ("Empty response from Ollama for query: " ++ query) ;;;
        raise (Exn "ValueError" "Empty response from Ollama")
      else
        match json_loads w content with
        | Ok parsed_result => ret parsed_result
        | Raise e =>
            if exn_class e =? "JSONDecodeError" then
              log ERROR ("Invalid JSON from Ollama: " ++ content) ;;;
              raise (Exn "ValueError" ("Invalid JSON from Ollama: " ++ exn_msg e))
            else raise e
        end
  end.

(** The record of line 138. *)
Definition attempt_failed (attempt retries : nat) (query : string) (e : exn)
  : string :=
  "Attempt " ++ str_of_nat (attempt + 1) ++ "/" ++ str_of_nat retries ++
  " failed for query '" ++ query ++ "' with " ++ provider_name llm_provider ++
  ": " ++ exn_msg e.

(** [for attempt in range(retries)] over the attempts still to make, and
    the two statements after the loop. *)
Fixpoint parse_attempts (query : string) (retries : nat) (attempts : list nat)
  : M pyval :=
  match attempts with
  | [] =>
      log ERROR ("All attempts to parse query '" ++ query ++ "' failed") ;;;
      raise (Exn "Exception" "Failed to parse query after retries")
  | attempt :: rest =>
      r <- try_ (attempt_body query) ;;
      match r with
      | Ok parsed_result => ret parsed_result
      | Raise e =>
          log ERROR (attempt_failed attempt retries query e) ;;;
          if (attempt <? retries - 1)%nat then
            emit (Sleep (2 ^ Z.of_nat attempt)) ;;;
            parse_attempts query retries rest
          else raise e
      end
  end.

Definition parse_query (query : string) : M pyval :=
  let retries := 3%nat in
  parse_attempts query retries (seq 0 retries).

(** *** [scrape_site] (lines 177-244) *)

(** The body of the [try] of one step (lines 184-199). *)
Definition exec_step (st : step) : M unit :=
  if command st =? "browser_navigate" then call (Goto (value st))
  else if command st =? "browser_scroll" then
    call (Evaluate ("window.scrollBy(0, " ++ fmt (value st) ++ ")"))
  else if command st =? "browser_wait" then
    ms <- lift (py_mul_1000 (value st)) ;;
    call (WaitForTimeout ms)
  else if command st =? "browser_type" then
    match selector st with
    | Some sel => call (Fill sel (value st))
    | None => raise (Exn "KeyError" "'selector'")
    end
  else if command st =? "browser_press" then call (Press (value st))
  else ret tt.

Definition step_failed (site : string) (e : exn) : string :=
  "Error in MCP step for " ++ site ++ ": " ++ exn_msg e.

(** [for step in steps] (lines 182-201). *)
Fixpoint run_steps (site : string) (steps : list step) : M unit :=
  match steps with
  | [] => ret tt
  | st :: rest =>
      r <- try_ (exec_step st) ;;
      match r with
      | Ok _ => ret tt
      | Raise e => log ERROR (step_failed site e)
      end ;;;
      run_steps site rest
  end.

Definition page_query_selector_all (sel : string) : M (list elem) :=
  fun h => (query_selector_all w h sel, [QuerySelectorAll sel]).

Definition item_query_selector (item : elem) (sel : string) : M (option elem) :=
  fun h => (query_selector w h item sel, [QuerySelector item sel]).

Definition elem_inner_text (e : elem) : M string :=
  fun h => (inner_text w h e, [InnerText e]).

Definition timestamp_now : M string := fun h => (Ok (now w h), [Now]).

(** [await e.inner_text() if e else "N/A"]. *)
Definition text_or_na (e : option elem) : M string :=
  match e with
  | Some e' => elem_inner_text e'
  | None => ret "N/A"
  end.

(** The body of [for item in items[:5]], up to the record it appends. *)
Definition scrape_item (label title_sel price_sel : string) (item : elem)
  : M Listing.t :=
  title_elem <- item_query_selector item title_sel ;;
  price_elem <- item_query_selector item price_sel ;;
  title <- text_or_na title_elem ;;
  price <- text_or_na price_elem ;;
  ts <- timestamp_now ;;
  ret (Listing.mk label (strip (python w) title) (strip (python w) price) ts).

(** [for item in items[:5]]: [results] is the list the loop appends to.  An
    exception leaves the loop with [results] as it is at that point; the
    loop hands back the list and how it ended. *)
Fixpoint scrape_items (label title_sel price_sel : string) (items : list elem)
         (results : list Listing.t) : M (list Listing.t * result unit) :=
  match items with
  | [] => ret (results, Ok tt)
  | item :: rest =>
      r <- try_ (scrape_item label title_sel price_sel item) ;;
      match r with
      | Ok record => scrape_items label title_sel price_sel rest (results ++ [record])
      | Raise e => ret (results, Raise e)
      end
  end.

Definition scraping_error (label : string) (e : exn) : string :=
  "Scraping error on " ++ label ++ ": " ++ exn_msg e.

(** One of the two [try] blocks of lines 204-241: [before] is what runs
    ahead of [query_selector_all] (the wait, on flipkart). *)
Definition scrape_listings (label container_sel title_sel price_sel : string)
           (before : M unit) (results : list Listing.t) : M (list Listing.t) :=
  r <- try_ (before ;;; page_query_selector_all container_sel) ;;
  match r with
  | Ok items =>
      out <- scrape_items label title_sel price_sel (firstn 5 items) results ;;
      match snd out with
      | Ok _ => ret (fst out)
      | Raise e =>
          log ERROR (scraping_error label e) ;;;
          ret (fst out)
      end
  | Raise e =>
      log ERROR (scraping_error label e) ;;;
      ret results
  end.

Definition scrape_site (site : string) (steps : list step) : M (list Listing.t) :=
  let results := [] in
  run_steps site steps ;;;
  if lower (python w) site =? "amazon" then
    scrape_listings "Amazon" ".s-result-item" "h2" ".a-price .a-offscreen"
                    (ret tt) results
  else if lower (python w) site =? "flipkart" then
    scrape_listings "Flipkart" "div._1AtVbE" "a.s1Q9rs" "div._30jeq3"
                    (call (WaitForSelector "div._1AtVbE" 10000)) results
  else ret results.

(** *** [create_excel_report] (lines 246-334)

    Assigning a value to a cell goes through the validation of the sheet
    and can raise (a title with a control character does): it is a call,
    as the save is.  The styles, the fills, the filter, the chart and the
    widths are built from constants and numbers and are updates of the
    sheet. *)

(** [cell = ws.cell(row, column); cell.value = v]: the write can raise. *)
Definition write_cell (ws : worksheet) (row col : nat) (v : string) : M worksheet :=
  call (CellWrite row col v) ;;;
  ret (set_value ws row col v).

(** [for col, header in enumerate(headers, 1)] (lines 256-261). *)
Fixpoint write_headers (ws : worksheet) (col : nat) (headers : list string)
  : M worksheet :=
  match headers with
  | [] => ret ws
  | header :: rest =>
      ws1 <- write_cell ws 1 col header ;;
      write_headers (set_header_style ws1 1 col) (S col) rest
  end.

(** [for row, record in enumerate(data, 2)] (lines 266-270). *)
Fixpoint write_rows (ws : worksheet) (row : nat) (data : list Listing.t)
  : M worksheet :=
  match data with
  | [] => ret ws
  | record :: rest =>
      ws1 <- write_cell ws row 1 (Listing.site record) ;;
      ws2 <- write_cell ws1 row 2 (Listing.title record) ;;
      ws3 <- write_cell ws2 row 3 (Listing.price record) ;;
      ws4 <- write_cell ws3 row 4 (Listing.timestamp record) ;;
      write_rows ws4 (S row) rest
  end.

(** [float(re.sub(r'[^\d.]', '', s))], [None] when [float] raises. *)
Definition price_number (s : string) : option float :=
  float_of_str (python w) (sub_non_numeric (python w) s).

(** The first loop of the conditional formatting (lines 275-281): a price
    that does not parse counts as the int 0. *)
Definition numeric_prices (data : list Listing.t) : list number :=
  map (fun record => match price_number (Listing.price record) with
                     | Some numeric => Float numeric
                     | None => Int 0
                     end) data.

(** [sum(prices) / len(prices) if prices else 0]. *)
Definition avg_price (prices : list number) : number :=
  match prices with
  | [] => Int 0
  | _ => Float (div_by_count (py_sum (compensated_sum (python w)) prices)
                             (List.length prices))
  end.

(** [price_cell.value or '0']. *)
Definition value_or_0 (v : option string) : string :=
  match v with
  | Some s => if s =? "" then "0" else s
  | None => "0"
  end.

(** The second loop (lines 285-292), over [count] rows from [row] on: the
    price cell is read back from the sheet and parsed again; it gets the
    fill when it is below the average, and when it does not parse a
    warning is logged and the cell is left as it is. *)
Fixpoint format_rows (avg : number) (ws : worksheet) (row count : nat)
  : M worksheet :=
  match count with
  | O => ret ws
  | S count' =>
      ws1 <- match price_number (value_or_0 (cell_value ws row 3)) with
             | Some price_value =>
                 ret (if lt_number price_value avg then set_fill ws row 3 else ws)
             | None =>
                 log WARNING ("Failed to apply conditional formatting for row "
                              ++ str_of_nat row) ;;;
                 ret ws
             end ;;
      format_rows avg ws1 (S row) count'
  end.

(** [if not df.empty: ...] (lines 274-292). *)
Definition conditional_formatting (data : list Listing.t) (ws : worksheet)
  : M worksheet :=
  match data with
  | [] => ret ws
  | _ => format_rows (avg_price (numeric_prices data)) ws 2 (List.length data)
  end.

(** [ws.dimensions] of a sheet with four columns and [rows] rows. *)
Definition dimensions (rows : nat) : string := "A1:D" ++ str_of_nat rows.

(** The chart of lines 300-310. *)
Definition price_chart (data : list Listing.t) : bar_chart :=
  BarChart "Price Comparison by Site" "Product" "Price"
           (3, 1, List.length data + 1)%nat (2, 2, List.length data + 1)%nat "F5".

(** [len(str(cell.value))]. *)
Definition value_length (v : option string) : nat :=
  match v with
  | Some s => len (python w) s
  | None => 4
  end.

(** The inner loop of lines 317-322 over the rows of one column. *)
Fixpoint max_length (ws : worksheet) (col : nat) (rows : list nat) (longest : nat)
  : nat :=
  match rows with
  | [] => longest
  | row :: rest =>
      let n := value_length (cell_value ws row col) in
      max_length ws col rest (if (longest <? n)%nat then n else longest)
  end.

(** [for col in ws.columns] (lines 314-324). *)
Fixpoint adjust_widths (ws : worksheet) (cols : list nat) (rows : list nat)
  : worksheet :=
  match cols with
  | [] => ws
  | col :: rest =>
      adjust_widths (set_width ws col (max_length ws col rows 0 + 2)) rest rows
  end.

Definition new_uuid_hex8 : M string := fun h => (Ok (uuid_hex8 w h), [Uuid4]).

Definition report_failed (e : exn) : string :=
  "Error creating Excel report: " ++ exn_msg e.

Definition create_excel_report (data : list Listing.t) (query : string) : M string :=
  r <- try_ (
    ws0 <- write_headers (new_sheet "Query Results") 1
             ["Site"; "Product Title"; "Price"; "Timestamp"] ;;
    ws1 <- write_rows ws0 2 data ;;
    ws2 <- conditional_formatting data ws1 ;;
    let ws3 := set_auto_filter ws2 (dimensions (List.length data + 1)) in
    let ws4 := match data with
               | [] => ws3
               | _ => add_chart ws3 (price_chart data)
               end in
    let ws5 := adjust_widths ws4 (seq 1 4) (seq 1 (List.length data + 1)) in
    hex <- new_uuid_hex8 ;;
    let filename := ("query_report_" ++ hex ++ ".xlsx")%string in
    call (SaveWorkbook filename ws5) ;;;
    ret filename) ;;
  match r with
  | Ok filename => ret filename
  | Raise e =>
      log ERROR (report_failed e) ;;;
      raise e
  end.

(** *** [process_query] (lines 336-388) *)

(** [for site_workflow in workflow] (lines 359-361). *)
Fixpoint scrape_workflow (workflow : list site_workflow)
         (all_results : list Listing.t) : M (list Listing.t) :=
  match workflow with
  | [] => ret all_results
  | site_workflow :: rest =>
      site_results <- scrape_site (site site_workflow) (steps site_workflow) ;;
      scrape_workflow rest (all_results ++ site_results)
  end.

(** The body of the [async with] block (lines 349-365). *)
Definition browser_session (workflow : list site_workflow) : M (list Listing.t) :=
  call Launch ;;;
  call NewPage ;;;
  call OnDialog ;;;
  all_results <- scrape_workflow workflow [] ;;
  call PageClose ;;;
  call BrowserClose ;;;
  ret all_results.

(** The [async with async_playwright() as p] block (lines 348-365): once
    the context is entered it is left again, whatever the body did, and an
    exception of the exit replaces the body's outcome. *)
Definition browser_block (workflow : list site_workflow) : M (list Listing.t) :=
  call PlaywrightStart ;;;
  r <- try_ (browser_session workflow) ;;
  call PlaywrightStop ;;;
  lift r.

(** Steps 1 to 3 of the [try] (lines 341-365). *)
Definition collect_results (query : string) : M (list Listing.t) :=
  parsed_query <- parse_query query ;;
  workflow <- logged (generate_mcp_workflow_logged (python w) (repr_container w)
                                                   parsed_query) ;;
  browser_block workflow.

(** The three messages [process_query] returns (lines 371, 374, 378). *)
Definition report_generated (filename : string) : string :=
  "Excel report generated: " ++ filename.

Definition no_results : string := "No results found for the query.".

Definition processing_error (e : exn) : string :=
  "Error processing query: " ++ exn_msg e.

(** The whole [try] (lines 340-374). *)
Definition process_body (query : string) : M string :=
  all_results <- collect_results query ;;
  match all_results with
  | [] =>
      log WARNING ("No results found for query: " ++ query) ;;;
      ret no_results
  | _ =>
      filename <- create_excel_report all_results query ;;
      ret (report_generated filename)
  end.

(** The [finally] (lines 379-388): its own [try] keeps any exception in. *)
Definition loop_cleanup : M unit :=
  r <- try_ (call LoopCleanup) ;;
  match r with
  | Ok _ => ret tt
  | Raise e => log ERROR ("Error during event loop cleanup: " ++ exn_msg e)
  end.

Definition process_query (query : string) : M string :=
  finally
    (r <- try_ (process_body query) ;;
     match r with
     | Ok message => ret message
     | Raise e =>
         log ERROR ("Error processing query '" ++ query ++ "': " ++ exn_msg e) ;;;
         ret (processing_error e)
     end)
    loop_cleanup.

End Processor.

(** ** The constructor and [main] *)

(** [QueryProcessor.__init__] (lines 36-82).  What it reads from outside is
    given as arguments: [getenv] is [os.getenv] and [ollama_list] is the
    outcome of [ollama.list()].  A key argument that is not given is
    [None].  The object it builds is the provider, the API key (groq and
    openai only) and the model name; the registry is [supported_sites]. *)
Module QueryProcessor.

Record t : Type := mk {
  llm_provider : provider;
  api_key : option string;
  model : string
}.

(** [key or os.getenv(name, None)]. *)
Definition key_or_env (key : option string) (from_env : option string)
  : option string :=
  match key with
  | Some k => if k =? "" then from_env else key
  | None => from_env
  end.

(** [not self.api_key]. *)
Definition no_key (key : option string) : bool :=
  match key with
  | Some k => k =? ""
  | None => true
  end.

(** The constructor with the error record it logs before it raises. *)
Definition init_logged (py : Python) (getenv : string -> option string)
           (ollama_list : result unit) (llm_provider : string)
           (groq_api_key openai_api_key : option string) (ollama_model : string)
  : list event * result t :=
  let name := lower py llm_provider in
  if name =? "groq" then
    let api_key := key_or_env groq_api_key (getenv "GROQ_API_KEY") in
    if no_key api_key then
      ([Log ERROR "No Groq API key provided"],
       Raise (Exn "ValueError" "Groq API key is required"))
    else ([], Ok (mk Groq api_key "mixtral-8x7b-32768"))
  else if name =? "openai" then
    let api_key := key_or_env openai_api_key (getenv "OPENAI_API_KEY") in
    if no_key api_key then
      ([Log ERROR "No OpenAI API key provided"],
       Raise (Exn "ValueError" "OpenAI API key is required"))
    else ([], Ok (mk OpenAI api_key "gpt-4o-mini"))
  else if name =? "ollama" then
    match ollama_list with
    | Ok _ => ([], Ok (mk Ollama None ollama_model))
    | Raise e =>
        ([Log ERROR ("Ollama server not running or model " ++ ollama_model
                     ++ " not available: " ++ exn_msg e)],
         Raise (Exn "ValueError"
                    ("Ollama server not running or model " ++ ollama_model
                     ++ " not available")))
    end
  else ([Log ERROR ("Unsupported LLM provider: " ++ name)],
        Raise (Exn "ValueError" ("Unsupported LLM provider: " ++ name))).

(** The object the constructor builds, or the exception it raises. *)
Definition init (py : Python) (getenv : string -> option string)
           (ollama_list : result unit) (llm_provider : string)
           (groq_api_key openai_api_key : option string) (ollama_model : string)
  : result t :=
  snd (init_logged py getenv ollama_list llm_provider groq_api_key
                   openai_api_key ollama_model).

End QueryProcessor.

(** [main] (lines 390-398); what it returns is what it prints. *)
Definition main (w : World) (getenv : string -> option string)
           (ollama_list : result unit) : M string :=
  processor <- logged (QueryProcessor.init_logged (python w) getenv ollama_list
                                                  "ollama" None None "llama3") ;;
  process_query w (QueryProcessor.llm_provider processor)
                "Find me laptops under ₹50,000".

(** * Vocabulary of the statements *)

Unset Implicit Arguments.

(** A site key is supported when its lower-case form is in the registry. *)
Definition is_supported (py : Python) (name : string) : bool :=
  match assoc (lower py name) supported_sites with
  | Some _ => true
  | None => false
  end.

Definition base_url_of (py : Python) (name : string) : string :=
  match assoc (lower py name) supported_sites with
  | Some base_url => base_url
  | None => ""
  end.

(** A valid intent: a dict whose [target_websites] is a list of site keys
    [sites] and whose [search_params] is a mapping [params]. *)
Definition is_intent (parsed_query : pyval) (sites : list string)
           (params : list (string * pyval)) : Prop :=
  exists d,
    parsed_query = PDict d /\
    assoc "target_websites" d = Some (PList (map PStr sites)) /\
    assoc "search_params" d = Some (PDict params).

(** The search term and the budget of an intent's parameters. *)
Definition intent_search_term (params : list (string * pyval)) : pyval :=
  let specific_product := dict_get params "specific_product" (PStr "") in
  if truthy specific_product then specific_product
  else dict_get params "category" (PStr "").

Definition intent_budget (params : list (string * pyval)) : pyval :=
  dict_get params "budget" (PStr "").

(** The entry a supported site key compiles to. *)
Definition compiled_entry (py : Python) (rc : pyval -> string)
           (params : list (string * pyval)) (name : string) : site_workflow :=
  SiteWorkflow name
    (site_steps rc (lower py name) (base_url_of py name)
                (intent_search_term params) (intent_budget params)).

Definition is_type_or_press (st : step) : bool :=
  (command st =? "browser_type") || (command st =? "browser_press").

(** [a] occurs in [b]. *)
Definition substring (a b : string) : Prop :=
  exists pre post, b = (pre ++ a ++ post)%string.

(** The steps end with the budget refinement: one Type action whose text
    holds the search term and the budget, then one KeyPress(Enter), and no
    other Type or KeyPress action before them. *)
Definition ends_with_budget_refinement (rc : pyval -> string)
           (search_term budget : pyval) (sts : list step) : Prop :=
  exists prefix sel text,
    sts = prefix ++ [Step "browser_type" (Some sel) (PStr text);
                     Step "browser_press" None (PStr "Enter")] /\
    substring (py_str rc search_term) text /\
    substring (py_str rc budget) text /\
    forallb (fun st => negb (is_type_or_press st)) prefix = true.

(** ** Reading a history *)

Definition is_log (e : event) : bool :=
  match e with
  | Log _ _ => true
  | _ => false
  end.

(** The events of a trace that are not log records. *)
Definition calls (tr : list event) : list event :=
  filter (fun e => negb (is_log e)) tr.

(** The sleep, if any, between the chat call of attempt [k - 1] and the
    chat call of attempt [k] (attempts are counted from 0); [pending] is
    the sleep seen since the last chat call. *)
Fixpoint delay_since (pending : option Z) (k : nat) (tr : list event) : option Z :=
  match tr with
  | [] => None
  | LLMChat _ _ :: tr' =>
      match k with
      | O => pending
      | S k' => delay_since None k' tr'
      end
  | Sleep seconds :: tr' => delay_since (Some seconds) k tr'
  | _ :: tr' => delay_since pending k tr'
  end.

Definition delay_before_attempt (k : nat) (tr : list event) : option Z :=
  delay_since None k tr.

Definition chat_calls (tr : list event) : nat :=
  List.length (filter (fun e => match e with LLMChat _ _ => true | _ => false end) tr).

(** Every call of the language-model backend raises. *)
Definition backend_always_fails (w : World) (p : provider) : Prop :=
  forall h pr, exists e, llm_chat w h p pr = Raise e.

(** What a step asks of the driver: the call [exec_step] makes, if it gets
    as far as making one. *)
Definition step_calls (rc : pyval -> string) (st : step) : list event :=
  if command st =? "browser_navigate" then [Goto (value st)]
  else if command st =? "browser_scroll" then
    [Evaluate ("window.scrollBy(0, " ++ py_str rc (value st) ++ ")")]
  else if command st =? "browser_wait" then
    match py_mul_1000 (value st) with
    | Ok ms => [WaitForTimeout ms]
    | Raise _ => []
    end
  else if command st =? "browser_type" then
    match selector st with
    | Some sel => [Fill sel (value st)]
    | None => []
    end
  else if command st =? "browser_press" then [Press (value st)]
  else [].

(** The events of one turn of the step loop started at history [h]: what
    the step did and, when it raised, the error record. *)
Definition step_trace (w : World) (site : string) (st : step) (h : history)
  : list event :=
  snd (exec_step w st h) ++
  match fst (exec_step w st h) with
  | Ok _ => []
  | Raise e => [Log ERROR (step_failed site e)]
  end.

(** The query for the listing containers that the extraction of [site]
    starts with (on flipkart after the wait for the first container); a
    site without extraction rule has no container. *)
Definition container_query (w : World) (site : string) : M (list elem) :=
  if lower (python w) site =? "amazon" then
    ret tt ;;; page_query_selector_all w ".s-result-item"
  else if lower (python w) site =? "flipkart" then
    call w (WaitForSelector "div._1AtVbE" 10000) ;;;
    page_query_selector_all w "div._1AtVbE"
  else ret [].

(** The label of the records of a site and the selectors of the title and
    of the price inside a container. *)
Definition item_rule (w : World) (site : string) : option (string * string * string) :=
  if lower (python w) site =? "amazon" then
    Some ("Amazon", "h2", ".a-price .a-offscreen")
  else if lower (python w) site =? "flipkart" then
    Some ("Flipkart", "a.s1Q9rs", "div._30jeq3")
  else None.

(** [items_read w label title_sel price_sel items h records t]: read one
    after the other from history [h] on, every item of [items] yields its
    record; [records] are these records and [t] the events of the reads. *)
Inductive items_read (w : World) (label title_sel price_sel : string)
  : list elem -> history -> list Listing.t -> list event -> Prop :=
| items_read_nil (h : history) :
    items_read w label title_sel price_sel [] h [] []
| items_read_cons (item : elem) (rest : list elem) (h : history)
                  (record : Listing.t) (t : list event)
                  (records : list Listing.t) (t' : list event) :
    scrape_item w label title_sel price_sel item h = (Ok record, t) ->
    items_read w label title_sel price_sel rest (h ++ t) records t' ->
    items_read w label title_sel price_sel (item :: rest) h
               (record :: records) (t ++ t').

(** Whether the second loop of the conditional formatting fills a price
    cell: the value of the cell parses, and to a number strictly below the
    average. *)
Definition highlight (w : World) (avg : number) (cell : option string) : bool :=
  match price_number w (value_or_0 cell) with
  | Some price_value => lt_number price_value avg
  | None => false
  end.

(** ** More vocabulary *)

(** The sleeps of a trace, in order. *)
Fixpoint sleeps (tr : list event) : list Z :=
  match tr with
  | [] => []
  | Sleep seconds :: tr' => seconds :: sleeps tr'
  | _ :: tr' => sleeps tr'
  end.

Fixpoint has_digit (s : string) : bool :=
  match s with
  | EmptyString => false
  | String c s' => is_digit c || has_digit s'
  end.

Definition is_str (v : pyval) : bool :=
  match v with
  | PStr _ => true
  | _ => false
  end.

Definition is_dict (v : pyval) : bool :=
  match v with
  | PDict _ => true
  | _ => false
  end.

(** The calls that start and stop the browser. *)
Definition is_browser_call (e : event) : bool :=
  match e with
  | PlaywrightStart | PlaywrightStop | Launch | NewPage | OnDialog
  | PageClose | BrowserClose => true
  | _ => false
  end.

(** A world in which starting and stopping the browser never fails. *)
Definition browser_never_fails (w : World) : Prop :=
  forall h e, is_browser_call e = true -> driver w h e = None.

Definition is_save (e : event) : bool :=
  match e with
  | SaveWorkbook _ _ => true
  | _ => false
  end.

Definition no_save (t : list event) : Prop :=
  Forall (fun e => is_save e = false) t.

(** The trace [t], started at [h], ends with a call that raised [e]. *)
Definition raised_by (w : World) (h : history) (t : list event) (e : exn) : Prop :=
  exists t' c, t = t' ++ [c] /\ driver w (h ++ t') c = Some e.

(** A part of the report that saves nothing and either returns [a] or
    raises what its last call raised. *)
Definition writes {A : Type} (w : World) (m : M A) (h : history) (a : A) : Prop :=
  no_save (snd (m h)) /\
  (fst (m h) = Ok a \/
   exists e, fst (m h) = Raise e /\ raised_by w h (snd (m h)) e).

(** The sheet after the loops of [create_excel_report] when every write
    returned. *)
Fixpoint with_headers (ws : worksheet) (col : nat) (headers : list string)
  : worksheet :=
  match headers with
  | [] => ws
  | header :: rest =>
      with_headers (set_header_style (set_value ws 1 col header) 1 col) (S col) rest
  end.

Fixpoint with_rows (ws : worksheet) (row : nat) (data : list Listing.t)
  : worksheet :=
  match data with
  | [] => ws
  | record :: rest =>
      with_rows
        (set_value
           (set_value
              (set_value (set_value ws row 1 (Listing.site record))
                         row 2 (Listing.title record))
              row 3 (Listing.price record))
           row 4 (Listing.timestamp record))
        (S row) rest
  end.

Fixpoint with_fills (w : World) (avg : number) (ws : worksheet) (row count : nat)
  : worksheet :=
  match count with
  | O => ws
  | S count' =>
      with_fills w avg
                 (if highlight w avg (cell_value ws row 3) then set_fill ws row 3
                  else ws)
                 (S row) count'
  end.

Definition sheet_written (data : list Listing.t) : worksheet :=
  with_rows (with_headers (new_sheet "Query Results") 1
                          ["Site"; "Product Title"; "Price"; "Timestamp"])
            2 data.

Definition report_sheet (w : World) (data : list Listing.t) : worksheet :=
  let ws2 := with_fills w (avg_price w (numeric_prices w data))
                        (sheet_written data) 2 (List.length data) in
  let ws3 := set_auto_filter ws2 (dimensions (List.length data + 1)) in
  let ws4 := match data with
             | [] => ws3
             | _ => add_chart ws3 (price_chart data)
             end in
  adjust_widths w ws4 (seq 1 4) (seq 1 (List.length data + 1)).

(** A string of [n] dots. *)
Fixpoint dots (n : nat) : string :=
  match n with
  | O => EmptyString
  | S n' => String "." (dots n')
  end.

(** ** Concrete inputs *)

(** An interpreter that takes every string for ASCII and adds floats
    plainly; on ASCII strings it is CPython up to 3.11. *)
Definition ascii_python : Python.
Proof.
  refine {| lower := ascii_lower;
            chars := ascii_chars;
            strip := ascii_strip;
            sub_non_numeric := ascii_sub_non_numeric;
            float_of_str := parse_float;
            len := String.length;
            compensated_sum := false |}; try reflexivity.
  intros s c H. apply in_map_iff in H. destruct H as (x & <- & _).
  cbn. repeat constructor.
Defined.

Definition repr_none (_ : pyval) : string := "".

(** The intent of the query "Find me laptops under 50,000". *)
Definition laptop_params : list (string * pyval) :=
  [ ("category", PStr "laptops"); ("budget", PStr "50,000") ].

Definition laptop_intent : pyval :=
  PDict [ ("query_type", PStr "product_search");
          ("target_websites", PList [PStr "amazon"; PStr "flipkart"]);
          ("search_params", PDict laptop_params) ].

(** An intent that names a site outside the registry between two
    supported ones, the second of them capitalised. *)
Definition mixed_intent : pyval :=
  PDict [ ("query_type", PStr "product_search");
          ("target_websites", PList [PStr "amazon"; PStr "ebay"; PStr "Flipkart"]);
          ("search_params", PDict laptop_params) ].

(** An intent that names amazon twice. *)
Definition twice_amazon_intent : pyval :=
  PDict [ ("query_type", PStr "product_search");
          ("target_websites", PList [PStr "amazon"; PStr "amazon"]);
          ("search_params", PDict laptop_params) ].

(** A world in which every call returns and every page is empty. *)
Definition quiet_world : World := {|
  python := ascii_python;
  repr_container := repr_none;
  json_loads := fun _ => Ok laptop_intent;
  llm_chat := fun _ _ _ => Ok "{}";
  driver := fun _ _ => None;
  query_selector_all := fun _ _ => Ok [];
  query_selector := fun _ _ _ => Ok None;
  inner_text := fun _ _ => Ok "";
  now := fun _ => "2024-01-01 00:00:00";
  uuid_hex8 := fun _ => "0123abcd"
|}.

(** The quiet world with a backend that is down. *)
Definition backend_down : exn := Exn "ConnectionError" "backend down".

Definition offline_world : World := {|
  python := ascii_python;
  repr_container := repr_none;
  json_loads := fun _ => Ok laptop_intent;
  llm_chat := fun _ _ _ => Raise backend_down;
  driver := fun _ _ => None;
  query_selector_all := fun _ _ => Ok [];
  query_selector := fun _ _ _ => Ok None;
  inner_text := fun _ _ => Ok "";
  now := fun _ => "2024-01-01 00:00:00";
  uuid_hex8 := fun _ => "0123abcd"
|}.

(** The quiet world with a page on which no selector can be filled. *)
Definition no_such_selector : exn := Exn "TimeoutError" "waiting for selector".

Definition unfillable_world : World := {|
  python := ascii_python;
  repr_container := repr_none;
  json_loads := fun _ => Ok laptop_intent;
  llm_chat := fun _ _ _ => Ok "{}";
  driver := fun _ e => match e with Fill _ _ => Some no_such_selector | _ => None end;
  query_selector_all := fun _ _ => Ok [];
  query_selector := fun _ _ _ => Ok None;
  inner_text := fun _ _ => Ok "";
  now := fun _ => "2024-01-01 00:00:00";
  uuid_hex8 := fun _ => "0123abcd"
|}.

Definition steps_with_bad_selector : list step :=
  [ Step "browser_navigate" None (PStr "https://www.flipkart.com/s?k=laptops");
    Step "browser_type" (Some "input[name='nope']") (PStr "laptops");
    Step "browser_press" None (PStr "Enter") ].

(** Three records with the prices "$100", "$50" and "garbage". *)
Definition priced (p : string) : Listing.t :=
  Listing.mk "Amazon" "laptop" p "2024-01-01 00:00:00".

Definition garbage_records : list Listing.t :=
  [ priced "$100"; priced "$50"; priced "garbage" ].

(** Three records whose prices have cents; the third price is their
    mean. *)
Definition cents_records : list Listing.t :=
  [ priced "$9.95"; priced "$49.95"; priced "$29.95" ].

(** The quiet world with a page that cannot be closed. *)
Definition target_closed : exn := Exn "Error" "Target page has been closed".

Definition stuck_page_world : World := {|
  python := ascii_python;
  repr_container := repr_none;
  json_loads := fun _ => Ok laptop_intent;
  llm_chat := fun _ _ _ => Ok "{}";
  driver := fun _ e => match e with PageClose => Some target_closed | _ => None end;
  query_selector_all := fun _ _ => Ok [];
  query_selector := fun _ _ _ => Ok None;
  inner_text := fun _ _ => Ok "";
  now := fun _ => "2024-01-01 00:00:00";
  uuid_hex8 := fun _ => "0123abcd"
|}.

(** A page with two listing containers; reading the second one raises. *)
Definition stale_element : exn := Exn "Error" "Element is not attached to the DOM".

Definition stale_item_world : World := {|
  python := ascii_python;
  repr_container := repr_none;
  json_loads := fun _ => Ok laptop_intent;
  llm_chat := fun _ _ _ => Ok "{}";
  driver := fun _ _ => None;
  query_selector_all := fun _ _ => Ok [1; 2]%nat;
  query_selector := fun _ item _ =>
    if (item =? 2)%nat then Raise stale_element else Ok (Some item);
  inner_text := fun _ _ => Ok " Laptop ";
  now := fun _ => "2024-01-01 00:00:00";
  uuid_hex8 := fun _ => "0123abcd"
|}.

(** The quiet world with a model that answers, but not in JSON. *)
Definition not_json : exn := Exn "JSONDecodeError" "Expecting value: line 1 column 1 (char 0)".

Definition chatty_world : World := {|
  python := ascii_python;
  repr_container := repr_none;
  json_loads := fun _ => Raise not_json;
  llm_chat := fun _ _ _ => Ok "Sure! Here are some laptops.";
  driver := fun _ _ => None;
  query_selector_all := fun _ _ => Ok [];
  query_selector := fun _ _ _ => Ok None;
  inner_text := fun _ _ => Ok "";
  now := fun _ => "2024-01-01 00:00:00";
  uuid_hex8 := fun _ => "0123abcd"
|}.

(** The quiet world with a model that answers with nothing. *)
Definition silent_world : World := {|
  python := ascii_python;
  repr_container := repr_none;
  json_loads := fun _ => Ok laptop_intent;
  llm_chat := fun _ _ _ => Ok "";
  driver := fun _ _ => None;
  query_selector_all := fun _ _ => Ok [];
  query_selector := fun _ _ _ => Ok None;
  inner_text := fun _ _ => Ok "";
  now := fun _ => "2024-01-01 00:00:00";
  uuid_hex8 := fun _ => "0123abcd"
|}.

(** A page with seven containers, none of which has a title or a price
    element. *)
Definition bare_items_world : World := {|
  python := ascii_python;
  repr_container := repr_none;
  json_loads := fun _ => Ok laptop_intent;
  llm_chat := fun _ _ _ => Ok "{}";
  driver := fun _ _ => None;
  query_selector_all := fun _ _ => Ok [1; 2; 3; 4; 5; 6; 7]%nat;
  query_selector := fun _ _ _ => Ok None;
  inner_text := fun _ _ => Ok "";
  now := fun _ => "2024-01-01 00:00:00";
  uuid_hex8 := fun _ => "0123abcd"
|}.

(** The quiet world with a disk that is full. *)
Definition disk_full : exn := Exn "OSError" "No space left on device".

Definition disk_full_world : World := {|
  python := ascii_python;
  repr_container := repr_none;
  json_loads := fun _ => Ok laptop_intent;
  llm_chat := fun _ _ _ => Ok "{}";
  driver := fun _ e => match e with SaveWorkbook _ _ => Some disk_full | _ => None end;
  query_selector_all := fun _ _ => Ok [];
  query_selector := fun _ _ _ => Ok None;
  inner_text := fun _ _ => Ok "";
  now := fun _ => "2024-01-01 00:00:00";
  uuid_hex8 := fun _ => "0123abcd"
|}.

(** The quiet world with a sheet that refuses the value of a price cell. *)
Definition illegal_character : exn := Exn "IllegalCharacterError" "garbage".

Definition strict_sheet_world : World := {|
  python := ascii_python;
  repr_container := repr_none;
  json_loads := fun _ => Ok laptop_intent;
  llm_chat := fun _ _ _ => Ok "{}";
  driver := fun _ e =>
    match e with
    | CellWrite _ 3 "garbage" => Some illegal_character
    | _ => None
    end;
  query_selector_all := fun _ _ => Ok [];
  query_selector := fun _ _ _ => Ok None;
  inner_text := fun _ _ => Ok "";
  now := fun _ => "2024-01-01 00:00:00";
  uuid_hex8 := fun _ => "0123abcd"
|}.

(** A model that asks for a site outside the registry, in a process whose
    event loop is running, so that the cleanup of the loop raises. *)
Definition ebay_intent : pyval :=
  PDict [ ("query_type", PStr "product_search");
          ("target_websites", PList [PStr "ebay"]);
          ("search_params", PDict laptop_params) ].

Definition loop_running : exn := Exn "RuntimeError" "This event loop is already running".

Definition ebay_world : World := {|
  python := ascii_python;
  repr_container := repr_none;
  json_loads := fun _ => Ok ebay_intent;
  llm_chat := fun _ _ _ => Ok "{}";
  driver := fun _ e => match e with LoopCleanup => Some loop_running | _ => None end;
  query_selector_all := fun _ _ => Ok [];
  query_selector := fun _ _ _ => Ok None;
  inner_text := fun _ _ => Ok "";
  now := fun _ => "2024-01-01 00:00:00";
  uuid_hex8 := fun _ => "0123abcd"
|}.

(** The quiet world with a model whose JSON is a list, not an object. *)
Definition list_world : World := {|
  python := ascii_python;
  repr_container := repr_none;
  json_loads := fun _ => Ok (PList []);
  llm_chat := fun _ _ _ => Ok "[]";
  driver := fun _ _ => None;
  query_selector_all := fun _ _ => Ok [];
  query_selector := fun _ _ _ => Ok None;
  inner_text := fun _ _ => Ok "";
  now := fun _ => "2024-01-01 00:00:00";
  uuid_hex8 := fun _ => "0123abcd"
|}.

(** An environment without variables. *)
Definition no_env (_ : string) : option string := None.

(** The quiet world with a flipkart page whose containers never show. *)
Definition wait_timeout : exn := Exn "TimeoutError" "Timeout 10000ms exceeded".

Definition slow_page_world : World := {|
  python := ascii_python;
  repr_container := repr_none;
  json_loads := fun _ => Ok laptop_intent;
  llm_chat := fun _ _ _ => Ok "{}";
  driver := fun _ e =>
    match e with WaitForSelector _ _ => Some wait_timeout | _ => None end;
  query_selector_all := fun _ _ => Ok [1; 2]%nat;
  query_selector := fun _ _ _ => Ok None;
  inner_text := fun _ _ => Ok "";
  now := fun _ => "2024-01-01 00:00:00";
  uuid_hex8 := fun _ => "0123abcd"
|}.

(** An environment that holds a groq key only. *)
Definition groq_env (name : string) : option string :=
  if name =? "GROQ_API_KEY" then Some "gsk_env" else None.

(** ** Proof steps for concrete inputs *)

(** A concrete dict is an intent. *)
Ltac intent_is_valid :=
  eexists; split; [reflexivity|split; reflexivity].

(** Walk down a computed trace to the event looked for. *)
Ltac find_event := repeat first [left; reflexivity | right].

(** * Properties *)

(** ** [generate_mcp_workflow] *)

Section CompilerProperties.

Variable py : Python.
Variable rc : pyval -> string.

Lemma compile_sites_keys (params : list (string * pyval))
      (sites : list string) (workflow : list site_workflow) :
  compile_sites py rc (intent_search_term params) (intent_budget params)
                (map PStr sites) workflow
  = (map unsupported_site
         (filter (fun name => negb (is_supported py name)) sites),
     Ok (workflow ++ map (compiled_entry py rc params)
                         (filter (is_supported py) sites))).
Proof.
  revert workflow.
  induction sites as [|name sites IH]; intros workflow;
    cbn [map filter compile_sites].
  - now rewrite app_nil_r.
  - assert (Hs : is_supported py name
                 = match assoc (lower py name) supported_sites with
                   | Some _ => true
                   | None => false
                   end) by reflexivity.
    rewrite Hs. clear Hs.
    destruct (assoc (lower py name) supported_sites) as [base_url|] eqn:E;
      cbn [negb].
    + rewrite IH. cbn [map]. rewrite <- app_assoc. cbn [app].
      unfold compiled_entry at 2, base_url_of. now rewrite E.
    + rewrite IH. reflexivity.
Qed.

Lemma compile_inputs_intent (parsed_query : pyval) (sites : list string)
      (params : list (string * pyval)) :
  is_intent parsed_query sites params ->
  compile_inputs py parsed_query
  = Ok (intent_search_term params, intent_budget params, map PStr sites).
Proof.
  intros (d & -> & Hsites & Hparams).
  unfold compile_inputs, py_get, dict_get.
  rewrite Hsites, Hparams. cbn [rbind py_iter].
  unfold intent_search_term, intent_budget, dict_get.
  now destruct (truthy match assoc "specific_product" params with
                       | Some v => v
                       | None => PStr ""
                       end).
Qed.

Lemma generate_mcp_workflow_logged_intent (parsed_query : pyval)
      (sites : list string) (params : list (string * pyval)) :
  is_intent parsed_query sites params ->
  generate_mcp_workflow_logged py rc parsed_query
  = (map unsupported_site
         (filter (fun name => negb (is_supported py name)) sites),
     Ok (map (compiled_entry py rc params) (filter (is_supported py) sites))).
Proof.
  intros Hi. unfold generate_mcp_workflow_logged.
  rewrite (compile_inputs_intent _ _ _ Hi).
  now rewrite (compile_sites_keys params sites []).
Qed.

Lemma generate_mcp_workflow_intent (parsed_query : pyval)
      (sites : list string) (params : list (string * pyval)) :
  is_intent parsed_query sites params ->
  generate_mcp_workflow py rc parsed_query
  = Ok (map (compiled_entry py rc params) (filter (is_supported py) sites)).
Proof.
  intros Hi. unfold generate_mcp_workflow.
  now rewrite (generate_mcp_workflow_logged_intent _ _ _ Hi).
Qed.

Lemma count_occ_filter_true (f : string -> bool) (l : list string) (x : string) :
  f x = true ->
  count_occ string_dec (filter f l) x = count_occ string_dec l x.
Proof.
  intros Hx. induction l as [|y l IH]; cbn [filter count_occ]; [reflexivity|].
  destruct (string_dec y x) as [->|Hne].
  - rewrite Hx. cbn [count_occ]. destruct (string_dec x x); congruence.
  - destruct (f y); cbn [count_occ]; [|exact IH].
    destruct (string_dec y x); congruence.
Qed.

Lemma map_site_compiled_entry (params : list (string * pyval))
      (names : list string) :
  map site (map (compiled_entry py rc params) names) = names.
Proof.
  induction names as [|n names IH]; cbn [map]; [reflexivity|].
  now rewrite IH.
Qed.

(** Every entry of a compiled workflow is the entry of a supported key. *)
Lemma compiled_workflow_entries (parsed_query : pyval)
      (sites : list string) (params : list (string * pyval))
      (workflow : list site_workflow) (sw : site_workflow) :
  is_intent parsed_query sites params ->
  generate_mcp_workflow py rc parsed_query = Ok workflow ->
  In sw workflow ->
  exists base_url,
    assoc (lower py (site sw)) supported_sites = Some base_url /\
    steps sw = site_steps rc (lower py (site sw)) base_url
                          (intent_search_term params) (intent_budget params).
Proof.
  intros Hi Hg Hin.
  rewrite (generate_mcp_workflow_intent _ _ _ Hi) in Hg.
  injection Hg as <-.
  apply in_map_iff in Hin. destruct Hin as (name & <- & Hname).
  apply filter_In in Hname. destruct Hname as [_ Hsup].
  unfold is_supported in Hsup. unfold compiled_entry, base_url_of. cbn [site steps].
  destruct (assoc (lower py name) supported_sites) as [base_url|]; [|discriminate].
  now exists base_url.
Qed.

(** The records of the compilation are log records. *)
Lemma compile_sites_logs (term budget : pyval) (sites : list pyval)
      (workflow : list site_workflow) :
  Forall (fun e => is_log e = true)
         (fst (compile_sites py rc term budget sites workflow)).
Proof.
  revert workflow. induction sites as [|v sites IH]; intros workflow;
    cbn [compile_sites]; [constructor|].
  destruct v; try constructor.
  destruct (assoc (lower py s) supported_sites); [apply IH|].
  specialize (IH workflow).
  destruct (compile_sites py rc term budget sites workflow) as [warnings r].
  cbn [fst] in *. constructor; [reflexivity|exact IH].
Qed.

Lemma generate_mcp_workflow_logs (parsed_query : pyval) :
  Forall (fun e => is_log e = true)
         (fst (generate_mcp_workflow_logged py rc parsed_query)).
Proof.
  unfold generate_mcp_workflow_logged.
  destruct (compile_inputs py parsed_query) as [[[term budget] sites]|e].
  - pose proof (compile_sites_logs term budget sites []) as H.
    destruct (compile_sites py rc term budget sites []) as [warnings [workflow|e]];
      cbn [fst] in *; [exact H|].
    apply Forall_app. split; [exact H|]. constructor; [reflexivity|constructor].
  - cbn. constructor; [reflexivity|constructor].
Qed.

End CompilerProperties.

(** C6.  For every valid intent [generate_mcp_workflow] returns (it does
    not raise), and the sites of the workflow it returns are the supported
    requested site keys in request order: one entry for each of them and
    none for a key that is not in the registry; each of the latter is
    logged as a warning and nothing else is logged.  A key is in the
    registry when [str.lower] takes it to "amazon" or "flipkart". *)
Theorem workflow_one_entry_per_supported_site (py : Python) (rc : pyval -> string)
        (parsed_query : pyval) (sites : list string)
        (params : list (string * pyval)) :
  is_intent parsed_query sites params ->
  exists workflow,
    generate_mcp_workflow py rc parsed_query = Ok workflow /\
    map site workflow = filter (is_supported py) sites /\
    (forall name, is_supported py name = false -> ~ In name (map site workflow)) /\
    fst (generate_mcp_workflow_logged py rc parsed_query)
    = map (fun name => Log WARNING ("Unsupported site: " ++ name))
          (filter (fun name => negb (is_supported py name)) sites).
Proof.
  intros Hi. eexists.
  split; [exact (generate_mcp_workflow_intent py rc _ _ _ Hi)|].
  rewrite map_site_compiled_entry. split; [reflexivity|]. split.
  - intros name Hn Hin. apply filter_In in Hin. destruct Hin as [_ Hin]. congruence.
  - now rewrite (generate_mcp_workflow_logged_intent py rc _ _ _ Hi).
Qed.

(** C4 (as amended).  Nothing is deduplicated: for every valid intent and
    every supported site key, the workflow has as many entries for the key
    as the key has occurrences in [target_websites]. *)
Theorem workflow_entry_per_occurrence (py : Python) (rc : pyval -> string)
        (parsed_query : pyval) (sites : list string)
        (params : list (string * pyval)) (name : string) :
  is_intent parsed_query sites params ->
  is_supported py name = true ->
  exists workflow,
    generate_mcp_workflow py rc parsed_query = Ok workflow /\
    count_occ string_dec (map site workflow) name
    = count_occ string_dec sites name.
Proof.
  intros Hi Hs. eexists.
  split; [exact (generate_mcp_workflow_intent py rc _ _ _ Hi)|].
  rewrite map_site_compiled_entry. now apply count_occ_filter_true.
Qed.

Lemma string_app_nil_r (s : string) : (s ++ "")%string = s.
Proof.
  induction s as [|c s IH]; cbn [append]; [reflexivity|]. now rewrite IH.
Qed.

Lemma string_app_assoc (a b c : string) :
  ((a ++ b) ++ c)%string = (a ++ b ++ c)%string.
Proof.
  induction a as [|x a IH]; cbn [append]; [reflexivity|]. now rewrite IH.
Qed.

Lemma substring_head (a b : string) : substring a (a ++ b).
Proof. now exists ""%string, b. Qed.

Lemma substring_last (a b : string) : substring b (a ++ b).
Proof. exists a, ""%string. now rewrite string_app_nil_r. Qed.

Lemma no_refinement_without_type (rc : pyval -> string) (search_term budget : pyval)
      (sts : list step) :
  forallb (fun st => negb (is_type_or_press st)) sts = true ->
  ~ ends_with_budget_refinement rc search_term budget sts.
Proof.
  intros Hall (prefix & sel & text & -> & _).
  rewrite forallb_app in Hall. apply andb_true_iff in Hall.
  destruct Hall as [_ Hall]. discriminate Hall.
Qed.

(** C5.  For every valid intent and every entry of the compiled workflow:
    the entry's steps end with exactly one Type action whose text holds the
    search term and the budget, followed by one KeyPress(Enter), if and
    only if the entry's site is the flipkart one, as [str.lower] sees it,
    and the budget is truthy (for a string: non-empty); in every other case
    the steps hold no Type and no KeyPress action at all. *)
Theorem budget_refinement_iff_flipkart_with_budget (py : Python)
        (rc : pyval -> string) (parsed_query : pyval) (sites : list string)
        (params : list (string * pyval))
        (workflow : list site_workflow) (sw : site_workflow) :
  is_intent parsed_query sites params ->
  generate_mcp_workflow py rc parsed_query = Ok workflow ->
  In sw workflow ->
  (ends_with_budget_refinement rc (intent_search_term params)
                               (intent_budget params) (steps sw)
   <-> lower py (site sw) = "flipkart" /\ truthy (intent_budget params) = true)
  /\
  (~ (lower py (site sw) = "flipkart" /\ truthy (intent_budget params) = true) ->
   forallb (fun st => negb (is_type_or_press st)) (steps sw) = true).
Proof.
  intros Hi Hg Hin.
  destruct (compiled_workflow_entries py rc _ _ _ _ _ Hi Hg Hin)
    as (base_url & _ & ->).
  unfold site_steps.
  destruct (truthy (intent_budget params)) eqn:Hb; cbn [andb].
  - destruct (lower py (site sw) =? "flipkart")%string eqn:Hs.
    + apply String.eqb_eq in Hs. split.
      * split; [intros _; now split|intros _].
        exists (base_steps rc base_url (intent_search_term params)),
               "input[name='q']"%string,
               (py_str rc (intent_search_term params) ++ " under "
                ++ py_str rc (intent_budget params))%string.
        split; [reflexivity|]. split; [apply substring_head|].
        split; [|reflexivity].
        rewrite <- string_app_assoc. apply substring_last.
      * intros Hn. exfalso. apply Hn. now split.
    + apply String.eqb_neq in Hs. split.
      * split; [intros Hr|intros [Hf _]; contradiction].
        exfalso. revert Hr. apply no_refinement_without_type. reflexivity.
      * intros _. reflexivity.
  - split.
    + split; [intros Hr|intros [_ Hf]; discriminate].
      exfalso. revert Hr. apply no_refinement_without_type. reflexivity.
    + intros _. reflexivity.
Qed.

(** C10.  For every valid intent and every entry of the compiled workflow,
    flipkart included: the entry's first step is the one Navigate action,
    and its URL is the registry's base URL of the site followed by the
    fixed path [/s?k=] and the search term; the registry holds a base URL
    per site and nothing else, and it is looked up under the lower-case
    form of the site key. *)
Theorem navigate_url_is_base_url_and_fixed_path (py : Python)
        (rc : pyval -> string) (parsed_query : pyval) (sites : list string)
        (params : list (string * pyval))
        (workflow : list site_workflow) (sw : site_workflow) :
  is_intent parsed_query sites params ->
  generate_mcp_workflow py rc parsed_query = Ok workflow ->
  In sw workflow ->
  exists base_url rest,
    assoc (lower py (site sw)) supported_sites = Some base_url /\
    steps sw =
      Step "browser_navigate" None
           (PStr (base_url ++ "/s?k=" ++ py_str rc (intent_search_term params)))
      :: rest /\
    forallb (fun st => negb (command st =? "browser_navigate")) rest = true /\
    (lower py (site sw) = "flipkart" -> base_url = "https://www.flipkart.com").
Proof.
  intros Hi Hg Hin.
  destruct (compiled_workflow_entries py rc _ _ _ _ _ Hi Hg Hin)
    as (base_url & Hbase & ->).
  exists base_url. unfold site_steps.
  destruct (truthy (intent_budget params)
            && (lower py (site sw) =? "flipkart")%string);
    eexists; (split; [exact Hbase|]); (split; [reflexivity|]);
    (split; [reflexivity|]); intros Hf; rewrite Hf in Hbase;
    cbv in Hbase; congruence.
Qed.

(** ** [parse_query] *)

Lemma attempt_body_backend_error (w : World) (p : provider) (query : string)
      (h : history) (e : exn) :
  llm_chat w h p (prompt query) = Raise e ->
  attempt_body w p query h = (Raise e, [LLMChat p (prompt query)]).
Proof.
  intros He. unfold attempt_body, bind, chat. now rewrite He.
Qed.

(** One failed attempt that is not the last: the call, the error record,
    the sleep, and then the remaining attempts. *)
Lemma parse_attempts_retry (w : World) (p : provider) (query : string)
      (retries attempt : nat) (rest : list nat) (h : history) (e : exn) :
  llm_chat w h p (prompt query) = Raise e ->
  (attempt <? retries - 1)%nat = true ->
  let t := [LLMChat p (prompt query);
            Log ERROR (attempt_failed p attempt retries query e);
            Sleep (2 ^ Z.of_nat attempt)] in
  parse_attempts w p query retries (attempt :: rest) h
  = (fst (parse_attempts w p query retries rest (h ++ t)),
     t ++ snd (parse_attempts w p query retries rest (h ++ t))).
Proof.
  intros He Hlt t. cbn [parse_attempts]. unfold bind at 1, try_ at 1.
  rewrite (attempt_body_backend_error w p query h e He).
  unfold bind at 1, log at 1, emit at 1. rewrite Hlt.
  unfold bind at 1, emit at 1. cbn [app].
  rewrite <- !app_assoc. cbn [app]. fold t.
  destruct (parse_attempts w p query retries rest (h ++ t)) as [r t']. reflexivity.
Qed.

(** The failed last attempt: the call, the error record, and the error
    raised again. *)
Lemma parse_attempts_last (w : World) (p : provider) (query : string)
      (retries attempt : nat) (rest : list nat) (h : history) (e : exn) :
  llm_chat w h p (prompt query) = Raise e ->
  (attempt <? retries - 1)%nat = false ->
  parse_attempts w p query retries (attempt :: rest) h
  = (Raise e, [LLMChat p (prompt query);
               Log ERROR (attempt_failed p attempt retries query e)]).
Proof.
  intros He Hlt. cbn [parse_attempts]. unfold bind at 1, try_ at 1.
  rewrite (attempt_body_backend_error w p query h e He).
  unfold bind at 1, log at 1, emit at 1. rewrite Hlt. reflexivity.
Qed.

(** C3 (as amended).  When every backend call fails, [parse_query] makes
    exactly three attempts: it sleeps 1 second between the first and the
    second and 2 seconds between the second and the third (the delay before
    retry attempt [k], for [k = 1, 2], is [2 ^ (k - 1)]), does nothing after
    the third failure but record it, and raises the error of the third
    attempt. *)
Theorem parse_query_exhausts_three_attempts (w : World) (p : provider)
        (query : string) (h : history) :
  backend_always_fails w p ->
  exists e0 e1 e2,
    let t0 := [LLMChat p (prompt query);
               Log ERROR (attempt_failed p 0 3 query e0); Sleep 1] in
    let t1 := [LLMChat p (prompt query);
               Log ERROR (attempt_failed p 1 3 query e1); Sleep 2] in
    let t2 := [LLMChat p (prompt query);
               Log ERROR (attempt_failed p 2 3 query e2)] in
    llm_chat w (h ++ t0 ++ t1) p (prompt query) = Raise e2 /\
    parse_query w p query h = (Raise e2, t0 ++ t1 ++ t2) /\
    chat_calls (snd (parse_query w p query h)) = 3%nat /\
    (forall k, (1 <= k <= 2)%nat ->
       delay_before_attempt k (snd (parse_query w p query h))
       = Some (2 ^ (Z.of_nat k - 1))%Z).
Proof.
  intros Hfail.
  destruct (Hfail h (prompt query)) as [e0 H0].
  set (t0 := [LLMChat p (prompt query);
              Log ERROR (attempt_failed p 0 3 query e0); Sleep 1]).
  destruct (Hfail (h ++ t0) (prompt query)) as [e1 H1].
  set (t1 := [LLMChat p (prompt query);
              Log ERROR (attempt_failed p 1 3 query e1); Sleep 2]).
  destruct (Hfail ((h ++ t0) ++ t1) (prompt query)) as [e2 H2].
  exists e0, e1, e2. cbv zeta. fold t0 t1.
  assert (Hrun : parse_query w p query h
                 = (Raise e2, t0 ++ t1 ++
                      [LLMChat p (prompt query);
                       Log ERROR (attempt_failed p 2 3 query e2)])).
  { unfold parse_query. cbn [seq].
    rewrite (parse_attempts_retry w p query 3 0 [1; 2]%nat h e0 H0 eq_refl).
    change (2 ^ Z.of_nat 0)%Z with 1%Z. fold t0.
    rewrite (parse_attempts_retry w p query 3 1 [2]%nat (h ++ t0) e1 H1 eq_refl).
    change (2 ^ Z.of_nat 1)%Z with 2%Z. fold t1.
    rewrite (parse_attempts_last w p query 3 2 [] ((h ++ t0) ++ t1) e2 H2 eq_refl).
    reflexivity. }
  split; [now rewrite app_assoc|].
  split; [exact Hrun|].
  rewrite Hrun. cbn [snd]. split; [reflexivity|].
  intros k [Hk1 Hk2].
  assert (Hk : k = 1%nat \/ k = 2%nat) by lia.
  destruct Hk as [-> | ->]; reflexivity.
Qed.

(** ** [scrape_site]: the step loop *)

Lemma exec_step_calls (w : World) (st : step) (h : history) :
  snd (exec_step w st h) = step_calls (repr_container w) st.
Proof.
  unfold exec_step, step_calls.
  destruct (command st =? "browser_navigate")%string; [reflexivity|].
  destruct (command st =? "browser_scroll")%string; [reflexivity|].
  destruct (command st =? "browser_wait")%string.
  { unfold bind, lift. now destruct (py_mul_1000 (value st)). }
  destruct (command st =? "browser_type")%string.
  { now destruct (selector st). }
  destruct (command st =? "browser_press")%string; reflexivity.
Qed.

Lemma calls_app (t t' : list event) : calls (t ++ t') = calls t ++ calls t'.
Proof. apply filter_app. Qed.

Lemma calls_step_calls (rc : pyval -> string) (st : step) :
  calls (step_calls rc st) = step_calls rc st.
Proof.
  unfold step_calls.
  destruct (command st =? "browser_navigate")%string; [reflexivity|].
  destruct (command st =? "browser_scroll")%string; [reflexivity|].
  destruct (command st =? "browser_wait")%string.
  { now destruct (py_mul_1000 (value st)). }
  destruct (command st =? "browser_type")%string.
  { now destruct (selector st). }
  destruct (command st =? "browser_press")%string; reflexivity.
Qed.

Lemma calls_step_trace (w : World) (site : string) (st : step) (h : history) :
  calls (step_trace w site st h) = step_calls (repr_container w) st.
Proof.
  unfold step_trace. rewrite calls_app, exec_step_calls, calls_step_calls.
  destruct (fst (exec_step w st h)); cbn; now rewrite app_nil_r.
Qed.

(** One turn of the loop, whatever the step did, and then the rest. *)
Lemma run_steps_cons (w : World) (site : string) (st : step) (rest : list step)
      (h : history) :
  run_steps w site (st :: rest) h
  = (fst (run_steps w site rest (h ++ step_trace w site st h)),
     step_trace w site st h
     ++ snd (run_steps w site rest (h ++ step_trace w site st h))).
Proof.
  cbn [run_steps]. unfold step_trace, bind at 1, bind at 1, try_ at 1.
  destruct (exec_step w st h) as [[u|e] t]; cbn [fst snd].
  - unfold ret at 1. cbn [app]. rewrite !app_nil_r.
    now destruct (run_steps w site rest (h ++ t)).
  - unfold log at 1, emit at 1. rewrite <- !app_assoc.
    now destruct (run_steps w site rest (h ++ t ++ [Log ERROR (step_failed site e)])).
Qed.

Lemma run_steps_returns (w : World) (site : string) (steps : list step)
      (h : history) :
  fst (run_steps w site steps h) = Ok tt.
Proof.
  revert h. induction steps as [|st rest IH]; intros h; [reflexivity|].
  rewrite run_steps_cons. cbn [fst]. apply IH.
Qed.

Lemma run_steps_app (w : World) (site : string) (pre post : list step)
      (h : history) :
  snd (run_steps w site (pre ++ post) h)
  = snd (run_steps w site pre h)
    ++ snd (run_steps w site post (h ++ snd (run_steps w site pre h))).
Proof.
  revert h. induction pre as [|st pre IH]; intros h.
  - cbn [app run_steps ret snd]. now rewrite app_nil_r.
  - rewrite <- app_comm_cons, !run_steps_cons. cbn [snd].
    rewrite IH, <- !app_assoc. reflexivity.
Qed.

(** C7.  For every step sequence, every page and every starting history the
    step loop of [scrape_site] runs to its end without raising, and it asks
    the driver for every step in order, whichever of them raised: a step
    that raises is followed by its error record and then by the steps after
    it, run in full. *)
Theorem run_steps_executes_every_step (w : World) (site : string)
        (pre : list step) (st : step) (post : list step) (h : history) :
  let steps := pre ++ st :: post in
  let h1 := h ++ snd (run_steps w site pre h) in
  fst (run_steps w site steps h) = Ok tt /\
  calls (snd (run_steps w site steps h))
  = flat_map (step_calls (repr_container w)) steps /\
  snd (run_steps w site steps h)
  = snd (run_steps w site pre h)
    ++ step_trace w site st h1
    ++ snd (run_steps w site post (h1 ++ step_trace w site st h1)).
Proof.
  cbv zeta. split; [apply run_steps_returns|]. split.
  - generalize (pre ++ st :: post). intros steps. revert h.
    induction steps as [|s steps IH]; intros h; [reflexivity|].
    rewrite run_steps_cons. cbn [snd flat_map].
    now rewrite calls_app, calls_step_trace, IH.
  - rewrite run_steps_app, run_steps_cons. reflexivity.
Qed.

(** A page on which the selector of the middle step cannot be filled: the
    key press after it is still sent. *)
Example bad_selector_in_the_middle :
  run_steps unfillable_world "flipkart" steps_with_bad_selector []
  = (Ok tt,
     [ Goto (PStr "https://www.flipkart.com/s?k=laptops");
       Fill "input[name='nope']" (PStr "laptops");
       Log ERROR "Error in MCP step for flipkart: waiting for selector";
       Press (PStr "Enter") ]).
Proof. reflexivity. Qed.

(** ** Running computations *)

Lemma bind_ok {A B : Type} (m : M A) (k : A -> M B) (h : history) (a : A)
      (t : list event) :
  m h = (Ok a, t) ->
  bind m k h = (fst (k a (h ++ t)), t ++ snd (k a (h ++ t))).
Proof.
  intros Hm. unfold bind. rewrite Hm. now destruct (k a (h ++ t)).
Qed.

Lemma bind_raise {A B : Type} (m : M A) (k : A -> M B) (h : history) (e : exn)
      (t : list event) :
  m h = (Raise e, t) -> bind m k h = (Raise e, t).
Proof. intros Hm. unfold bind. now rewrite Hm. Qed.

Lemma try_run {A : Type} (m : M A) (h : history) :
  try_ m h = (Ok (fst (m h)), snd (m h)).
Proof. unfold try_. now destruct (m h). Qed.

Lemma run_pair {A : Type} (m : M A) (h : history) : m h = (fst (m h), snd (m h)).
Proof. now destruct (m h). Qed.

Lemma bind_ok_inv {A B : Type} (m : M A) (k : A -> M B) (h : history) (b : B)
      (t : list event) :
  bind m k h = (Ok b, t) ->
  exists a t1 t2,
    m h = (Ok a, t1) /\ k a (h ++ t1) = (Ok b, t2) /\ t = t1 ++ t2.
Proof.
  unfold bind. destruct (m h) as [[a|e] t1]; [|discriminate].
  destruct (k a (h ++ t1)) as [r t2] eqn:Hk. intros H. injection H as -> <-.
  now exists a, t1, t2.
Qed.

Lemma emit_then {A : Type} (e : event) (k : M A) (h : history) :
  (emit e ;;; k) h = (fst (k (h ++ [e])), e :: snd (k (h ++ [e]))).
Proof. unfold bind, emit. now destruct (k (h ++ [e])). Qed.

Lemma log_then {A : Type} (lvl : level) (msg : string) (k : M A) (h : history) :
  (log lvl msg ;;; k) h
  = (fst (k (h ++ [Log lvl msg])), Log lvl msg :: snd (k (h ++ [Log lvl msg]))).
Proof. apply emit_then. Qed.

Lemma call_ok_inv (w : World) (e : event) (h : history) (u : unit)
      (t : list event) :
  call w e h = (Ok u, t) -> t = [e].
Proof. unfold call. intros H. now injection H as _ <-. Qed.

Lemma call_then_lift {A : Type} (w : World) (e : event) (r : result A)
      (h : history) :
  (call w e ;;; lift r) h
  = (match driver w h e with None => r | Some x => Raise x end, [e]).
Proof. unfold bind, call, lift. now destruct (driver w h e). Qed.

Lemma call_then_ret {A : Type} (w : World) (e : event) (a : A) (h : history) :
  (call w e ;;; ret a) h
  = (match driver w h e with None => Ok a | Some x => Raise x end, [e]).
Proof. unfold bind, call, ret. now destruct (driver w h e). Qed.

Lemma calls_of_logs (tr : list event) :
  Forall (fun e => is_log e = true) tr -> calls tr = [].
Proof.
  induction 1 as [|e l He _ IH]; [reflexivity|].
  unfold calls in *. cbn [filter]. now rewrite He.
Qed.

(** ** [scrape_site]: the extraction *)

Section Extraction.

Variable w : World.
Variables label title_sel price_sel : string.

Lemma scrape_items_cons (item : elem) (rest : list elem)
      (results : list Listing.t) (h : history) :
  scrape_items w label title_sel price_sel (item :: rest) results h
  = match scrape_item w label title_sel price_sel item h with
    | (Ok record, t) =>
        (fst (scrape_items w label title_sel price_sel rest (results ++ [record]) (h ++ t)),
         t ++ snd (scrape_items w label title_sel price_sel rest (results ++ [record]) (h ++ t)))
    | (Raise e, t) => (Ok (results, Raise e), t)
    end.
Proof.
  cbn [scrape_items].
  rewrite (bind_ok _ _ h _ _ (try_run _ h)).
  destruct (scrape_item w label title_sel price_sel item h) as [[record|e] t];
    cbn [fst snd]; [reflexivity|].
  unfold ret. now rewrite app_nil_r.
Qed.

(** The loop hands back the list it was given, extended by at most one
    record per item. *)
Lemma scrape_items_total (items : list elem) (results : list Listing.t)
      (h : history) :
  exists recs outcome,
    fst (scrape_items w label title_sel price_sel items results h)
    = Ok (results ++ recs, outcome) /\
    (List.length recs <= List.length items)%nat.
Proof.
  revert results h. induction items as [|item rest IH]; intros results h.
  - exists [], (Ok tt). cbn. now rewrite app_nil_r.
  - rewrite scrape_items_cons.
    destruct (scrape_item w label title_sel price_sel item h) as [[record|e] t].
    + destruct (IH (results ++ [record]) (h ++ t)) as (recs & outcome & Hr & Hl).
      exists (record :: recs), outcome. cbn [fst]. rewrite Hr.
      rewrite <- app_assoc. cbn [List.length app]. split; [reflexivity|lia].
    + exists [], (Raise e). cbn. rewrite app_nil_r. split; [reflexivity|lia].
Qed.

(** When the items before [item] all yield their record and [item] raises,
    the loop ends there and hands back the records of the items before. *)
Lemma scrape_items_stops_at_failure (pre : list elem) (item : elem)
      (post : list elem) (results recs : list Listing.t) (h : history)
      (t : list event) (e : exn) :
  scrape_items w label title_sel price_sel pre results h = (Ok (recs, Ok tt), t) ->
  fst (scrape_item w label title_sel price_sel item (h ++ t)) = Raise e ->
  fst (scrape_items w label title_sel price_sel (pre ++ item :: post) results h)
  = Ok (recs, Raise e).
Proof.
  revert results h t. induction pre as [|x pre IH]; intros results h t Hpre Hitem.
  - cbn in Hpre. injection Hpre as <- <-. rewrite app_nil_r in Hitem.
    cbn [app]. rewrite scrape_items_cons.
    destruct (scrape_item w label title_sel price_sel item h) as [[record|e'] t'];
      cbn [fst] in Hitem; [discriminate|]. now injection Hitem as ->.
  - rewrite <- app_comm_cons, scrape_items_cons.
    rewrite scrape_items_cons in Hpre.
    destruct (scrape_item w label title_sel price_sel x h) as [[record|e'] t'];
      [|discriminate].
    cbn [fst]. injection Hpre as Hf Ht.
    apply (IH (results ++ [record]) (h ++ t')
              (snd (scrape_items w label title_sel price_sel pre
                                 (results ++ [record]) (h ++ t')))).
    + rewrite <- Hf. apply run_pair.
    + rewrite <- app_assoc, Ht. exact Hitem.
Qed.

End Extraction.

(** One [try] block of the extraction: it returns the list it was given
    with at most five records added, no more than there are containers, and
    none when the query for the containers raises, which it records. *)
Lemma scrape_listings_total (w : World)
      (label container_sel title_sel price_sel : string) (before : M unit)
      (results : list Listing.t) (h : history) :
  let query := before ;;; page_query_selector_all w container_sel in
  let run := scrape_listings w label container_sel title_sel price_sel
                             before results h in
  exists recs,
    fst run = Ok (results ++ recs) /\
    (List.length recs <= 5)%nat /\
    (forall items, fst (query h) = Ok items ->
                   (List.length recs <= List.length items)%nat) /\
    (forall e, fst (query h) = Raise e ->
               recs = [] /\ In (Log ERROR (scraping_error label e)) (snd run)).
Proof.
  cbv zeta. unfold scrape_listings.
  rewrite (bind_ok _ _ h _ _ (try_run _ h)).
  set (q := (before ;;; page_query_selector_all w container_sel) h).
  destruct (fst q) as [items|e] eqn:Hq.
  - destruct (scrape_items_total w label title_sel price_sel (firstn 5 items)
                                 results (h ++ snd q))
      as (recs & outcome & Hr & Hl).
    rewrite length_firstn in Hl.
    assert (Hrun := run_pair (scrape_items w label title_sel price_sel
                                           (firstn 5 items) results) (h ++ snd q)).
    rewrite Hr in Hrun. rewrite (bind_ok _ _ _ _ _ Hrun). cbn [fst snd].
    exists recs. split; [now destruct outcome|].
    pose proof (Nat.le_min_l 5 (List.length items)) as Hm5.
    pose proof (Nat.le_min_r 5 (List.length items)) as Hmi.
    split; [eapply Nat.le_trans; eassumption|]. split; [|discriminate].
    intros items' Hi. injection Hi as <-. eapply Nat.le_trans; eassumption.
  - exists []. cbn [fst snd]. rewrite app_nil_r.
    split; [reflexivity|]. split; [cbn; lia|]. split; [discriminate|].
    intros e' He. injection He as <-. split; [reflexivity|].
    apply in_or_app. right. cbn. now left.
Qed.

(** What [scrape_site] returns, against the query for the containers made
    once the steps have run. *)
Lemma scrape_site_results (w : World) (site : string)
      (steps : list step) (h : history) :
  let h1 := h ++ snd (run_steps w site steps h) in
  exists results,
    fst (scrape_site w site steps h) = Ok results /\
    (List.length results <= 5)%nat /\
    (forall items, fst (container_query w site h1) = Ok items ->
                   (List.length results <= List.length items)%nat) /\
    (forall e, fst (container_query w site h1) = Raise e ->
               results = [] /\
               exists label,
                 In (Log ERROR (scraping_error label e))
                    (snd (scrape_site w site steps h))).
Proof.
  cbv zeta.
  unfold scrape_site, container_query.
  assert (Hsteps := run_pair (run_steps w site steps) h).
  rewrite run_steps_returns in Hsteps.
  rewrite (bind_ok _ _ _ _ _ Hsteps). cbn [fst snd].
  set (h1 := h ++ snd (run_steps w site steps h)).
  destruct (lower (python w) site =? "amazon")%string.
  { destruct (scrape_listings_total w "Amazon" ".s-result-item" "h2"
                ".a-price .a-offscreen" (ret tt) [] h1)
      as (recs & Hr & Hl & Hitems & Herr).
    exists recs. cbn [app] in Hr. repeat split; try assumption.
    - apply (Herr e H).
    - exists "Amazon"%string. apply in_or_app. right. apply (Herr e H). }
  destruct (lower (python w) site =? "flipkart")%string.
  { destruct (scrape_listings_total w "Flipkart" "div._1AtVbE" "a.s1Q9rs"
                "div._30jeq3" (call w (WaitForSelector "div._1AtVbE" 10000)) [] h1)
      as (recs & Hr & Hl & Hitems & Herr).
    exists recs. cbn [app] in Hr. repeat split; try assumption.
    - apply (Herr e H).
    - exists "Flipkart"%string. apply in_or_app. right. apply (Herr e H). }
  exists []. cbn. repeat split; try lia; discriminate.
Qed.

Lemma items_read_scrape_items (w : World) (label title_sel price_sel : string)
      (items : list elem) (h : history) (records : list Listing.t)
      (t : list event) (results : list Listing.t) :
  items_read w label title_sel price_sel items h records t ->
  scrape_items w label title_sel price_sel items results h
  = (Ok (results ++ records, Ok tt), t).
Proof.
  intros Hread. revert results.
  induction Hread as [h|item rest h record t records t' Hitem _ IH]; intros results.
  - cbn. now rewrite app_nil_r.
  - rewrite scrape_items_cons, Hitem, IH. cbn [fst snd].
    now rewrite <- app_assoc.
Qed.

(** One [try] block of the extraction against the reads of its items. *)
Lemma scrape_listings_reads (w : World)
      (label container_sel title_sel price_sel : string) (before : M unit)
      (h : history) (items : list elem) (tq : list event) :
  let run := scrape_listings w label container_sel title_sel price_sel
                             before [] h in
  (before ;;; page_query_selector_all w container_sel) h = (Ok items, tq) ->
  (forall pre item post records t e,
     firstn 5 items = pre ++ item :: post ->
     items_read w label title_sel price_sel pre (h ++ tq) records t ->
     fst (scrape_item w label title_sel price_sel item ((h ++ tq) ++ t)) = Raise e ->
     fst run = Ok records /\
     In (Log ERROR (scraping_error label e)) (snd run)) /\
  (forall records t,
     items_read w label title_sel price_sel (firstn 5 items) (h ++ tq) records t ->
     run = (Ok records, tq ++ t)).
Proof.
  cbv zeta. intros Hq. unfold scrape_listings.
  rewrite (bind_ok _ _ h _ _ (try_run _ h)). rewrite Hq. cbn [fst snd].
  split.
  - intros pre item post records t e Hsplit Hread Hitem. rewrite Hsplit.
    pose proof (items_read_scrape_items _ _ _ _ _ _ _ _ [] Hread) as Hpre.
    cbn [app] in Hpre.
    pose proof (scrape_items_stops_at_failure w label title_sel price_sel
                  pre item post [] records (h ++ tq) t e Hpre Hitem) as Hstop.
    assert (Hrun := run_pair (scrape_items w label title_sel price_sel
                                           (pre ++ item :: post) []) (h ++ tq)).
    rewrite Hstop in Hrun. rewrite (bind_ok _ _ _ _ _ Hrun). cbn [fst snd].
    rewrite log_then. cbn [fst snd ret]. split; [reflexivity|].
    apply in_or_app. right. apply in_or_app. right. now left.
  - intros records t Hread.
    pose proof (items_read_scrape_items _ _ _ _ _ _ _ _ [] Hread) as Hall.
    cbn [app] in Hall. rewrite (bind_ok _ _ _ _ _ Hall). cbn [fst snd ret].
    now rewrite app_nil_r.
Qed.

(** What [scrape_site] returns, against the reads of the items of the
    site's containers. *)
Lemma scrape_site_reads (w : World) (site : string) (steps : list step)
      (h : history) (label title_sel price_sel : string) (items : list elem)
      (tq : list event) :
  let h1 := h ++ snd (run_steps w site steps h) in
  let run := scrape_site w site steps h in
  item_rule w site = Some (label, title_sel, price_sel) ->
  container_query w site h1 = (Ok items, tq) ->
  (forall pre item post records t e,
     firstn 5 items = pre ++ item :: post ->
     items_read w label title_sel price_sel pre (h1 ++ tq) records t ->
     fst (scrape_item w label title_sel price_sel item ((h1 ++ tq) ++ t)) = Raise e ->
     fst run = Ok records /\
     In (Log ERROR (scraping_error label e)) (snd run)) /\
  (forall records t,
     items_read w label title_sel price_sel (firstn 5 items) (h1 ++ tq) records t ->
     run = (Ok records, snd (run_steps w site steps h) ++ tq ++ t)).
Proof.
  cbv zeta. unfold item_rule, container_query, scrape_site.
  assert (Hsteps := run_pair (run_steps w site steps) h).
  rewrite run_steps_returns in Hsteps.
  rewrite (bind_ok _ _ _ _ _ Hsteps). cbn [fst snd].
  set (h1 := h ++ snd (run_steps w site steps h)).
  destruct (lower (python w) site =? "amazon")%string.
  { intros Hrule Hq. injection Hrule as <- <- <-.
    destruct (scrape_listings_reads w "Amazon" ".s-result-item" "h2"
                ".a-price .a-offscreen" (ret tt) h1 items tq Hq) as [Hfail Hall].
    split.
    - intros pre item post records t e Hsplit Hread Hitem.
      destruct (Hfail pre item post records t e Hsplit Hread Hitem) as [Hr Hlog].
      split; [exact Hr|]. apply in_or_app. now right.
    - intros records t Hread. now rewrite (Hall records t Hread). }
  destruct (lower (python w) site =? "flipkart")%string; [|discriminate].
  intros Hrule Hq. injection Hrule as <- <- <-.
  destruct (scrape_listings_reads w "Flipkart" "div._1AtVbE" "a.s1Q9rs"
              "div._30jeq3" (call w (WaitForSelector "div._1AtVbE" 10000))
              h1 items tq Hq) as [Hfail Hall].
  split.
  - intros pre item post records t e Hsplit Hread Hitem.
    destruct (Hfail pre item post records t e Hsplit Hread Hitem) as [Hr Hlog].
    split; [exact Hr|]. apply in_or_app. now right.
  - intros records t Hread. now rewrite (Hall records t Hread).
Qed.

(** C8 (as amended).  For every site, every step list and every page,
    [scrape_site] returns (it never raises) with at most five records and
    never more than the query for the listing containers found; so it
    returns no record when no element matches.  When that query (or, on
    flipkart, the wait before it) raises, it returns no record and records
    the cause.  When reading one of the first five containers raises, it
    records the cause and returns the records of the containers read before
    it; when all of them are read, it returns their records. *)
Theorem scrape_site_bounded_and_total (w : World) (site : string)
        (steps : list step) (h : history) :
  let h1 := h ++ snd (run_steps w site steps h) in
  let run := scrape_site w site steps h in
  (exists results,
     fst run = Ok results /\
     (List.length results <= 5)%nat /\
     (forall items, fst (container_query w site h1) = Ok items ->
                    (List.length results <= List.length items)%nat) /\
     (forall e, fst (container_query w site h1) = Raise e ->
                results = [] /\
                exists label, In (Log ERROR (scraping_error label e)) (snd run)))
  /\
  (forall label title_sel price_sel items tq,
     item_rule w site = Some (label, title_sel, price_sel) ->
     container_query w site h1 = (Ok items, tq) ->
     (forall pre item post records t e,
        firstn 5 items = pre ++ item :: post ->
        items_read w label title_sel price_sel pre (h1 ++ tq) records t ->
        fst (scrape_item w label title_sel price_sel item ((h1 ++ tq) ++ t))
        = Raise e ->
        fst run = Ok records /\
        In (Log ERROR (scraping_error label e)) (snd run)) /\
     (forall records t,
        items_read w label title_sel price_sel (firstn 5 items) (h1 ++ tq)
                   records t ->
        run = (Ok records, snd (run_steps w site steps h) ++ tq ++ t))).
Proof.
  cbv zeta. split; [apply scrape_site_results|].
  intros label title_sel price_sel items tq Hrule Hq.
  exact (scrape_site_reads w site steps h label title_sel price_sel items tq
                           Hrule Hq).
Qed.

(** ** [create_excel_report]: prices *)

Lemma sub_non_numeric_digits (s : string) :
  digits_and_dots (ascii_sub_non_numeric s) = true.
Proof.
  induction s as [|c s IH]; cbn [ascii_sub_non_numeric]; [reflexivity|].
  destruct (is_digit c || is_dot c) eqn:E; [|exact IH].
  cbn [digits_and_dots]. now rewrite E.
Qed.

(** On an ASCII price the interpreter has no say. *)
Lemma price_number_ascii (w : World) (s : string) :
  is_ascii s = true ->
  price_number w s = parse_float (ascii_sub_non_numeric s).
Proof.
  intros H. unfold price_number.
  rewrite (sub_non_numeric_on_ascii (python w) s H).
  apply float_of_digits, sub_non_numeric_digits.
Qed.

(** ** [create_excel_report]: the writes *)

Lemma no_save_app (t t' : list event) : no_save t -> no_save t' -> no_save (t ++ t').
Proof. intros H H'. apply Forall_app. now split. Qed.

Lemma logs_no_save (t : list event) :
  Forall (fun e => is_log e = true) t -> no_save t.
Proof.
  intros H. eapply Forall_impl; [|exact H]. intros e He. now destruct e.
Qed.

Lemma raised_by_app (w : World) (h : history) (t1 t2 : list event) (e : exn) :
  raised_by w (h ++ t1) t2 e -> raised_by w h (t1 ++ t2) e.
Proof.
  intros (t' & c & -> & Hd). exists (t1 ++ t'), c.
  split; [now rewrite app_assoc|]. now rewrite app_assoc.
Qed.

Lemma writes_bind {A B : Type} (w : World) (m : M A) (k : A -> M B)
      (h : history) (a : A) (b : B) :
  writes w m h a ->
  writes w (k a) (h ++ snd (m h)) b ->
  writes w (bind m k) h b.
Proof.
  intros [Hs [Hok|(e & He & Hby)]] Hk; unfold writes;
    assert (Hm := run_pair m h).
  - rewrite Hok in Hm. rewrite (bind_ok _ _ _ _ _ Hm). cbn [fst snd].
    destruct Hk as [Hks [Hkok|(e & He & Hby)]].
    + split; [now apply no_save_app|now left].
    + split; [now apply no_save_app|right]. exists e. split; [exact He|].
      now apply raised_by_app.
  - rewrite He in Hm. rewrite (bind_raise _ _ _ _ _ Hm). cbn [fst snd].
    split; [exact Hs|right]. now exists e.
Qed.

Lemma write_cell_writes (w : World) (ws : worksheet) (row col : nat)
      (v : string) (h : history) :
  writes w (write_cell w ws row col v) h (set_value ws row col v).
Proof.
  unfold writes, write_cell. rewrite call_then_ret. cbn [fst snd].
  split; [repeat constructor|].
  destruct (driver w h (CellWrite row col v)) as [e|] eqn:E; [right|now left].
  exists e. split; [reflexivity|]. exists [], (CellWrite row col v).
  split; [reflexivity|]. now rewrite app_nil_r.
Qed.

Lemma write_headers_writes (w : World) (ws : worksheet) (col : nat)
      (headers : list string) (h : history) :
  writes w (write_headers w ws col headers) h (with_headers ws col headers).
Proof.
  revert ws col h. induction headers as [|header rest IH]; intros ws col h.
  - split; [constructor|now left].
  - cbn [write_headers with_headers].
    eapply writes_bind; [apply write_cell_writes|apply IH].
Qed.

Lemma write_rows_writes (w : World) (ws : worksheet) (row : nat)
      (data : list Listing.t) (h : history) :
  writes w (write_rows w ws row data) h (with_rows ws row data).
Proof.
  revert ws row h. induction data as [|record rest IH]; intros ws row h.
  - split; [constructor|now left].
  - cbn [write_rows with_rows].
    eapply writes_bind; [apply write_cell_writes|].
    eapply writes_bind; [apply write_cell_writes|].
    eapply writes_bind; [apply write_cell_writes|].
    eapply writes_bind; [apply write_cell_writes|apply IH].
Qed.

(** ** [create_excel_report]: the conditional formatting *)

(** One turn of the second loop. *)
Lemma format_rows_cons (w : World) (avg : number) (ws : worksheet)
      (row count : nat) (h : history) :
  let ws1 := if highlight w avg (cell_value ws row 3) then set_fill ws row 3
             else ws in
  let warning :=
    match price_number w (value_or_0 (cell_value ws row 3)) with
    | Some _ => []
    | None => [Log WARNING ("Failed to apply conditional formatting for row "
                            ++ str_of_nat row)]
    end in
  format_rows w avg ws row (S count) h
  = (fst (format_rows w avg ws1 (S row) count (h ++ warning)),
     warning ++ snd (format_rows w avg ws1 (S row) count (h ++ warning))).
Proof.
  cbv zeta. cbn [format_rows]. unfold highlight.
  destruct (price_number w (value_or_0 (cell_value ws row 3))) as [price_value|].
  - unfold bind at 1, ret at 1. cbn [app].
    now destruct (format_rows w avg _ (S row) count (h ++ [])).
  - unfold bind at 1. rewrite log_then. cbn [fst snd ret].
    now destruct (format_rows w avg ws (S row) count _).
Qed.

Lemma format_rows_fills (w : World) (avg : number) (ws : worksheet)
      (row count : nat) (h : history) :
  fst (format_rows w avg ws row count h) = Ok (with_fills w avg ws row count).
Proof.
  revert ws row h. induction count as [|count IH]; intros ws row h; [reflexivity|].
  rewrite format_rows_cons. cbn [fst with_fills]. apply IH.
Qed.

Lemma format_rows_logs (w : World) (avg : number) (ws : worksheet)
      (row count : nat) (h : history) :
  Forall (fun e => is_log e = true) (snd (format_rows w avg ws row count h)).
Proof.
  revert ws row h. induction count as [|count IH]; intros ws row h; [constructor|].
  rewrite format_rows_cons. cbn [snd]. apply Forall_app. split; [|apply IH].
  destruct (price_number w (value_or_0 (cell_value ws row 3)));
    constructor; [reflexivity|constructor].
Qed.

Lemma cell_value_filled (w : World) (avg : number) (ws : worksheet) (row r c : nat) :
  cell_value (if highlight w avg (cell_value ws row 3) then set_fill ws row 3
              else ws) r c
  = cell_value ws r c.
Proof. now destruct (highlight w avg (cell_value ws row 3)). Qed.

(** A row whose price cell does not parse gets its warning. *)
Lemma format_rows_warns (w : World) (avg : number) (ws : worksheet)
      (row count : nat) (h : history) (r : nat) :
  (row <= r < row + count)%nat ->
  price_number w (value_or_0 (cell_value ws r 3)) = None ->
  In (Log WARNING ("Failed to apply conditional formatting for row "
                   ++ str_of_nat r))
     (snd (format_rows w avg ws row count h)).
Proof.
  revert ws row h. induction count as [|count IH]; intros ws row h Hr Hnone; [lia|].
  rewrite format_rows_cons. cbn [snd]. apply in_or_app.
  destruct (Nat.eq_dec r row) as [->|Hne].
  - left. rewrite Hnone. now left.
  - right. apply IH; [lia|]. now rewrite cell_value_filled.
Qed.

Lemma with_fills_cells (w : World) (avg : number) (ws : worksheet)
      (row count : nat) :
  ws_cells (with_fills w avg ws row count) = ws_cells ws.
Proof.
  revert ws row. induction count as [|count IH]; intros ws row; [reflexivity|].
  cbn [with_fills]. rewrite IH.
  now destruct (highlight w avg (cell_value ws row 3)).
Qed.

(** The cells the second loop fills. *)
Lemma with_fills_In (w : World) (avg : number) (ws : worksheet)
      (row count : nat) (r c : nat) :
  In (r, c) (ws_fills (with_fills w avg ws row count)) <->
  In (r, c) (ws_fills ws) \/
  (c = 3%nat /\ (row <= r < row + count)%nat /\
   highlight w avg (cell_value ws r 3) = true).
Proof.
  revert ws row. induction count as [|count IH]; intros ws row.
  - cbn [with_fills]. split; [now left|]. intros [H|(_ & H & _)]; [exact H|lia].
  - cbn [with_fills]. rewrite IH. rewrite cell_value_filled.
    destruct (highlight w avg (cell_value ws row 3)) eqn:Hrow.
    + cbn [set_fill ws_fills In]. split.
      * intros [[H|H]|(Hc & Hr & Hh)].
        -- injection H as <- <-. right. split; [reflexivity|]. split; [lia|exact Hrow].
        -- now left.
        -- right. split; [exact Hc|]. split; [lia|exact Hh].
      * intros [H|(Hc & Hr & Hh)]; [left; now right|].
        destruct (Nat.eq_dec r row) as [->|Hne].
        -- left. left. now rewrite Hc.
        -- right. split; [exact Hc|]. split; [lia|exact Hh].
    + split.
      * intros [H|(Hc & Hr & Hh)]; [now left|].
        right. split; [exact Hc|]. split; [lia|exact Hh].
      * intros [H|(Hc & Hr & Hh)]; [now left|].
        destruct (Nat.eq_dec r row) as [->|Hne]; [congruence|].
        right. split; [exact Hc|]. split; [lia|exact Hh].
Qed.

Lemma conditional_formatting_fills (w : World) (data : list Listing.t)
      (ws : worksheet) (h : history) :
  fst (conditional_formatting w data ws h)
  = Ok (with_fills w (avg_price w (numeric_prices w data)) ws 2 (List.length data)).
Proof.
  destruct data as [|record data]; [reflexivity|].
  unfold conditional_formatting. apply format_rows_fills.
Qed.

Lemma conditional_formatting_logs (w : World) (data : list Listing.t)
      (ws : worksheet) (h : history) :
  Forall (fun e => is_log e = true) (snd (conditional_formatting w data ws h)).
Proof.
  destruct data as [|record data]; [constructor|].
  unfold conditional_formatting. apply format_rows_logs.
Qed.

Lemma conditional_formatting_warns (w : World) (data : list Listing.t)
      (ws : worksheet) (h : history) (r : nat) :
  (2 <= r < 2 + List.length data)%nat ->
  price_number w (value_or_0 (cell_value ws r 3)) = None ->
  In (Log WARNING ("Failed to apply conditional formatting for row "
                   ++ str_of_nat r))
     (snd (conditional_formatting w data ws h)).
Proof.
  destruct data as [|record data]; [cbn; lia|].
  unfold conditional_formatting. apply format_rows_warns.
Qed.

(** ** [create_excel_report]: the whole run *)

(** A part that writes, followed by more: either the part raises and that
    is the end, or the rest runs on what the part returns. *)
Lemma writes_then {A B : Type} (w : World) (m : M A) (k : A -> M B)
      (h : history) (a : A) :
  writes w m h a ->
  (exists e, raised_by w h (snd (m h)) e /\ bind m k h = (Raise e, snd (m h))) \/
  bind m k h = (fst (k a (h ++ snd (m h))), snd (m h) ++ snd (k a (h ++ snd (m h)))).
Proof.
  intros [_ [Hok|(e & He & Hby)]]; assert (Hm := run_pair m h).
  - right. rewrite Hok in Hm. apply (bind_ok _ _ _ _ _ Hm).
  - left. exists e. split; [exact Hby|]. rewrite He in Hm.
    apply (bind_raise _ _ _ _ _ Hm).
Qed.

Lemma writes_no_save {A : Type} (w : World) (m : M A) (h : history) (a : A) :
  writes w m h a -> no_save (snd (m h)).
Proof. now intros [H _]. Qed.

(** The [try] block of [create_excel_report]: either a cell write raises;
    or every cell is written, the rows are formatted, a file name is
    drawn, and the save decides. *)
Lemma report_body_cases (w : World) (data : list Listing.t) (h : history) :
  let body :=
    (ws0 <- write_headers w (new_sheet "Query Results") 1
              ["Site"; "Product Title"; "Price"; "Timestamp"] ;;
     ws1 <- write_rows w ws0 2 data ;;
     ws2 <- conditional_formatting w data ws1 ;;
     let ws3 := set_auto_filter ws2 (dimensions (List.length data + 1)) in
     let ws4 := match data with
                | [] => ws3
                | _ => add_chart ws3 (price_chart data)
                end in
     let ws5 := adjust_widths w ws4 (seq 1 4) (seq 1 (List.length data + 1)) in
     hex <- new_uuid_hex8 w ;;
     let filename := ("query_report_" ++ hex ++ ".xlsx")%string in
     call w (SaveWorkbook filename ws5) ;;;
     ret filename) in
  (exists t e, no_save t /\ raised_by w h t e /\ body h = (Raise e, t)) \/
  (exists tw hex,
     let tf := snd (conditional_formatting w data (sheet_written data) (h ++ tw)) in
     let filename := ("query_report_" ++ hex ++ ".xlsx")%string in
     let save := SaveWorkbook filename (report_sheet w data) in
     let t := tw ++ tf ++ [Uuid4] in
     no_save t /\
     body h = (match driver w (h ++ t) save with
               | None => Ok filename
               | Some e => Raise e
               end, t ++ [save])).
Proof.
  cbv zeta.
  set (headers := ["Site"; "Product Title"; "Price"; "Timestamp"]%string).
  pose proof (write_headers_writes w (new_sheet "Query Results") 1 headers h) as Hh.
  set (th := snd (write_headers w (new_sheet "Query Results") 1 headers h)) in *.
  destruct (writes_then w _
              (fun ws0 =>
                 ws1 <- write_rows w ws0 2 data ;;
                 ws2 <- conditional_formatting w data ws1 ;;
                 hex <- new_uuid_hex8 w ;;
                 call w (SaveWorkbook
                           ("query_report_" ++ hex ++ ".xlsx")
                           (adjust_widths w
                              match data with
                              | [] => set_auto_filter ws2
                                        (dimensions (List.length data + 1))
                              | _ => add_chart
                                       (set_auto_filter ws2
                                          (dimensions (List.length data + 1)))
                                       (price_chart data)
                              end (seq 1 4) (seq 1 (List.length data + 1)))) ;;;
                 ret ("query_report_" ++ hex ++ ".xlsx")%string)
              h _ Hh) as [(e & Hby & Hrun)|Hrun].
  { left. exists th, e. split; [exact (writes_no_save _ _ _ _ Hh)|]. now split. }
  rewrite Hrun. clear Hrun. fold th.
  set (ws0 := with_headers (new_sheet "Query Results") 1 headers).
  pose proof (write_rows_writes w ws0 2 data (h ++ th)) as Hr.
  set (tr := snd (write_rows w ws0 2 data (h ++ th))) in *.
  destruct (writes_then w _
              (fun ws1 =>
                 ws2 <- conditional_formatting w data ws1 ;;
                 hex <- new_uuid_hex8 w ;;
                 call w (SaveWorkbook
                           ("query_report_" ++ hex ++ ".xlsx")
                           (adjust_widths w
                              match data with
                              | [] => set_auto_filter ws2
                                        (dimensions (List.length data + 1))
                              | _ => add_chart
                                       (set_auto_filter ws2
                                          (dimensions (List.length data + 1)))
                                       (price_chart data)
                              end (seq 1 4) (seq 1 (List.length data + 1)))) ;;;
                 ret ("query_report_" ++ hex ++ ".xlsx")%string)
              (h ++ th) _ Hr) as [(e & Hby & Hrun)|Hrun].
  { left. exists (th ++ tr), e.
    split; [apply no_save_app; [exact (writes_no_save _ _ _ _ Hh)
                               |exact (writes_no_save _ _ _ _ Hr)]|].
    split; [now apply raised_by_app|]. now rewrite Hrun. }
  rewrite Hrun. clear Hrun. fold tr. fold (sheet_written data).
  right. exists (th ++ tr), (uuid_hex8 w ((h ++ th ++ tr)
           ++ snd (conditional_formatting w data (sheet_written data)
                                          (h ++ th ++ tr)))).
  rewrite <- !app_assoc.
  set (h2 := h ++ th ++ tr).
  assert (Hfmt := run_pair (conditional_formatting w data (sheet_written data)) h2).
  rewrite conditional_formatting_fills in Hfmt.
  set (tf := snd (conditional_formatting w data (sheet_written data) h2)) in *.
  split.
  { apply no_save_app; [exact (writes_no_save _ _ _ _ Hh)|].
    apply no_save_app; [exact (writes_no_save _ _ _ _ Hr)|].
    apply no_save_app; [apply logs_no_save, conditional_formatting_logs|].
    repeat constructor. }
  cbn [fst snd]. change (with_rows ws0 2 data) with (sheet_written data).
  rewrite (bind_ok _ _ _ _ _ Hfmt). cbn [fst snd].
  assert (Huuid : new_uuid_hex8 w (h2 ++ tf)
                  = (Ok (uuid_hex8 w (h2 ++ tf)), [Uuid4])) by reflexivity.
  rewrite (bind_ok _ _ _ _ _ Huuid). rewrite call_then_ret. cbn [fst snd].
  unfold report_sheet, h2. rewrite <- !app_assoc. reflexivity.
Qed.

Lemma create_excel_report_cases (w : World) (data : list Listing.t)
      (query : string) (h : history) :
  let run := create_excel_report w data query h in
  (exists t e,
     no_save t /\ raised_by w h t e /\
     run = (Raise e, t ++ [Log ERROR (report_failed e)])) \/
  (exists tw hex,
     let tf := snd (conditional_formatting w data (sheet_written data) (h ++ tw)) in
     let filename := ("query_report_" ++ hex ++ ".xlsx")%string in
     let save := SaveWorkbook filename (report_sheet w data) in
     let t := tw ++ tf ++ [Uuid4] in
     no_save t /\
     ((driver w (h ++ t) save = None /\ run = (Ok filename, t ++ [save])) \/
      (exists e, driver w (h ++ t) save = Some e /\
                 run = (Raise e, (t ++ [save]) ++ [Log ERROR (report_failed e)])))).
Proof.
  cbv zeta. unfold create_excel_report.
  rewrite (bind_ok _ _ _ _ _ (try_run _ _)).
  destruct (report_body_cases w data h) as [(t & e & Hs & Hby & Hrun)|Hsave];
    cbv zeta in *.
  - left. exists t, e. split; [exact Hs|]. split; [exact Hby|].
    rewrite Hrun. cbn [fst snd]. rewrite log_then. reflexivity.
  - right. destruct Hsave as (tw & hex & Hs & Hrun). exists tw, hex.
    split; [exact Hs|]. rewrite Hrun. cbn [fst snd].
    destruct (driver w _ (SaveWorkbook _ _)) as [e|].
    + right. exists e. split; [reflexivity|]. rewrite log_then. reflexivity.
    + left. split; [reflexivity|]. cbn [ret fst snd]. now rewrite app_nil_r.
Qed.

(** ** [create_excel_report]: the sheet that is saved *)

Lemma in_saved (t : list event) (save : event) (post : list event)
      (filename : string) (sheet : worksheet) :
  no_save t ->
  no_save post ->
  In (SaveWorkbook filename sheet) (t ++ save :: post) ->
  SaveWorkbook filename sheet = save.
Proof.
  intros Ht Hpost Hin. unfold no_save in *. rewrite Forall_forall in Ht, Hpost.
  apply in_app_or in Hin. destruct Hin as [Hin|[Hin|Hin]].
  - apply Ht in Hin. discriminate.
  - now symmetry.
  - apply Hpost in Hin. discriminate.
Qed.

(** The one workbook a run saves, if it gets that far: the sheet with all
    the writes, under a name of the fixed form; the run then holds the
    records of the conditional formatting. *)
Lemma saved_workbook (w : World) (data : list Listing.t) (query : string)
      (h : history) (filename : string) (sheet : worksheet) :
  In (SaveWorkbook filename sheet) (snd (create_excel_report w data query h)) ->
  sheet = report_sheet w data /\
  (exists hex, filename = ("query_report_" ++ hex ++ ".xlsx")%string) /\
  exists h2,
    forall e,
      In e (snd (conditional_formatting w data (sheet_written data) h2)) ->
      In e (snd (create_excel_report w data query h)).
Proof.
  intros Hin.
  destruct (create_excel_report_cases w data query h)
    as [(t & e & Hs & _ & Hrun)|(tw & hex & Hs & Hrun)]; cbv zeta in *.
  - rewrite Hrun in Hin. cbn [snd] in Hin. exfalso.
    apply in_app_or in Hin. destruct Hin as [Hin|[Hin|[]]]; [|discriminate].
    unfold no_save in Hs. rewrite Forall_forall in Hs. apply Hs in Hin.
    discriminate.
  - set (tf := snd (conditional_formatting w data (sheet_written data) (h ++ tw))) in *.
    assert (Hsave : SaveWorkbook filename sheet
                    = SaveWorkbook ("query_report_" ++ hex ++ ".xlsx")
                                   (report_sheet w data) /\
                    forall e, In e tf ->
                              In e (snd (create_excel_report w data query h))).
    { destruct Hrun as [[_ Hrun]|(e & _ & Hrun)]; rewrite Hrun in *;
        cbn [snd] in *.
      - split.
        + apply (in_saved _ _ [] _ _ Hs); [constructor|exact Hin].
        + intros e He. apply in_or_app. left. apply in_or_app. right.
          apply in_or_app. now left.
      - split.
        + rewrite <- app_assoc in Hin. cbn [app] in Hin.
          apply (in_saved _ _ _ _ _ Hs) in Hin; [exact Hin|].
          repeat constructor.
        + intros e' He. apply in_or_app. left. apply in_or_app. left.
          apply in_or_app. right. apply in_or_app. now left. }
    destruct Hsave as [Hsave Hlogs]. injection Hsave as -> ->.
    split; [reflexivity|]. split; [now exists hex|]. now exists (h ++ tw).
Qed.

Lemma cell_value_set_value (ws : worksheet) (row col : nat) (v : string)
      (r c : nat) :
  cell_value (set_value ws row col v) r c
  = if ((row =? r) && (col =? c))%nat then Some v else cell_value ws r c.
Proof. reflexivity. Qed.

Lemma with_rows_before (ws : worksheet) (row : nat) (data : list Listing.t)
      (r c : nat) :
  (r < row)%nat ->
  cell_value (with_rows ws row data) r c = cell_value ws r c.
Proof.
  revert ws row. induction data as [|record rest IH]; intros ws row Hr;
    [reflexivity|].
  cbn [with_rows]. rewrite IH by lia. rewrite !cell_value_set_value.
  assert (Hne : (row =? r)%nat = false) by (apply Nat.eqb_neq; lia).
  now rewrite Hne.
Qed.

(** The four cells of the row of a record. *)
Lemma with_rows_at (ws : worksheet) (row : nat) (data : list Listing.t)
      (i : nat) (record : Listing.t) :
  nth_error data i = Some record ->
  map (cell_value (with_rows ws row data) (row + i)) [1; 2; 3; 4]%nat
  = [Some (Listing.site record); Some (Listing.title record);
     Some (Listing.price record); Some (Listing.timestamp record)].
Proof.
  revert ws row i. induction data as [|first rest IH]; intros ws row i Hi.
  - now destruct i.
  - cbn [with_rows]. destruct i as [|i].
    + cbn in Hi. injection Hi as ->. rewrite Nat.add_0_r. cbn [map].
      rewrite !with_rows_before by lia. rewrite !cell_value_set_value.
      rewrite Nat.eqb_refl. reflexivity.
    + cbn in Hi. rewrite Nat.add_succ_r.
      change (S (row + i)) with (S row + i)%nat. now apply IH.
Qed.

Lemma with_rows_keeps (ws : worksheet) (row : nat) (data : list Listing.t) :
  let ws' := with_rows ws row data in
  ws_title ws' = ws_title ws /\
  ws_header_style ws' = ws_header_style ws /\
  ws_fills ws' = ws_fills ws /\
  ws_auto_filter ws' = ws_auto_filter ws /\
  ws_charts ws' = ws_charts ws.
Proof.
  cbv zeta. revert ws row. induction data as [|record rest IH]; intros ws row.
  - repeat split.
  - cbn [with_rows]. destruct (IH (set_value
           (set_value
              (set_value (set_value ws row 1 (Listing.site record))
                         row 2 (Listing.title record))
              row 3 (Listing.price record))
           row 4 (Listing.timestamp record)) (S row)) as (H1 & H2 & H3 & H4 & H5).
    rewrite H1, H2, H3, H4, H5. repeat split.
Qed.

Lemma with_fills_keeps (w : World) (avg : number) (ws : worksheet)
      (row count : nat) :
  let ws' := with_fills w avg ws row count in
  ws_title ws' = ws_title ws /\
  ws_header_style ws' = ws_header_style ws /\
  ws_auto_filter ws' = ws_auto_filter ws /\
  ws_charts ws' = ws_charts ws.
Proof.
  cbv zeta. revert ws row. induction count as [|count IH]; intros ws row.
  - repeat split.
  - cbn [with_fills].
    destruct (IH (if highlight w avg (cell_value ws row 3) then set_fill ws row 3
                  else ws) (S row)) as (H1 & H2 & H3 & H4).
    rewrite H1, H2, H3, H4.
    now destruct (highlight w avg (cell_value ws row 3)).
Qed.

Lemma adjust_widths_keeps (w : World) (ws : worksheet) (cols rows : list nat) :
  let ws' := adjust_widths w ws cols rows in
  ws_title ws' = ws_title ws /\
  ws_cells ws' = ws_cells ws /\
  ws_header_style ws' = ws_header_style ws /\
  ws_fills ws' = ws_fills ws /\
  ws_auto_filter ws' = ws_auto_filter ws /\
  ws_charts ws' = ws_charts ws.
Proof.
  cbv zeta. revert ws. induction cols as [|col cols IH]; intros ws.
  - repeat split.
  - cbn [adjust_widths].
    destruct (IH (set_width ws col (max_length w ws col rows 0 + 2)))
      as (H1 & H2 & H3 & H4 & H5 & H6).
    rewrite H1, H2, H3, H4, H5, H6. repeat split.
Qed.

(** The sheet after the auto-filter and the chart, before the widths. *)
Lemma report_sheet_fields (w : World) (data : list Listing.t) :
  let sheet := report_sheet w data in
  ws_title sheet = "Query Results"%string /\
  ws_cells sheet = ws_cells (sheet_written data) /\
  ws_header_style sheet = [(1, 4); (1, 3); (1, 2); (1, 1)]%nat /\
  ws_fills sheet
  = ws_fills (with_fills w (avg_price w (numeric_prices w data))
                         (sheet_written data) 2 (List.length data)) /\
  ws_auto_filter sheet = Some (dimensions (List.length data + 1)) /\
  ws_charts sheet = match data with
                    | [] => []
                    | _ => [price_chart data]
                    end.
Proof.
  cbv zeta. unfold report_sheet.
  match goal with
  | |- context [adjust_widths w ?ws ?cols ?rows] =>
      destruct (adjust_widths_keeps w ws cols rows)
        as (H1 & H2 & H3 & H4 & H5 & H6)
  end.
  rewrite H1, H2, H3, H4, H5, H6. clear H1 H2 H3 H4 H5 H6.
  destruct (with_fills_keeps w (avg_price w (numeric_prices w data))
                             (sheet_written data) 2 (List.length data))
    as (F1 & F2 & F3 & F4).
  pose proof (with_fills_cells w (avg_price w (numeric_prices w data))
                               (sheet_written data) 2 (List.length data)) as F5.
  destruct (with_rows_keeps
              (with_headers (new_sheet "Query Results") 1
                            ["Site"; "Product Title"; "Price"; "Timestamp"]%string)
              2 data) as (R1 & R2 & R3 & R4 & R5).
  fold (sheet_written data) in R1, R2, R3, R4, R5.
  destruct data as [|record rest];
    cbn [ws_title ws_cells ws_header_style ws_fills ws_auto_filter ws_charts
         set_auto_filter add_chart];
    rewrite F1, F2, F4, F5, R1, R2, R5; repeat split.
Qed.

(** The cells of the saved sheet: the headers in row 1, the records from
    row 2 on. *)
Lemma report_sheet_cell_value (w : World) (data : list Listing.t) (r c : nat) :
  cell_value (report_sheet w data) r c = cell_value (sheet_written data) r c.
Proof.
  destruct (report_sheet_fields w data) as (_ & Hcells & _).
  unfold cell_value. now rewrite Hcells.
Qed.

Lemma report_sheet_header_cells (w : World) (data : list Listing.t) :
  map (cell_value (report_sheet w data) 1) [1; 2; 3; 4]%nat
  = [Some "Site"; Some "Product Title"; Some "Price"; Some "Timestamp"]%string.
Proof.
  cbn [map]. rewrite !report_sheet_cell_value. unfold sheet_written.
  rewrite !with_rows_before by lia. reflexivity.
Qed.

Lemma report_sheet_record_cells (w : World) (data : list Listing.t) (i : nat)
      (record : Listing.t) :
  nth_error data i = Some record ->
  map (cell_value (report_sheet w data) (i + 2)) [1; 2; 3; 4]%nat
  = [Some (Listing.site record); Some (Listing.title record);
     Some (Listing.price record); Some (Listing.timestamp record)].
Proof.
  intros Hi.
  pose proof (with_rows_at
                (with_headers (new_sheet "Query Results") 1
                   ["Site"; "Product Title"; "Price"; "Timestamp"]%string)
                2 data i record Hi) as H.
  rewrite Nat.add_comm in H. cbn [map] in *.
  rewrite !report_sheet_cell_value. exact H.
Qed.

Lemma sheet_written_price_cell (data : list Listing.t) (i : nat)
      (record : Listing.t) :
  nth_error data i = Some record ->
  cell_value (sheet_written data) (i + 2) 3 = Some (Listing.price record).
Proof.
  intros Hi.
  pose proof (with_rows_at
                (with_headers (new_sheet "Query Results") 1
                   ["Site"; "Product Title"; "Price"; "Timestamp"]%string)
                2 data i record Hi) as H.
  rewrite Nat.add_comm in H. cbn [map] in H. injection H as _ _ H _. exact H.
Qed.

(** The cells of the saved sheet that carry the highlight fill. *)
Lemma report_sheet_fills (w : World) (data : list Listing.t) (r c : nat) :
  In (r, c) (ws_fills (report_sheet w data)) <->
  c = 3%nat /\
  exists i record,
    r = (i + 2)%nat /\ nth_error data i = Some record /\
    highlight w (avg_price w (numeric_prices w data))
              (Some (Listing.price record)) = true.
Proof.
  destruct (report_sheet_fields w data) as (_ & _ & _ & Hfills & _).
  rewrite Hfills, with_fills_In.
  destruct (with_rows_keeps
              (with_headers (new_sheet "Query Results") 1
                            ["Site"; "Product Title"; "Price"; "Timestamp"]%string)
              2 data) as (_ & _ & R3 & _).
  fold (sheet_written data) in R3. rewrite R3. cbn [ws_fills with_headers In].
  pose proof (sheet_written_price_cell data) as Hcell.
  split.
  - intros [[]|(Hc & Hr & Hh)]. split; [exact Hc|].
    destruct (nth_error data (r - 2)) as [record|] eqn:Hi.
    + exists (r - 2)%nat, record. split; [lia|]. split; [exact Hi|].
      rewrite <- (Hcell _ _ Hi). replace (r - 2 + 2)%nat with r by lia.
      exact Hh.
    + apply nth_error_None in Hi. lia.
  - intros (Hc & i & record & -> & Hi & Hh). right. split; [exact Hc|].
    assert (Hlt : (i < List.length data)%nat).
    { apply nth_error_Some. congruence. }
    split; [lia|]. now rewrite (Hcell _ _ Hi).
Qed.

Lemma highlight_ascii (w : World) (avg : number) (s : string) :
  is_ascii s = true ->
  highlight w avg (Some s)
  = match parse_float (ascii_sub_non_numeric (value_or_0 (Some s))) with
    | Some price_value => lt_number price_value avg
    | None => false
    end.
Proof.
  intros H. unfold highlight. rewrite price_number_ascii; [reflexivity|].
  cbn [value_or_0]. now destruct (s =? "")%string.
Qed.

Lemma garbage_numeric_prices (w : World) :
  numeric_prices w garbage_records
  = [Float (float_of_Z 100); Float (float_of_Z 50); Int 0].
Proof.
  unfold numeric_prices, garbage_records. cbn [map priced Listing.price].
  rewrite !price_number_ascii by reflexivity. reflexivity.
Qed.

Lemma garbage_avg_price (w : World) :
  avg_price w (numeric_prices w garbage_records) = Float (float_of_Z 50).
Proof.
  rewrite garbage_numeric_prices. unfold avg_price.
  destruct (compensated_sum (python w)); vm_compute; reflexivity.
Qed.

(** C1 (as amended).  For the records with prices "$100", "$50" and
    "garbage" the numeric prices are the floats 100 and 50 and the int 0,
    and their mean is the float 50, under any interpreter.  In the workbook
    that [create_excel_report] saves, for any records, the highlight fill
    is on exactly the price cells that parse, when read again, to a float
    strictly below the mean; a cell that does not parse is left unfilled and
    a warning is logged for its row.  Here no cell is filled: 100 and 50
    are not below 50, and "garbage" (row 4 of the sheet) does not parse. *)
Theorem below_average_highlight (w : World) (query : string) (h : history)
        (filename : string) (sheet : worksheet) :
  numeric_prices w garbage_records
  = [Float (float_of_Z 100); Float (float_of_Z 50); Int 0] /\
  avg_price w (numeric_prices w garbage_records) = Float (float_of_Z 50) /\
  (forall data i record,
     In (SaveWorkbook filename sheet) (snd (create_excel_report w data query h)) ->
     nth_error data i = Some record ->
     (In (i + 2, 3)%nat (ws_fills sheet) <->
      exists price_value,
        float_of_str (python w)
          (sub_non_numeric (python w) (value_or_0 (Some (Listing.price record))))
        = Some price_value /\
        lt_number price_value (avg_price w (numeric_prices w data)) = true) /\
     (float_of_str (python w)
        (sub_non_numeric (python w) (value_or_0 (Some (Listing.price record))))
      = None ->
      In (Log WARNING ("Failed to apply conditional formatting for row "
                       ++ str_of_nat (i + 2)))
         (snd (create_excel_report w data query h)))) /\
  (In (SaveWorkbook filename sheet)
      (snd (create_excel_report w garbage_records query h)) ->
   ws_fills sheet = [] /\
   In (Log WARNING "Failed to apply conditional formatting for row 4")
      (snd (create_excel_report w garbage_records query h))).
Proof.
  split; [apply garbage_numeric_prices|]. split; [apply garbage_avg_price|].
  assert (Hgeneral : forall data i record,
     In (SaveWorkbook filename sheet) (snd (create_excel_report w data query h)) ->
     nth_error data i = Some record ->
     (In (i + 2, 3)%nat (ws_fills sheet) <->
      exists price_value,
        price_number w (value_or_0 (Some (Listing.price record)))
        = Some price_value /\
        lt_number price_value (avg_price w (numeric_prices w data)) = true) /\
     (price_number w (value_or_0 (Some (Listing.price record))) = None ->
      In (Log WARNING ("Failed to apply conditional formatting for row "
                       ++ str_of_nat (i + 2)))
         (snd (create_excel_report w data query h)))).
  { intros data i record Hsaved Hi.
    destruct (saved_workbook w data query h filename sheet Hsaved)
      as (-> & _ & h2 & Hlogs).
    split.
    - rewrite report_sheet_fills. split.
      + intros (_ & i' & record' & Hr & Hi' & Hh).
        assert (i' = i) by lia. subst i'. rewrite Hi in Hi'.
        injection Hi' as <-. unfold highlight in Hh.
        destruct (price_number w (value_or_0 (Some (Listing.price record))))
          as [price_value|]; [|discriminate].
        now exists price_value.
      + intros (price_value & Hp & Hlt). split; [reflexivity|].
        exists i, record. split; [reflexivity|]. split; [exact Hi|].
        unfold highlight. now rewrite Hp.
    - intros Hnone. apply Hlogs. apply conditional_formatting_warns.
      + assert (Hlt : (i < List.length data)%nat).
        { apply nth_error_Some. congruence. }
        lia.
      + now rewrite (sheet_written_price_cell data i record Hi). }
  split; [exact Hgeneral|].
  intros Hsaved. split.
  - destruct (saved_workbook w _ query h filename sheet Hsaved) as (-> & _).
    destruct (ws_fills (report_sheet w garbage_records)) as [|[r c] fills] eqn:E;
      [reflexivity|exfalso].
    assert (Hin : In (r, c) (ws_fills (report_sheet w garbage_records))).
    { rewrite E. now left. }
    apply report_sheet_fills in Hin.
    destruct Hin as (_ & i & record & _ & Hi & Hh).
    rewrite garbage_avg_price in Hh.
    destruct i as [|[|[|[|i]]]]; cbn in Hi; try discriminate;
      injection Hi as <-; rewrite highlight_ascii in Hh by reflexivity;
      vm_compute in Hh; discriminate.
  - apply (Hgeneral garbage_records 2%nat (priced "garbage") Hsaved eq_refl).
    change (price_number w "garbage" = None).
    now rewrite price_number_ascii.
Qed.
(** ** [process_query] *)

Lemma scrape_workflow_returns (w : World) (workflow : list site_workflow)
      (all_results : list Listing.t) (h : history) :
  exists results, fst (scrape_workflow w workflow all_results h) = Ok results.
Proof.
  revert all_results h.
  induction workflow as [|sw workflow IH]; intros all_results h.
  - now exists all_results.
  - cbn [scrape_workflow].
    destruct (scrape_site_results w (site sw) (steps sw) h)
      as (site_results & Hs & _).
    assert (Hrun := run_pair (scrape_site w (site sw) (steps sw)) h).
    rewrite Hs in Hrun. rewrite (bind_ok _ _ _ _ _ Hrun). cbn [fst].
    apply IH.
Qed.

(** A session that returns has launched the browser, opened the page, and
    closed the page and then the browser as its last two calls. *)
Lemma browser_session_ok (w : World) (workflow : list site_workflow)
      (h : history) (all_results : list Listing.t) (t : list event) :
  browser_session w workflow h = (Ok all_results, t) ->
  exists ts, t = Launch :: NewPage :: OnDialog :: ts ++ [PageClose; BrowserClose].
Proof.
  unfold browser_session. intros H.
  apply bind_ok_inv in H. destruct H as (u1 & t1 & r1 & H1 & H & ->).
  apply call_ok_inv in H1. subst t1.
  apply bind_ok_inv in H. destruct H as (u2 & t2 & r2 & H2 & H & ->).
  apply call_ok_inv in H2. subst t2.
  apply bind_ok_inv in H. destruct H as (u3 & t3 & r3 & H3 & H & ->).
  apply call_ok_inv in H3. subst t3.
  apply bind_ok_inv in H. destruct H as (rs & ts & r4 & _ & H & ->).
  apply bind_ok_inv in H. destruct H as (u5 & t5 & r5 & H5 & H & ->).
  apply call_ok_inv in H5. subst t5.
  apply bind_ok_inv in H. destruct H as (u6 & t6 & r6 & H6 & H & ->).
  apply call_ok_inv in H6. subst t6.
  unfold ret in H. injection H as _ <-.
  exists ts. reflexivity.
Qed.

(** The block: once the context is entered it is left as the last call,
    and a block that returns has closed the page and then the browser just
    before. *)
Lemma browser_block_run (w : World) (workflow : list site_workflow)
      (h : history) (r : result (list Listing.t)) (t : list event) :
  browser_block w workflow h = (r, t) ->
  driver w h PlaywrightStart = None ->
  exists tb,
    t = PlaywrightStart :: tb ++ [PlaywrightStop] /\
    (forall all_results,
       r = Ok all_results ->
       exists ts,
         tb = Launch :: NewPage :: OnDialog :: ts ++ [PageClose; BrowserClose]).
Proof.
  unfold browser_block. intros H Hstart.
  assert (Hc : call w PlaywrightStart h = (Ok tt, [PlaywrightStart])).
  { unfold call. now rewrite Hstart. }
  rewrite (bind_ok _ _ _ _ _ Hc) in H.
  rewrite (bind_ok _ _ _ _ _ (try_run _ _)) in H.
  set (h1 := h ++ [PlaywrightStart]) in *.
  set (body := browser_session w workflow h1) in *.
  rewrite call_then_lift in H. cbn [fst snd app] in H.
  injection H as <- <-.
  exists (snd body). split; [reflexivity|].
  intros all_results Hr.
  destruct (driver w (h1 ++ snd body) PlaywrightStop) as [e|]; [discriminate|].
  apply (browser_session_ok w workflow h1 all_results).
  unfold body in *. rewrite <- Hr. apply run_pair.
Qed.

Lemma browser_block_ok (w : World) (workflow : list site_workflow)
      (h : history) (all_results : list Listing.t) (t : list event) :
  browser_block w workflow h = (Ok all_results, t) ->
  exists ts,
    t = PlaywrightStart :: Launch :: NewPage :: OnDialog
        :: ts ++ [PageClose; BrowserClose; PlaywrightStop].
Proof.
  intros H.
  destruct (driver w h PlaywrightStart) as [e|] eqn:Hstart.
  - unfold browser_block, bind at 1, call at 1 in H. rewrite Hstart in H.
    discriminate.
  - destruct (browser_block_run w workflow h _ t H Hstart) as (tb & -> & Hb).
    destruct (Hb all_results eq_refl) as (ts & ->).
    exists ts. cbn [app]. rewrite <- app_assoc. reflexivity.
Qed.

Lemma loop_cleanup_returns (w : World) (h : history) :
  fst (loop_cleanup w h) = Ok tt.
Proof.
  unfold loop_cleanup. rewrite (bind_ok _ _ _ _ _ (try_run _ _)). cbn [fst].
  now destruct (fst (call w LoopCleanup h)) as [[]|e].
Qed.

(** [process_query] returns: the message of the [try] when it returns, the
    error message when it raises. *)
Lemma process_query_run (w : World) (p : provider) (query : string)
      (h : history) :
  fst (process_query w p query h)
  = Ok (match fst (process_body w p query h) with
        | Ok message => message
        | Raise e => processing_error e
        end) /\
  exists post,
    snd (process_query w p query h) = snd (process_body w p query h) ++ post.
Proof.
  unfold process_query, finally.
  rewrite (bind_ok _ _ _ _ _ (try_run _ _)).
  set (b := process_body w p query h).
  destruct (fst b) as [message|e]; cbn [fst snd];
    match goal with
    | |- context [loop_cleanup w (h ++ snd b ++ snd ?x)] => set (handled := x)
    end;
    assert (Hc := loop_cleanup_returns w (h ++ snd b ++ snd handled));
    destruct (loop_cleanup w (h ++ snd b ++ snd handled)) as [rc tc];
    cbn [fst] in Hc; subst rc; cbn [fst snd];
    (split; [reflexivity|]); exists (snd handled ++ tc); now rewrite app_assoc.
Qed.

Lemma process_body_run (w : World) (p : provider) (query : string)
      (h : history) :
  let collected := collect_results w p query h in
  process_body w p query h
  = match fst collected with
    | Raise e => (Raise e, snd collected)
    | Ok [] =>
        (Ok no_results,
         snd collected ++ [Log WARNING ("No results found for query: " ++ query)])
    | Ok all_results =>
        let report := create_excel_report w all_results query (h ++ snd collected) in
        (match fst report with
         | Ok filename => Ok (report_generated filename)
         | Raise e => Raise e
         end, snd collected ++ snd report)
    end.
Proof.
  cbv zeta. unfold process_body.
  assert (Hrun := run_pair (collect_results w p query) h).
  destruct (fst (collect_results w p query h)) as [all_results|e].
  - rewrite (bind_ok _ _ _ _ _ Hrun).
    destruct all_results as [|record rest].
    + rewrite log_then. reflexivity.
    + set (h1 := h ++ snd (collect_results w p query h)).
      assert (Hrep := run_pair (create_excel_report w (record :: rest) query) h1).
      destruct (fst (create_excel_report w (record :: rest) query h1)) as [filename|e].
      * rewrite (bind_ok _ _ _ _ _ Hrep). cbn [fst snd ret]. now rewrite app_nil_r.
      * now rewrite (bind_raise _ _ _ _ _ Hrep).
  - now rewrite (bind_raise _ _ _ _ _ Hrun).
Qed.

Lemma messages_distinct (filename : string) (e : exn) :
  report_generated filename <> no_results /\
  report_generated filename <> processing_error e /\
  no_results <> processing_error e.
Proof.
  unfold report_generated, no_results, processing_error. cbn [append].
  repeat split; intros H; discriminate H.
Qed.

(** A report that returns a file name has saved, as its last call, the
    sheet with all the writes under that name. *)
Lemma create_excel_report_saves (w : World) (data : list Listing.t)
      (query : string) (h : history) (filename : string) :
  fst (create_excel_report w data query h) = Ok filename ->
  In (SaveWorkbook filename (report_sheet w data))
     (snd (create_excel_report w data query h)).
Proof.
  destruct (create_excel_report_cases w data query h)
    as [(t & e & _ & _ & Hrun)|(tw & hex & _ & [[_ Hrun]|(e & _ & Hrun)])];
    cbv zeta in *; rewrite Hrun; cbn [fst snd]; try discriminate.
  intros Hf. injection Hf as <-. apply in_or_app. right. now left.
Qed.

(** C2.  For every query, every world and every starting history
    [process_query] returns a message and never raises, and the message is
    one of three, which are pairwise different: "Error processing query: "
    with the description of the exception when one escapes parsing,
    compilation or the browser block; "No results found for the query."
    when these return no record, whatever sites were asked for; and, when
    they return records, "Excel report generated: " with the name of the
    file [create_excel_report] returns, or the error message again when
    [create_excel_report] raises.  On the success path the run has saved a
    workbook under the name in the message, and the rows of its sheet are
    the records. *)
Theorem process_query_three_outcomes (w : World) (p : provider)
        (query : string) (h : history) :
  let collected := collect_results w p query h in
  let run := process_query w p query h in
  (exists message,
     fst run = Ok message /\
     match fst collected with
     | Raise e => message = ("Error processing query: " ++ exn_msg e)%string
     | Ok [] => message = "No results found for the query."%string
     | Ok all_results =>
         match fst (create_excel_report w all_results query (h ++ snd collected)) with
         | Ok filename =>
             message = ("Excel report generated: " ++ filename)%string /\
             exists sheet,
               In (SaveWorkbook filename sheet) (snd run) /\
               forall i record,
                 nth_error all_results i = Some record ->
                 map (cell_value sheet (i + 2)) [1; 2; 3; 4]%nat
                 = [Some (Listing.site record); Some (Listing.title record);
                    Some (Listing.price record); Some (Listing.timestamp record)]
         | Raise e => message = ("Error processing query: " ++ exn_msg e)%string
         end
     end) /\
  (forall filename e,
     ("Excel report generated: " ++ filename)%string
     <> "No results found for the query."%string /\
     ("Excel report generated: " ++ filename)%string
     <> ("Error processing query: " ++ exn_msg e)%string /\
     "No results found for the query."%string
     <> ("Error processing query: " ++ exn_msg e)%string).
Proof.
  cbv zeta. split; [|apply messages_distinct].
  destruct (process_query_run w p query h) as [Hq [post Hpost]].
  pose proof (process_body_run w p query h) as Hb. cbv zeta in Hb.
  eexists. split; [exact Hq|]. rewrite Hpost, Hb.
  destruct (fst (collect_results w p query h)) as [[|record rest]|e];
    try reflexivity.
  cbn [fst snd].
  set (h1 := h ++ snd (collect_results w p query h)).
  pose proof (create_excel_report_saves w (record :: rest) query h1) as Hsave.
  destruct (fst (create_excel_report w (record :: rest) query h1))
    as [filename|e]; [|reflexivity].
  split; [reflexivity|]. exists (report_sheet w (record :: rest)). split.
  - apply in_or_app. left. apply in_or_app. right. now apply Hsave.
  - intros i r Hi. now apply report_sheet_record_cells.
Qed.

(** A run that collects its records has closed the page and then the
    browser and left the context, as the last three calls before. *)
Lemma collect_results_ok (w : World) (p : provider) (query : string)
      (h : history) (all_results : list Listing.t) :
  fst (collect_results w p query h) = Ok all_results ->
  exists a,
    snd (collect_results w p query h)
    = a ++ [PageClose; BrowserClose; PlaywrightStop].
Proof.
  intros Hok. assert (Hrun := run_pair (collect_results w p query) h).
  rewrite Hok in Hrun.
  set (tr := snd (collect_results w p query h)) in *. clearbody tr.
  unfold collect_results in Hrun.
  apply bind_ok_inv in Hrun.
  destruct Hrun as (parsed & t1 & r1 & _ & Hrun & ->).
  apply bind_ok_inv in Hrun.
  destruct Hrun as (workflow & t2 & r2 & _ & Hrun & ->).
  apply browser_block_ok in Hrun. destruct Hrun as (ts & ->).
  exists (t1 ++ t2 ++ PlaywrightStart :: Launch :: NewPage :: OnDialog :: ts).
  rewrite <- !app_assoc. cbn [app]. reflexivity.
Qed.

(** C9 (as amended).  Whenever the browser block completes, and so
    whenever [process_query] returns the success or the no-results message,
    the page is closed and then the browser is closed, page first, right
    before the Playwright context is left.  On every path on which the
    context was entered, the error paths too, the context is left as the
    last call of the block. *)
Theorem teardown_when_block_completes (w : World) (p : provider)
        (query : string) (h : history) :
  (forall workflow h' r t,
     browser_block w workflow h' = (r, t) ->
     driver w h' PlaywrightStart = None ->
     exists tb,
       t = PlaywrightStart :: tb ++ [PlaywrightStop] /\
       (forall all_results,
          r = Ok all_results ->
          exists ts,
            tb = Launch :: NewPage :: OnDialog :: ts ++ [PageClose; BrowserClose]))
  /\
  (forall message,
     fst (process_query w p query h) = Ok message ->
     message = no_results \/ (exists filename, message = report_generated filename) ->
     exists a c,
       snd (process_query w p query h)
       = a ++ [PageClose; BrowserClose; PlaywrightStop] ++ c).
Proof.
  split; [apply browser_block_run|].
  intros message Hm Hkind.
  destruct (process_query_run w p query h) as [Hq [post Hpost]].
  pose proof (process_body_run w p query h) as Hb. cbv zeta in Hb.
  rewrite Hq in Hm. injection Hm as Hm.
  assert (Hcollected : exists all_results,
             fst (collect_results w p query h) = Ok all_results).
  { destruct (fst (collect_results w p query h)) as [all_results|e];
      [now exists all_results|].
    rewrite Hb in Hm. cbn [fst] in Hm. subst message. exfalso.
    destruct Hkind as [Hk|[filename Hk]].
    - destruct (messages_distinct ""%string e) as (_ & _ & H3). congruence.
    - destruct (messages_distinct filename e) as (_ & H2 & _). congruence. }
  destruct Hcollected as [all_results Hc].
  destruct (collect_results_ok w p query h all_results Hc) as [a Ha].
  assert (Hpost' : exists post',
             snd (process_body w p query h)
             = snd (collect_results w p query h) ++ post').
  { rewrite Hb, Hc. destruct all_results; cbn [snd]; eexists; reflexivity. }
  destruct Hpost' as [post' Hpost'].
  exists a, (post' ++ post).
  rewrite Hpost, Hpost', Ha, <- !app_assoc. reflexivity.
Qed.

(** * The statements at concrete inputs *)

(** ** [generate_mcp_workflow] *)

Lemma workflow_one_entry_per_supported_site_witness :
  exists workflow,
    generate_mcp_workflow ascii_python repr_none mixed_intent = Ok workflow /\
    map site workflow = ["amazon"; "Flipkart"]%string /\
    (forall name, is_supported ascii_python name = false ->
                  ~ In name (map site workflow)) /\
    fst (generate_mcp_workflow_logged ascii_python repr_none mixed_intent)
    = [Log WARNING "Unsupported site: ebay"].
Proof.
  apply (workflow_one_entry_per_supported_site
           ascii_python repr_none mixed_intent ["amazon"; "ebay"; "Flipkart"]
           laptop_params).
  intent_is_valid.
Defined.

(** The laptop intent compiles to an amazon and a flipkart entry, in that
    order, without a warning. *)
Example laptop_intent_compiled :
  generate_mcp_workflow_logged ascii_python repr_none laptop_intent
  = ([], Ok [compiled_entry ascii_python repr_none laptop_params "amazon";
             compiled_entry ascii_python repr_none laptop_params "flipkart"]).
Proof. reflexivity. Qed.

Lemma workflow_entry_per_occurrence_witness :
  exists workflow,
    generate_mcp_workflow ascii_python repr_none twice_amazon_intent = Ok workflow /\
    count_occ string_dec (map site workflow) "amazon"
    = count_occ string_dec ["amazon"; "amazon"] "amazon".
Proof.
  apply (workflow_entry_per_occurrence
           ascii_python repr_none twice_amazon_intent ["amazon"; "amazon"]
           laptop_params "amazon").
  - intent_is_valid.
  - reflexivity.
Defined.

(** An intent that names amazon twice gets two amazon entries, not one. *)
Lemma amazon_twice_compiled_twice :
  is_intent twice_amazon_intent ["amazon"; "amazon"] laptop_params /\
  exists workflow,
    generate_mcp_workflow ascii_python repr_none twice_amazon_intent = Ok workflow /\
    map site workflow = ["amazon"; "amazon"] /\
    ~ NoDup (map site workflow).
Proof.
  split; [intent_is_valid|].
  eexists. split; [reflexivity|]. split; [reflexivity|].
  cbn. intros H. inversion H as [|x l Hnotin _]. apply Hnotin. now left.
Qed.

Lemma budget_refinement_iff_flipkart_with_budget_witness :
  let sw := compiled_entry ascii_python repr_none laptop_params "flipkart" in
  (ends_with_budget_refinement repr_none (intent_search_term laptop_params)
                               (intent_budget laptop_params) (steps sw)
   <-> lower ascii_python (site sw) = "flipkart" /\
       truthy (intent_budget laptop_params) = true)
  /\
  (~ (lower ascii_python (site sw) = "flipkart" /\
      truthy (intent_budget laptop_params) = true) ->
   forallb (fun st => negb (is_type_or_press st)) (steps sw) = true).
Proof.
  apply (budget_refinement_iff_flipkart_with_budget
           ascii_python repr_none laptop_intent ["amazon"; "flipkart"] laptop_params
           [compiled_entry ascii_python repr_none laptop_params "amazon";
            compiled_entry ascii_python repr_none laptop_params "flipkart"]).
  - intent_is_valid.
  - reflexivity.
  - right. left. reflexivity.
Defined.

Lemma navigate_url_is_base_url_and_fixed_path_witness :
  let sw := compiled_entry ascii_python repr_none laptop_params "flipkart" in
  exists base_url rest,
    assoc (lower ascii_python (site sw)) supported_sites = Some base_url /\
    steps sw =
      Step "browser_navigate" None
           (PStr (base_url ++ "/s?k="
                  ++ py_str repr_none (intent_search_term laptop_params)))
      :: rest /\
    forallb (fun st => negb (command st =? "browser_navigate")) rest = true /\
    (lower ascii_python (site sw) = "flipkart" ->
     base_url = "https://www.flipkart.com").
Proof.
  apply (navigate_url_is_base_url_and_fixed_path
           ascii_python repr_none laptop_intent ["amazon"; "flipkart"] laptop_params
           [compiled_entry ascii_python repr_none laptop_params "amazon";
            compiled_entry ascii_python repr_none laptop_params "flipkart"]).
  - intent_is_valid.
  - reflexivity.
  - right. left. reflexivity.
Defined.

(** The flipkart entry of the laptop intent, in full. *)
Example flipkart_entry_of_laptop_intent :
  compiled_entry ascii_python repr_none laptop_params "flipkart"
  = SiteWorkflow "flipkart"
      [ Step "browser_navigate" None (PStr "https://www.flipkart.com/s?k=laptops");
        Step "browser_scroll" None (PInt 2000);
        Step "browser_wait" None (PInt 2);
        Step "browser_type" (Some "input[name='q']") (PStr "laptops under 50,000");
        Step "browser_press" None (PStr "Enter") ].
Proof. reflexivity. Qed.

(** ** [parse_query] *)

Lemma parse_query_exhausts_three_attempts_witness :
  exists e0 e1 e2,
    let query := "laptops"%string in
    let t0 := [LLMChat Groq (prompt query);
               Log ERROR (attempt_failed Groq 0 3 query e0); Sleep 1] in
    let t1 := [LLMChat Groq (prompt query);
               Log ERROR (attempt_failed Groq 1 3 query e1); Sleep 2] in
    let t2 := [LLMChat Groq (prompt query);
               Log ERROR (attempt_failed Groq 2 3 query e2)] in
    llm_chat offline_world ([] ++ t0 ++ t1) Groq (prompt query) = Raise e2 /\
    parse_query offline_world Groq query [] = (Raise e2, t0 ++ t1 ++ t2) /\
    chat_calls (snd (parse_query offline_world Groq query [])) = 3%nat /\
    (forall k, (1 <= k <= 2)%nat ->
       delay_before_attempt k (snd (parse_query offline_world Groq query []))
       = Some (2 ^ (Z.of_nat k - 1))%Z).
Proof.
  apply (parse_query_exhausts_three_attempts offline_world Groq "laptops" []).
  intros h pr. exists backend_down. reflexivity.
Defined.

(** With the backend down the sleep before attempt 1 is 1 second, which is
    not [2 ^ 1]. *)
Lemma first_retry_delay_is_one_second :
  backend_always_fails offline_world Groq /\
  delay_before_attempt 1 (snd (parse_query offline_world Groq "laptops" []))
  = Some 1%Z /\
  Some 1%Z <> Some (2 ^ 1)%Z.
Proof.
  split; [intros h pr; exists backend_down; reflexivity|].
  split; [reflexivity|discriminate].
Qed.

(** ** [create_excel_report] *)

Lemma below_average_highlight_witness :
  let run := create_excel_report quiet_world garbage_records "laptops" [] in
  exists sheet,
    In (SaveWorkbook "query_report_0123abcd.xlsx" sheet) (snd run) /\
    ws_fills sheet = [] /\
    In (Log WARNING "Failed to apply conditional formatting for row 4") (snd run).
Proof.
  cbv zeta. exists (report_sheet quiet_world garbage_records).
  assert (Hsaved : In (SaveWorkbook "query_report_0123abcd.xlsx"
                                    (report_sheet quiet_world garbage_records))
                      (snd (create_excel_report quiet_world garbage_records
                                                "laptops" []))).
  { vm_compute. find_event. }
  split; [exact Hsaved|].
  apply (below_average_highlight quiet_world "laptops" []
           "query_report_0123abcd.xlsx"
           (report_sheet quiet_world garbage_records)).
  exact Hsaved.
Defined.

(** The "garbage" row has numeric price 0, strictly below the mean, and
    its cell is not filled in the workbook that is saved. *)
Lemma garbage_row_below_mean_not_highlighted :
  let run := create_excel_report quiet_world garbage_records "laptops" [] in
  let avg := avg_price quiet_world (numeric_prices quiet_world garbage_records) in
  nth_error (numeric_prices quiet_world garbage_records) 2 = Some (Int 0) /\
  lt_number (float_of_Z 0) avg = true /\
  exists sheet,
    In (SaveWorkbook "query_report_0123abcd.xlsx" sheet) (snd run) /\
    cell_value sheet 4 3 = Some "garbage"%string /\
    ~ In (4, 3)%nat (ws_fills sheet).
Proof.
  cbv zeta. split; [reflexivity|]. split; [reflexivity|].
  exists (report_sheet quiet_world garbage_records).
  split; [vm_compute; find_event|]. split; [reflexivity|].
  vm_compute. intros [].
Qed.

(** What is written and saved for these records in a world that lets
    every call through. *)
Example garbage_report_trace :
  snd (create_excel_report quiet_world garbage_records "laptops" [])
  = [ CellWrite 1 1 "Site"; CellWrite 1 2 "Product Title";
      CellWrite 1 3 "Price"; CellWrite 1 4 "Timestamp";
      CellWrite 2 1 "Amazon"; CellWrite 2 2 "laptop";
      CellWrite 2 3 "$100"; CellWrite 2 4 "2024-01-01 00:00:00";
      CellWrite 3 1 "Amazon"; CellWrite 3 2 "laptop";
      CellWrite 3 3 "$50"; CellWrite 3 4 "2024-01-01 00:00:00";
      CellWrite 4 1 "Amazon"; CellWrite 4 2 "laptop";
      CellWrite 4 3 "garbage"; CellWrite 4 4 "2024-01-01 00:00:00";
      Log WARNING "Failed to apply conditional formatting for row 4";
      Uuid4;
      SaveWorkbook "query_report_0123abcd.xlsx"
                   (report_sheet quiet_world garbage_records) ].
Proof. vm_compute. reflexivity. Qed.

(** ** [scrape_site] *)

Lemma scrape_site_bounded_and_total_witness :
  let run := scrape_site stale_item_world "amazon" [] [] in
  fst run = Ok [Listing.mk "Amazon" "Laptop" "Laptop" "2024-01-01 00:00:00"] /\
  In (Log ERROR "Scraping error on Amazon: Element is not attached to the DOM")
     (snd run).
Proof.
  cbv zeta.
  pose proof (scrape_site_bounded_and_total stale_item_world "amazon" [] []) as H.
  cbv zeta in H. destruct H as [_ H].
  destruct (H "Amazon"%string "h2"%string ".a-price .a-offscreen"%string
              [1; 2]%nat [QuerySelectorAll ".s-result-item"] eq_refl eq_refl)
    as [Hfail _].
  apply (Hfail [1]%nat 2%nat []
               [Listing.mk "Amazon" "Laptop" "Laptop" "2024-01-01 00:00:00"]
               ([QuerySelector 1 "h2"; QuerySelector 1 ".a-price .a-offscreen";
                 InnerText 1; InnerText 1; Now] ++ [])
               stale_element).
  - reflexivity.
  - apply items_read_cons; [reflexivity|apply items_read_nil].
  - reflexivity.
Defined.

(** Reading the second of two containers raises: the cause is recorded
    and the record of the first container is returned, not an empty list. *)
Lemma stale_item_keeps_earlier_record :
  let run := scrape_site stale_item_world "amazon" [] [] in
  In (Log ERROR (scraping_error "Amazon" stale_element)) (snd run) /\
  fst run = Ok [Listing.mk "Amazon" "Laptop" "Laptop" "2024-01-01 00:00:00"] /\
  fst run <> Ok [].
Proof.
  cbv zeta. split; [|split; [reflexivity|discriminate]].
  vm_compute. find_event.
Qed.

(** ** [process_query] *)

Lemma process_query_three_outcomes_witness :
  fst (process_query stale_item_world Groq "laptops" [])
  = Ok "Excel report generated: query_report_0123abcd.xlsx"%string /\
  (exists sheet,
     In (SaveWorkbook "query_report_0123abcd.xlsx" sheet)
        (snd (process_query stale_item_world Groq "laptops" [])) /\
     cell_value sheet 2 2 = Some "Laptop"%string) /\
  fst (process_query quiet_world Groq "laptops" [])
  = Ok "No results found for the query."%string /\
  fst (process_query offline_world Groq "laptops" [])
  = Ok "Error processing query: backend down"%string.
Proof.
  pose proof (process_query_three_outcomes stale_item_world Groq "laptops" [])
    as Hsuccess.
  pose proof (process_query_three_outcomes quiet_world Groq "laptops" [])
    as Hempty.
  pose proof (process_query_three_outcomes offline_world Groq "laptops" [])
    as Herror.
  cbv zeta in *.
  destruct Hsuccess as [(m1 & Hm1 & Hcase1) _].
  destruct Hempty as [(m2 & Hm2 & Hcase2) _].
  destruct Herror as [(m3 & Hm3 & Hcase3) _].
  rewrite Hm1, Hm2, Hm3.
  change (m2 = "No results found for the query."%string) in Hcase2.
  change (m3 = "Error processing query: backend down"%string) in Hcase3.
  change (m1 = "Excel report generated: query_report_0123abcd.xlsx"%string /\
          exists sheet,
            In (SaveWorkbook "query_report_0123abcd.xlsx" sheet)
               (snd (process_query stale_item_world Groq "laptops" [])) /\
            forall i record,
              nth_error
                [Listing.mk "Amazon" "Laptop" "Laptop" "2024-01-01 00:00:00";
                 Listing.mk "Flipkart" "Laptop" "Laptop" "2024-01-01 00:00:00"]
                i = Some record ->
              map (cell_value sheet (i + 2)) [1; 2; 3; 4]%nat
              = [Some (Listing.site record); Some (Listing.title record);
                 Some (Listing.price record); Some (Listing.timestamp record)])
    in Hcase1.
  destruct Hcase1 as (-> & sheet & Hsaved & Hrows). subst m2 m3.
  split; [reflexivity|]. split; [|split; reflexivity].
  exists sheet. split; [exact Hsaved|].
  specialize (Hrows 0%nat _ eq_refl). cbn [map] in Hrows.
  injection Hrows as _ Htitle _ _. exact Htitle.
Defined.

Lemma teardown_when_block_completes_witness :
  exists a c,
    snd (process_query quiet_world Groq "laptops" [])
    = a ++ [PageClose; BrowserClose; PlaywrightStop] ++ c.
Proof.
  destruct (teardown_when_block_completes quiet_world Groq "laptops" [])
    as [_ H].
  apply (H no_results); [reflexivity|left; reflexivity].
Defined.

(** A page that cannot be closed: [process_query] returns the error
    message, and the browser that was launched is never closed. *)
Lemma stuck_page_leaves_browser_unclosed :
  let run := process_query stuck_page_world Groq "laptops" [] in
  fst run = Ok (processing_error target_closed) /\
  In Launch (snd run) /\
  In PageClose (snd run) /\
  ~ In BrowserClose (snd run).
Proof.
  cbv zeta. split; [reflexivity|].
  vm_compute.
  split; [find_event|]. split; [find_event|].
  intros H. repeat (destruct H as [H|H]; [discriminate H|]). exact H.
Qed.

(** The laptop query on two empty pages: the no-results message. *)
Example laptops_on_empty_pages :
  fst (process_query quiet_world Ollama "Find me laptops under 50,000" [])
  = Ok "No results found for the query."%string.
Proof. reflexivity. Qed.

(** * Further properties *)

(** ** [generate_mcp_workflow]: ill-formed and incomplete intents *)

Section IllFormedIntents.

Variable py : Python.
Variable rc : pyval -> string.

Lemma generate_of_inputs_ok (parsed_query : pyval) (term budget : pyval)
      (sites : list pyval) :
  compile_inputs py parsed_query = Ok (term, budget, sites) ->
  generate_mcp_workflow py rc parsed_query
  = snd (compile_sites py rc term budget sites []).
Proof.
  intros H. unfold generate_mcp_workflow, generate_mcp_workflow_logged.
  rewrite H. now destruct (compile_sites py rc term budget sites [])
    as [warnings [workflow|e]].
Qed.

Lemma generate_of_inputs_raise (parsed_query : pyval) (e : exn) :
  compile_inputs py parsed_query = Raise e ->
  generate_mcp_workflow py rc parsed_query = Raise e.
Proof.
  intros H. unfold generate_mcp_workflow, generate_mcp_workflow_logged.
  now rewrite H.
Qed.

(** The inputs of the loop for a dict whose [search_params], given or
    defaulted, is the dict [params]. *)
Lemma compile_inputs_dict (d params : list (string * pyval)) :
  dict_get d "search_params" (PDict []) = PDict params ->
  compile_inputs py (PDict d)
  = (sites <-? py_iter py (dict_get d "target_websites" (PList [])) ;;
     Ok (intent_search_term params, intent_budget params, sites)).
Proof.
  intros Hparams. unfold compile_inputs, py_get. cbn [rbind].
  rewrite Hparams. cbn [rbind].
  unfold intent_search_term, intent_budget.
  now destruct (truthy (dict_get params "specific_product" (PStr ""))).
Qed.

Lemma dict_get_present (d : list (string * pyval)) (k : string) (v default : pyval) :
  assoc k d = Some v -> dict_get d k default = v.
Proof. intros H. unfold dict_get. now rewrite H. Qed.

Lemma dict_get_absent (d : list (string * pyval)) (k : string) (default : pyval) :
  assoc k d = None -> dict_get d k default = default.
Proof. intros H. unfold dict_get. now rewrite H. Qed.

Lemma compile_sites_non_string (term budget : pyval)
      (pre : list string) (v : pyval) (post : list pyval)
      (workflow : list site_workflow) :
  is_str v = false ->
  snd (compile_sites py rc term budget (map PStr pre ++ v :: post) workflow)
  = Raise (no_attribute v "lower").
Proof.
  intros Hv. revert workflow.
  induction pre as [|name pre IH]; intros workflow; cbn [map app compile_sites].
  - now destruct v.
  - destruct (assoc (lower py name) supported_sites); [apply IH|].
    specialize (IH workflow).
    now destruct (compile_sites py rc term budget (map PStr pre ++ v :: post)
                                workflow).
Qed.

(** X1.  A site key that is not a string, anywhere in [target_websites],
    makes the whole compilation raise: the supported keys before it give
    no partial workflow. *)
Theorem non_string_site_fails_whole_compile
        (d params : list (string * pyval)) (pre : list string) (v : pyval)
        (post : list pyval) :
  assoc "target_websites" d = Some (PList (map PStr pre ++ v :: post)) ->
  assoc "search_params" d = Some (PDict params) ->
  is_str v = false ->
  generate_mcp_workflow py rc (PDict d) = Raise (no_attribute v "lower").
Proof.
  intros Hsites Hparams Hv.
  erewrite generate_of_inputs_ok.
  - now apply compile_sites_non_string.
  - rewrite (compile_inputs_dict d params (dict_get_present _ _ _ _ Hparams)).
    now rewrite (dict_get_present _ _ _ _ Hsites).
Qed.

(** X2.  Whatever [target_websites] holds, [search_params] that is present
    but not a dict (a JSON null, say) makes the compilation raise the
    attribute error of its [get]. *)
Theorem non_dict_search_params_raises
        (d : list (string * pyval)) (v : pyval) :
  assoc "search_params" d = Some v ->
  is_dict v = false ->
  generate_mcp_workflow py rc (PDict d) = Raise (no_attribute v "get").
Proof.
  intros Hparams Hv. apply generate_of_inputs_raise.
  unfold compile_inputs, py_get at 1 2. cbn [rbind].
  rewrite (dict_get_present _ _ _ _ Hparams). now destruct v.
Qed.

Lemma short_key_unsupported (k : string) :
  (String.length k <= 4)%nat -> assoc k supported_sites = None.
Proof.
  intros Hk. cbn [assoc supported_sites].
  destruct ("amazon" =? k)%string eqn:Ea.
  { apply String.eqb_eq in Ea. subst k. cbn in Hk. lia. }
  destruct ("flipkart" =? k)%string eqn:Ef; [|reflexivity].
  apply String.eqb_eq in Ef. subst k. cbn in Hk. lia.
Qed.

Lemma compile_sites_characters (term budget : pyval)
      (cs : list string) (workflow : list site_workflow) :
  (forall c, In c cs -> (String.length (lower py c) <= 4)%nat) ->
  snd (compile_sites py rc term budget (map PStr cs) workflow) = Ok workflow.
Proof.
  intros Hcs. induction cs as [|c cs IH]; cbn [map compile_sites]; [reflexivity|].
  rewrite short_key_unsupported by (apply Hcs; now left).
  assert (IH' := IH (fun c' Hc' => Hcs c' (or_intror Hc'))).
  now destruct (compile_sites py rc term budget (map PStr cs) workflow).
Qed.

(** X3.  When [target_websites] is a string instead of a list ("amazon"
    instead of ["amazon"]) the loop visits its characters, none of which is
    a site key: the compilation returns the empty workflow and does not
    raise. *)
Theorem string_target_compiles_to_nothing
        (d params : list (string * pyval)) (s : string) :
  assoc "target_websites" d = Some (PStr s) ->
  assoc "search_params" d = Some (PDict params) ->
  generate_mcp_workflow py rc (PDict d) = Ok [].
Proof.
  intros Hsites Hparams.
  erewrite generate_of_inputs_ok.
  - apply compile_sites_characters. apply (lower_of_char py s).
  - rewrite (compile_inputs_dict d params (dict_get_present _ _ _ _ Hparams)).
    now rewrite (dict_get_present _ _ _ _ Hsites).
Qed.

(** X4.  An intent without [search_params] compiles with an empty search
    term and no budget: every supported requested site gets exactly the
    three steps navigate (to the base URL followed by [/s?k=] and nothing
    more), scroll and wait, flipkart included.  A site is supported when
    [str.lower] takes its key into the registry. *)
Theorem missing_search_params_defaults
        (d : list (string * pyval)) (sites : list string) :
  assoc "target_websites" d = Some (PList (map PStr sites)) ->
  assoc "search_params" d = None ->
  generate_mcp_workflow py rc (PDict d)
  = Ok (map (fun name =>
               SiteWorkflow name
                 [ Step "browser_navigate" None
                        (PStr (base_url_of py name ++ "/s?k="));
                   Step "browser_scroll" None (PInt 2000);
                   Step "browser_wait" None (PInt 2) ])
            (filter (is_supported py) sites)).
Proof.
  intros Hsites Hparams.
  erewrite generate_of_inputs_ok.
  2: { rewrite (compile_inputs_dict d [] (dict_get_absent _ _ _ Hparams)).
       now rewrite (dict_get_present _ _ _ _ Hsites). }
  rewrite (compile_sites_keys py rc [] sites []). reflexivity.
Qed.

(** X5.  An intent without [target_websites] compiles to the empty
    workflow. *)
Theorem missing_target_websites_compiles_to_nothing
        (d params : list (string * pyval)) :
  assoc "target_websites" d = None ->
  assoc "search_params" d = Some (PDict params) ->
  generate_mcp_workflow py rc (PDict d) = Ok [].
Proof.
  intros Hsites Hparams.
  rewrite (generate_of_inputs_ok (PDict d) (intent_search_term params)
                                 (intent_budget params) []); [reflexivity|].
  rewrite (compile_inputs_dict d params (dict_get_present _ _ _ _ Hparams)).
  now rewrite (dict_get_absent _ _ _ Hsites).
Qed.

(** X6.  When [specific_product] is absent or falsy and [category] is a
    JSON null, the search term is [None] and every compiled entry navigates
    to the base URL followed by [/s?k=None]; the base URL is the registry's
    entry for the lower-case form of the site key. *)
Theorem null_category_searches_for_None
        (parsed_query : pyval) (sites : list string)
        (params : list (string * pyval))
        (workflow : list site_workflow) (sw : site_workflow) :
  is_intent parsed_query sites params ->
  truthy (dict_get params "specific_product" (PStr "")) = false ->
  assoc "category" params = Some PNone ->
  generate_mcp_workflow py rc parsed_query = Ok workflow ->
  In sw workflow ->
  exists base_url rest,
    assoc (lower py (site sw)) supported_sites = Some base_url /\
    steps sw = Step "browser_navigate" None (PStr (base_url ++ "/s?k=None")) :: rest.
Proof.
  intros Hi Hsp Hcat Hg Hin.
  destruct (compiled_workflow_entries py rc _ _ _ _ _ Hi Hg Hin)
    as (base_url & Hbase & ->).
  assert (Hterm : intent_search_term params = PNone).
  { unfold intent_search_term. rewrite Hsp. unfold dict_get. now rewrite Hcat. }
  rewrite Hterm. exists base_url. unfold site_steps.
  destruct (truthy (intent_budget params)
            && (lower py (site sw) =? "flipkart")%string);
    eexists; (split; [exact Hbase|reflexivity]).
Qed.

End IllFormedIntents.

(** ** [parse_query]: every world *)


Lemma chat_calls_app (t t' : list event) :
  chat_calls (t ++ t') = (chat_calls t + chat_calls t')%nat.
Proof. unfold chat_calls. now rewrite filter_app, length_app. Qed.

Lemma sleeps_app (t t' : list event) : sleeps (t ++ t') = sleeps t ++ sleeps t'.
Proof.
  induction t as [|e t IH]; [reflexivity|].
  destruct e; cbn [app sleeps]; now rewrite IH.
Qed.

(** One turn of the retry loop, whatever the attempt did. *)
Lemma parse_attempts_cons (w : World) (p : provider) (query : string)
      (retries attempt : nat) (rest : list nat) (h : history) :
  parse_attempts w p query retries (attempt :: rest) h
  = match attempt_body w p query h with
    | (Ok parsed_result, t) => (Ok parsed_result, t)
    | (Raise e, t) =>
        let failed := t ++ [Log ERROR (attempt_failed p attempt retries query e)] in
        if (attempt <? retries - 1)%nat then
          let slept := failed ++ [Sleep (2 ^ Z.of_nat attempt)] in
          (fst (parse_attempts w p query retries rest (h ++ slept)),
           slept ++ snd (parse_attempts w p query retries rest (h ++ slept)))
        else (Raise e, failed)
    end.
Proof.
  cbn [parse_attempts].
  rewrite (bind_ok _ _ _ _ _ (try_run _ _)).
  destruct (attempt_body w p query h) as [[v|e] t]; cbn [fst snd].
  - unfold ret. now rewrite app_nil_r.
  - cbv zeta. rewrite log_then. cbn [fst snd].
    destruct (attempt <? retries - 1)%nat.
    + rewrite emit_then. cbn [fst snd]. rewrite <- !app_assoc. reflexivity.
    + reflexivity.
Qed.

(** An attempt makes one chat call, as its first event, and never sleeps. *)
Lemma attempt_body_trace (w : World) (p : provider) (query : string)
      (h : history) :
  chat_calls (snd (attempt_body w p query h)) = 1%nat /\
  sleeps (snd (attempt_body w p query h)) = [].
Proof.
  unfold attempt_body, bind, chat, lift, log, emit, raise, ret.
  destruct (llm_chat w h p (prompt query)) as [content|e]; [|now split].
  destruct p; [now split|now split|].
  destruct (content =? "")%string; [now split|].
  destruct (json_loads w content) as [v|e]; [now split|].
  destruct (exn_class e =? "JSONDecodeError")%string; now split.
Qed.

(** X7.  When the first reply of the model parses, [parse_query] returns
    it after that single call: no retry, no sleep, no error record. *)
Theorem first_answer_is_final (w : World) (p : provider) (query : string)
        (h : history) (content : string) (parsed_result : pyval) :
  llm_chat w h p (prompt query) = Ok content ->
  content <> ""%string ->
  json_loads w content = Ok parsed_result ->
  parse_query w p query h = (Ok parsed_result, [LLMChat p (prompt query)]).
Proof.
  intros Hchat Hne Hjson. unfold parse_query. cbn [seq].
  rewrite parse_attempts_cons.
  assert (Hbody : attempt_body w p query h
                  = (Ok parsed_result, [LLMChat p (prompt query)])).
  { unfold attempt_body, bind at 1, chat. rewrite Hchat.
    apply String.eqb_neq in Hne.
    destruct p; unfold lift; rewrite ?Hne, Hjson; reflexivity. }
  now rewrite Hbody.
Qed.

(** X8.  In every world [parse_query] calls the model once, twice or three
    times, sleeping 1 second before the second call and 2 seconds before
    the third and at no other time; when it raises it has made all three
    calls. *)
Theorem parse_query_calls_and_sleeps_bounded (w : World) (p : provider)
        (query : string) (h : history) :
  let tr := snd (parse_query w p query h) in
  ((chat_calls tr = 1%nat /\ sleeps tr = []) \/
   (chat_calls tr = 2%nat /\ sleeps tr = [1%Z]) \/
   (chat_calls tr = 3%nat /\ sleeps tr = [1%Z; 2%Z])) /\
  (forall e, fst (parse_query w p query h) = Raise e -> chat_calls tr = 3%nat).
Proof.
  cbv zeta. unfold parse_query. cbn [seq].
  rewrite parse_attempts_cons.
  destruct (attempt_body_trace w p query h) as [Hc0 Hs0].
  destruct (attempt_body w p query h) as [[v0|e0] t0]; cbn [fst snd] in *.
  { split; [left; now split|discriminate]. }
  cbv zeta. change (0 <? 3 - 1)%nat with true. cbv iota.
  set (h1 := h ++ (t0 ++ [Log ERROR (attempt_failed p 0 3 query e0)])
               ++ [Sleep (2 ^ Z.of_nat 0)]).
  rewrite parse_attempts_cons.
  destruct (attempt_body_trace w p query h1) as [Hc1 Hs1].
  destruct (attempt_body w p query h1) as [[v1|e1] t1]; cbn [fst snd] in *.
  { rewrite !chat_calls_app, !sleeps_app, Hc0, Hc1, Hs0, Hs1.
    split; [right; left; now split|discriminate]. }
  cbv zeta. change (1 <? 3 - 1)%nat with true. cbv iota.
  set (h2 := h1 ++ (t1 ++ [Log ERROR (attempt_failed p 1 3 query e1)])
                ++ [Sleep (2 ^ Z.of_nat 1)]).
  rewrite parse_attempts_cons.
  destruct (attempt_body_trace w p query h2) as [Hc2 Hs2].
  destruct (attempt_body w p query h2) as [[v2|e2] t2]; cbn [fst snd] in *;
    cbv zeta; try change (2 <? 3 - 1)%nat with false; cbv iota; cbn [fst snd];
    rewrite !chat_calls_app, !sleeps_app, Hc0, Hc1, Hc2, Hs0, Hs1, Hs2;
    (split; [right; right; now split|reflexivity]).
Qed.

(** When every attempt raises the same exception, that is what
    [parse_query] raises. *)
Lemma parse_query_all_attempts_raise (w : World) (p : provider)
      (query : string) (e : exn) (h : history) :
  (forall h', fst (attempt_body w p query h') = Raise e) ->
  fst (parse_query w p query h) = Raise e.
Proof.
  intros Hall. unfold parse_query. cbn [seq].
  rewrite parse_attempts_cons.
  pose proof (Hall h) as H0.
  destruct (attempt_body w p query h) as [[v0|e0] t0]; cbn [fst] in H0;
    [discriminate|]. injection H0 as ->.
  cbv zeta. change (0 <? 3 - 1)%nat with true. cbv iota. cbn [fst].
  rewrite parse_attempts_cons.
  match goal with |- context [attempt_body w p query ?x] => set (h1 := x) end.
  pose proof (Hall h1) as H1.
  destruct (attempt_body w p query h1) as [[v1|e1] t1]; cbn [fst] in H1;
    [discriminate|]. injection H1 as ->.
  cbv zeta. change (1 <? 3 - 1)%nat with true. cbv iota. cbn [fst].
  rewrite parse_attempts_cons.
  match goal with |- context [attempt_body w p query ?x] => set (h2 := x) end.
  pose proof (Hall h2) as H2.
  destruct (attempt_body w p query h2) as [[v2|e2] t2]; cbn [fst] in H2;
    [discriminate|]. injection H2 as ->.
  reflexivity.
Qed.

(** X9.  A model that keeps answering with text that is not JSON: with the
    ollama provider [parse_query] raises a [ValueError] that wraps the
    decoder's message, with groq and openai it raises the decoder's own
    exception. *)
Theorem invalid_json_error_depends_on_provider (w : World) (p : provider)
        (query content msg : string) (h : history) :
  (forall h' pr, llm_chat w h' p pr = Ok content) ->
  content <> ""%string ->
  json_loads w content = Raise (Exn "JSONDecodeError" msg) ->
  fst (parse_query w p query h)
  = Raise (match p with
           | Ollama => Exn "ValueError" ("Invalid JSON from Ollama: " ++ msg)
           | _ => Exn "JSONDecodeError" msg
           end).
Proof.
  intros Hchat Hne Hjson. apply parse_query_all_attempts_raise. intros h'.
  unfold attempt_body, bind at 1, chat. rewrite Hchat.
  apply String.eqb_neq in Hne.
  destruct p; unfold lift; rewrite ?Hne, Hjson; reflexivity.
Qed.

(** X10.  With the ollama provider an empty reply is never handed to the
    JSON decoder: whatever [json.loads] would make of it, a model that
    keeps answering with nothing makes [parse_query] raise the "Empty
    response" [ValueError]. *)
Theorem empty_ollama_reply_raises (w : World) (query : string) (h : history) :
  (forall h' pr, llm_chat w h' Ollama pr = Ok ""%string) ->
  fst (parse_query w Ollama query h)
  = Raise (Exn "ValueError" "Empty response from Ollama").
Proof.
  intros Hchat. apply parse_query_all_attempts_raise. intros h'.
  unfold attempt_body, bind at 1, chat. rewrite Hchat. reflexivity.
Qed.
(** ** [scrape_site]: sites, labels and placeholders *)

(** X11.  For a site that is neither amazon nor flipkart, [scrape_site]
    runs the steps and nothing else: it returns no record and asks the page
    for no element. *)
Theorem unsupported_site_scrapes_nothing (w : World) (site : string)
        (steps : list step) (h : history) :
  lower (python w) site <> "amazon"%string ->
  lower (python w) site <> "flipkart"%string ->
  scrape_site w site steps h = (Ok [], snd (run_steps w site steps h)).
Proof.
  intros Ha Hf. unfold scrape_site.
  assert (Hsteps := run_pair (run_steps w site steps) h).
  rewrite run_steps_returns in Hsteps.
  rewrite (bind_ok _ _ _ _ _ Hsteps).
  apply String.eqb_neq in Ha, Hf. rewrite Ha, Hf.
  unfold ret. cbn [fst snd]. now rewrite app_nil_r.
Qed.

(** X12.  On flipkart, when the wait for the first container raises, the
    page is not asked for the containers at all: the wait and the error
    record are all that follows the steps, and no record is returned. *)
Theorem flipkart_wait_failure_skips_query (w : World) (site : string)
        (steps : list step) (h : history) (e : exn) :
  lower (python w) site = "flipkart"%string ->
  driver w (h ++ snd (run_steps w site steps h))
         (WaitForSelector "div._1AtVbE" 10000) = Some e ->
  scrape_site w site steps h
  = (Ok [],
     snd (run_steps w site steps h)
     ++ [WaitForSelector "div._1AtVbE" 10000;
         Log ERROR (scraping_error "Flipkart" e)]).
Proof.
  intros Hsite Hwait. unfold scrape_site.
  assert (Hsteps := run_pair (run_steps w site steps) h).
  rewrite run_steps_returns in Hsteps.
  rewrite (bind_ok _ _ _ _ _ Hsteps). rewrite Hsite. cbn [String.eqb Ascii.eqb Bool.eqb].
  set (h1 := h ++ snd (run_steps w site steps h)) in *.
  unfold scrape_listings.
  rewrite (bind_ok _ _ _ _ _ (try_run _ _)).
  assert (Hq : (call w (WaitForSelector "div._1AtVbE" 10000) ;;;
                page_query_selector_all w "div._1AtVbE") h1
               = (Raise e, [WaitForSelector "div._1AtVbE" 10000])).
  { apply bind_raise. unfold call. now rewrite Hwait. }
  rewrite Hq. cbn [fst snd]. rewrite log_then. reflexivity.
Qed.

Section Records.

Variable w : World.
Variables label title_sel price_sel : string.
Variable P : Listing.t -> Prop.

(** A property of every record an item can yield holds of all the records
    the item loop adds. *)
Lemma scrape_items_forall (items : list elem) (results : list Listing.t)
      (h : history) (rs : list Listing.t) (outcome : result unit) :
  (forall item h' r,
     fst (scrape_item w label title_sel price_sel item h') = Ok r -> P r) ->
  Forall P results ->
  fst (scrape_items w label title_sel price_sel items results h) = Ok (rs, outcome) ->
  Forall P rs.
Proof.
  intros Hitem. revert results h.
  induction items as [|item rest IH]; intros results h Hres Hrun.
  - cbn in Hrun. now injection Hrun as <- _.
  - rewrite scrape_items_cons in Hrun.
    pose proof (Hitem item h) as Hi.
    destruct (scrape_item w label title_sel price_sel item h) as [[record|e] t];
      cbn [fst] in *.
    + apply (IH (results ++ [record]) (h ++ t)); [|exact Hrun].
      apply Forall_app. split; [exact Hres|]. constructor; [|constructor].
      now apply Hi.
    + now injection Hrun as <- _.
Qed.

Lemma scrape_listings_forall (container_sel : string) (before : M unit)
      (results : list Listing.t) (h : history) (rs : list Listing.t) :
  (forall item h' r,
     fst (scrape_item w label title_sel price_sel item h') = Ok r -> P r) ->
  Forall P results ->
  fst (scrape_listings w label container_sel title_sel price_sel before results h)
  = Ok rs ->
  Forall P rs.
Proof.
  intros Hitem Hres. unfold scrape_listings.
  rewrite (bind_ok _ _ _ _ _ (try_run _ _)).
  set (q := (before ;;; page_query_selector_all w container_sel) h).
  destruct (fst q) as [items|e]; cbn [fst snd].
  - set (h1 := h ++ snd q).
    assert (Hrun := run_pair (scrape_items w label title_sel price_sel
                                           (firstn 5 items) results) h1).
    destruct (scrape_items_total w label title_sel price_sel (firstn 5 items)
                                 results h1) as (recs & outcome & Hr & _).
    rewrite Hr in Hrun. rewrite (bind_ok _ _ _ _ _ Hrun). cbn [fst snd].
    intros Hrs.
    assert (Hrs' : rs = results ++ recs).
    { destruct outcome; cbn in Hrs; now injection Hrs as <-. }
    subst rs.
    apply (scrape_items_forall (firstn 5 items) results h1 _ outcome Hitem Hres Hr).
  - rewrite log_then. cbn. intros Hrs. now injection Hrs as <-.
Qed.

End Records.

Lemma scrape_item_label (w : World) (label title_sel price_sel : string)
      (item : elem) (h : history) (r : Listing.t) :
  fst (scrape_item w label title_sel price_sel item h) = Ok r ->
  Listing.site r = label.
Proof.
  intros Hok.
  assert (Hrun := run_pair (scrape_item w label title_sel price_sel item) h).
  rewrite Hok in Hrun. unfold scrape_item in Hrun.
  apply bind_ok_inv in Hrun. destruct Hrun as (te & t1 & r1 & _ & Hrun & _).
  apply bind_ok_inv in Hrun. destruct Hrun as (pe & t2 & r2 & _ & Hrun & _).
  apply bind_ok_inv in Hrun. destruct Hrun as (ti & t3 & r3 & _ & Hrun & _).
  apply bind_ok_inv in Hrun. destruct Hrun as (pr & t4 & r4 & _ & Hrun & _).
  apply bind_ok_inv in Hrun. destruct Hrun as (ts & t5 & r5 & _ & Hrun & _).
  unfold ret in Hrun. now injection Hrun as <- _.
Qed.

(** X13.  Every record [scrape_site] returns carries the capitalised name
    of the site it was read from, "Amazon" or "Flipkart", however the site
    key was spelled in the request. *)
Theorem records_carry_site_label (w : World) (site : string)
        (steps : list step) (h : history) (results : list Listing.t) :
  fst (scrape_site w site steps h) = Ok results ->
  Forall (fun r =>
            (lower (python w) site = "amazon"%string /\
             Listing.site r = "Amazon"%string) \/
            (lower (python w) site = "flipkart"%string /\
             Listing.site r = "Flipkart"%string))
         results.
Proof.
  unfold scrape_site.
  assert (Hsteps := run_pair (run_steps w site steps) h).
  rewrite run_steps_returns in Hsteps.
  rewrite (bind_ok _ _ _ _ _ Hsteps). cbn [fst].
  destruct (lower (python w) site =? "amazon")%string eqn:Ha.
  { apply String.eqb_eq in Ha. intros Hr.
    eapply (scrape_listings_forall w "Amazon" "h2" ".a-price .a-offscreen");
      [|constructor|exact Hr].
    intros item h' r Hi. left. split; [exact Ha|].
    now apply scrape_item_label in Hi. }
  destruct (lower (python w) site =? "flipkart")%string eqn:Hf.
  { apply String.eqb_eq in Hf. intros Hr.
    eapply (scrape_listings_forall w "Flipkart" "a.s1Q9rs" "div._30jeq3");
      [|constructor|exact Hr].
    intros item h' r Hi. right. split; [exact Hf|].
    now apply scrape_item_label in Hi. }
  unfold ret. cbn. intros Hr. injection Hr as <-. constructor.
Qed.

Section Placeholders.

Variable w : World.
Variables label title_sel price_sel : string.

Hypothesis items_always_read :
  forall item h, exists r t,
    scrape_item w label title_sel price_sel item h = (Ok r, t).

(** When no item raises, the loop adds one record per item. *)
Lemma scrape_items_all_read (items : list elem) (results : list Listing.t)
      (h : history) :
  exists recs,
    fst (scrape_items w label title_sel price_sel items results h)
    = Ok (results ++ recs, Ok tt) /\
    List.length recs = List.length items.
Proof.
  revert results h. induction items as [|item rest IH]; intros results h.
  - exists []. cbn. now rewrite app_nil_r.
  - rewrite scrape_items_cons.
    destruct (items_always_read item h) as (r & t & Hr). rewrite Hr. cbn [fst].
    destruct (IH (results ++ [r]) (h ++ t)) as (recs & Hrecs & Hlen).
    exists (r :: recs). rewrite Hrecs, <- app_assoc. cbn [app List.length].
    split; [reflexivity|now rewrite Hlen].
Qed.

Lemma scrape_listings_all_read (container_sel : string) (before : M unit)
      (results : list Listing.t) (h : history) (items : list elem) :
  fst ((before ;;; page_query_selector_all w container_sel) h) = Ok items ->
  exists recs,
    fst (scrape_listings w label container_sel title_sel price_sel before results h)
    = Ok (results ++ recs) /\
    List.length recs = Nat.min 5 (List.length items).
Proof.
  intros Hq. unfold scrape_listings.
  rewrite (bind_ok _ _ _ _ _ (try_run _ _)). rewrite Hq. cbn [fst snd].
  set (h1 := h ++ snd ((before ;;; page_query_selector_all w container_sel) h)).
  destruct (scrape_items_all_read (firstn 5 items) results h1)
    as (recs & Hrecs & Hlen).
  assert (Hrun := run_pair (scrape_items w label title_sel price_sel
                                         (firstn 5 items) results) h1).
  rewrite Hrecs in Hrun. rewrite (bind_ok _ _ _ _ _ Hrun). cbn [fst snd].
  exists recs. split; [reflexivity|]. now rewrite Hlen, length_firstn.
Qed.

End Placeholders.

(** An item without title and price element yields the placeholder record,
    and its text is never asked for. *)
Lemma scrape_item_bare (w : World) (label title_sel price_sel : string)
      (item : elem) (h : history) :
  (forall h' it sel, query_selector w h' it sel = Ok None) ->
  exists ts,
    scrape_item w label title_sel price_sel item h
    = (Ok (Listing.mk label "N/A" "N/A" ts),
       [QuerySelector item title_sel; QuerySelector item price_sel; Now]).
Proof.
  intros Hnone.
  unfold scrape_item, bind, item_query_selector, text_or_na, timestamp_now, ret.
  rewrite !Hnone. cbn.
  rewrite (strip_on_ascii (python w) "N/A" eq_refl). eexists. reflexivity.
Qed.

(** X14.  An item whose title and price elements are both missing is not
    skipped: on a supported site whose containers have neither, the result
    holds one record for each of the first five containers, with the
    placeholder "N/A" as title and as price. *)
Theorem bare_items_yield_placeholders (w : World) (site : string)
        (steps : list step) (h : history) (items : list elem) :
  (forall h' it sel, query_selector w h' it sel = Ok None) ->
  lower (python w) site = "amazon"%string \/
  lower (python w) site = "flipkart"%string ->
  fst (container_query w site (h ++ snd (run_steps w site steps h))) = Ok items ->
  exists results,
    fst (scrape_site w site steps h) = Ok results /\
    List.length results = Nat.min 5 (List.length items) /\
    Forall (fun r => Listing.title r = "N/A"%string /\
                     Listing.price r = "N/A"%string) results.
Proof.
  intros Hnone Hsite Hq.
  unfold scrape_site. unfold container_query in Hq.
  assert (Hsteps := run_pair (run_steps w site steps) h).
  rewrite run_steps_returns in Hsteps.
  rewrite (bind_ok _ _ _ _ _ Hsteps). cbn [fst].
  set (h1 := h ++ snd (run_steps w site steps h)) in *.
  assert (Hread : forall label title_sel price_sel item h', exists r t,
             scrape_item w label title_sel price_sel item h' = (Ok r, t)).
  { intros label title_sel price_sel item h'.
    destruct (scrape_item_bare w label title_sel price_sel item h' Hnone) as [ts Hts].
    eexists. eexists. exact Hts. }
  assert (Hbare : forall label title_sel price_sel item h' r,
             fst (scrape_item w label title_sel price_sel item h') = Ok r ->
             Listing.title r = "N/A"%string /\ Listing.price r = "N/A"%string).
  { intros label title_sel price_sel item h' r Hr.
    destruct (scrape_item_bare w label title_sel price_sel item h' Hnone) as [ts Hts].
    rewrite Hts in Hr. cbn in Hr. injection Hr as <-. now split. }
  destruct (lower (python w) site =? "amazon")%string eqn:Ha.
  { destruct (scrape_listings_all_read w "Amazon" "h2" ".a-price .a-offscreen"
                (Hread _ _ _) ".s-result-item" (ret tt) [] h1 items Hq)
      as (recs & Hrecs & Hlen).
    exists recs. cbn [app] in Hrecs. split; [exact Hrecs|]. split; [exact Hlen|].
    eapply (scrape_listings_forall w "Amazon" "h2" ".a-price .a-offscreen");
      [apply Hbare|constructor|exact Hrecs]. }
  destruct (lower (python w) site =? "flipkart")%string eqn:Hf.
  { destruct (scrape_listings_all_read w "Flipkart" "a.s1Q9rs" "div._30jeq3"
                (Hread _ _ _) "div._1AtVbE"
                (call w (WaitForSelector "div._1AtVbE" 10000)) [] h1 items Hq)
      as (recs & Hrecs & Hlen).
    exists recs. cbn [app] in Hrecs. split; [exact Hrecs|]. split; [exact Hlen|].
    eapply (scrape_listings_forall w "Flipkart" "a.s1Q9rs" "div._30jeq3");
      [apply Hbare|constructor|exact Hrecs]. }
  apply String.eqb_neq in Ha, Hf. destruct Hsite; contradiction.
Qed.

(** ** [create_excel_report]: the sheet and the save *)

Lemma with_rows_after (ws : worksheet) (row : nat) (data : list Listing.t)
      (r c : nat) :
  (row + List.length data <= r)%nat ->
  cell_value (with_rows ws row data) r c = cell_value ws r c.
Proof.
  revert ws row. induction data as [|record rest IH]; intros ws row Hr;
    [reflexivity|].
  cbn [with_rows]. cbn [List.length] in Hr. rewrite IH by lia.
  rewrite !cell_value_set_value.
  assert (Hne : (row =? r)%nat = false) by (apply Nat.eqb_neq; lia).
  now rewrite Hne.
Qed.

(** X15.  The workbook [create_excel_report] saves, whenever it gets to
    saving one: the sheet is titled "Query Results"; row 1 holds the four
    headers, in the header style; row [i + 2] holds the site, title, price
    and timestamp of record [i], and the rows after the last record are
    empty; the auto-filter spans the four columns and all the rows; there
    is one bar chart, of the price column against the title column and
    anchored at F5, exactly when there is a record; and the file name is
    [query_report_], eight hex digits and [.xlsx]. *)
Theorem saved_sheet_matches_records (w : World) (data : list Listing.t)
        (query : string) (h : history) (filename : string) (sheet : worksheet) :
  In (SaveWorkbook filename sheet) (snd (create_excel_report w data query h)) ->
  ws_title sheet = "Query Results"%string /\
  map (cell_value sheet 1) [1; 2; 3; 4]%nat
  = [Some "Site"; Some "Product Title"; Some "Price"; Some "Timestamp"]%string /\
  ws_header_style sheet = [(1, 4); (1, 3); (1, 2); (1, 1)]%nat /\
  (forall i record,
     nth_error data i = Some record ->
     map (cell_value sheet (i + 2)) [1; 2; 3; 4]%nat
     = [Some (Listing.site record); Some (Listing.title record);
        Some (Listing.price record); Some (Listing.timestamp record)]) /\
  (forall r c, (List.length data + 2 <= r)%nat -> cell_value sheet r c = None) /\
  ws_auto_filter sheet = Some ("A1:D" ++ str_of_nat (List.length data + 1))%string /\
  ws_charts sheet
  = match data with
    | [] => []
    | _ => [BarChart "Price Comparison by Site" "Product" "Price"
                     (3, 1, List.length data + 1)%nat
                     (2, 2, List.length data + 1)%nat "F5"]
    end /\
  exists hex, filename = ("query_report_" ++ hex ++ ".xlsx")%string.
Proof.
  intros Hsaved.
  destruct (saved_workbook w data query h filename sheet Hsaved)
    as (-> & Hname & _).
  destruct (report_sheet_fields w data) as (Htitle & _ & Hstyle & _ & Hfilter & Hcharts).
  split; [exact Htitle|]. split; [apply report_sheet_header_cells|].
  split; [exact Hstyle|].
  split; [intros i record; apply report_sheet_record_cells|].
  split; [|split; [exact Hfilter|split; [exact Hcharts|exact Hname]]].
  intros r c Hr. rewrite report_sheet_cell_value. unfold sheet_written.
  rewrite with_rows_after by lia.
  unfold cell_value. cbn [with_headers set_header_style set_value new_sheet
                          ws_cells lookup_cell].
  destruct r as [|[|r]]; [lia|lia|reflexivity].
Qed.

(** X16.  An exception leaves [create_excel_report] only as the exception
    of one of its calls, a cell write or the save: it is what that call
    raised, not a wrapper, the call is the last one made, and the error
    record follows it.  When the function returns a file name, its last
    event is the save of the workbook under that name, the only save of
    the run. *)
Theorem report_reraises_what_its_call_raised (w : World) (data : list Listing.t)
        (query : string) (h : history) :
  let run := create_excel_report w data query h in
  (forall e, fst run = Raise e ->
     exists t c,
       snd run = t ++ [c; Log ERROR ("Error creating Excel report: " ++ exn_msg e)] /\
       driver w (h ++ t) c = Some e /\
       no_save t) /\
  (forall filename, fst run = Ok filename ->
     exists t sheet,
       snd run = t ++ [SaveWorkbook filename sheet] /\
       driver w (h ++ t) (SaveWorkbook filename sheet) = None /\
       no_save t).
Proof.
  cbv zeta.
  destruct (create_excel_report_cases w data query h)
    as [(t & e & Hs & (t' & c & -> & Hd) & Hrun)
       |(tw & hex & Hs & [[Hd Hrun]|(e & Hd & Hrun)])];
    cbv zeta in *; rewrite Hrun; cbn [fst snd]; split;
    try (intros x Hx; discriminate Hx).
  - intros e' He. injection He as <-. exists t', c.
    split; [now rewrite <- app_assoc|]. split; [exact Hd|].
    unfold no_save in *. apply Forall_app in Hs. tauto.
  - intros filename Hf. injection Hf as <-. eexists. eexists.
    split; [reflexivity|]. split; [exact Hd|exact Hs].
  - intros e' He. injection He as <-. eexists. eexists.
    split; [now rewrite <- app_assoc|]. split; [exact Hd|exact Hs].
Qed.

(** ** Prices that do not parse *)

Lemma sub_non_numeric_no_digit (s : string) :
  has_digit s = false -> exists n, ascii_sub_non_numeric s = dots n.
Proof.
  induction s as [|c s IH]; intros H; [now exists 0%nat|].
  cbn [has_digit] in H. apply orb_false_iff in H. destruct H as [Hc Hs].
  destruct (IH Hs) as [n Hn]. cbn [ascii_sub_non_numeric]. rewrite Hc. cbn [orb].
  destruct (is_dot c) eqn:Hd; [|now exists n].
  exists (S n). cbn [dots]. rewrite Hn. f_equal.
  unfold is_dot in Hd. apply Nat.eqb_eq in Hd.
  rewrite <- (ascii_nat_embedding c), Hd. reflexivity.
Qed.

Lemma parse_float_dots (n : nat) : parse_float (dots n) = None.
Proof.
  destruct n as [|[|n]]; reflexivity.
Qed.

(** X17.  An ASCII price without any digit ("N/A", "garbage", "...") never
    parses: it counts as the int 0 in the mean, and when it is not empty
    its cell is never highlighted, whatever the mean.  An empty price cell
    is read as "0" instead, so it is highlighted exactly when 0 is below
    the mean. *)
Theorem digitless_price_is_zero_and_unfilled (w : World) (record : Listing.t)
        (avg : number) :
  is_ascii (Listing.price record) = true ->
  has_digit (Listing.price record) = false ->
  float_of_str (python w) (sub_non_numeric (python w) (Listing.price record))
  = None /\
  numeric_prices w [record] = [Int 0] /\
  (Listing.price record <> ""%string ->
   highlight w avg (Some (Listing.price record)) = false) /\
  highlight w avg (Some ""%string) = lt_number fzero avg.
Proof.
  intros Hascii Hd.
  assert (Hnone : price_number w (Listing.price record) = None).
  { rewrite (price_number_ascii w _ Hascii).
    destruct (sub_non_numeric_no_digit _ Hd) as [n ->]. apply parse_float_dots. }
  split; [exact Hnone|]. split; [cbn; now rewrite Hnone|].
  split.
  - intros Hne. unfold highlight. apply String.eqb_neq in Hne.
    cbn [value_or_0]. now rewrite Hne, Hnone.
  - now rewrite (highlight_ascii w avg "" eq_refl).
Qed.

Lemma cents_numeric_prices (w : World) :
  numeric_prices w cents_records
  = [Float (decimal 995 2); Float (decimal 4995 2); Float (decimal 2995 2)].
Proof.
  unfold numeric_prices, cents_records. cbn [map priced Listing.price].
  rewrite !price_number_ascii by reflexivity. vm_compute. reflexivity.
Qed.

(** X26.  The mean is a rounded float.  For the prices "$9.95", "$49.95"
    and "$29.95" an interpreter whose [sum] adds plainly gets a mean one
    unit in the last place above the float of 29.95, so the third price,
    which is the mean of the three, is highlighted with the first; an
    interpreter whose [sum] compensates gets the float of 29.95, and the
    third price is not highlighted.  The second price never is. *)
Theorem mean_of_cents_depends_on_summation (w : World) (query : string)
        (h : history) (filename : string) (sheet : worksheet) :
  In (SaveWorkbook filename sheet)
     (snd (create_excel_report w cents_records query h)) ->
  avg_price w (numeric_prices w cents_records)
  = Float (S754_finite false
             (if compensated_sum (python w) then 8430175552484147
              else 8430175552484148) (-48)) /\
  decimal 2995 2 = S754_finite false 8430175552484147 (-48) /\
  In (2, 3)%nat (ws_fills sheet) /\
  ~ In (3, 3)%nat (ws_fills sheet) /\
  (In (4, 3)%nat (ws_fills sheet) <-> compensated_sum (python w) = false).
Proof.
  intros Hsaved.
  destruct (saved_workbook w _ query h filename sheet Hsaved) as (-> & _).
  assert (Havg : avg_price w (numeric_prices w cents_records)
                 = Float (S754_finite false
                            (if compensated_sum (python w) then 8430175552484147
                             else 8430175552484148) (-48))).
  { rewrite cents_numeric_prices. unfold avg_price.
    destruct (compensated_sum (python w)); vm_compute; reflexivity. }
  split; [exact Havg|]. split; [vm_compute; reflexivity|].
  assert (Hrow : forall i p,
             nth_error cents_records i = Some (priced p) ->
             is_ascii p = true ->
             (In (i + 2, 3)%nat (ws_fills (report_sheet w cents_records)) <->
              match parse_float (ascii_sub_non_numeric (value_or_0 (Some p))) with
              | Some price_value =>
                  lt_number price_value
                    (Float (S754_finite false
                              (if compensated_sum (python w)
                               then 8430175552484147 else 8430175552484148)
                              (-48)))
              | None => false
              end = true)).
  { intros i p Hi Hp. rewrite report_sheet_fills, Havg. split.
    - intros (_ & i' & record & Hr & Hi' & Hh).
      assert (i' = i) by lia. subst i'. rewrite Hi in Hi'. injection Hi' as <-.
      now rewrite highlight_ascii in Hh.
    - intros Hh. split; [reflexivity|]. exists i, (priced p).
      split; [reflexivity|]. split; [exact Hi|].
      now rewrite highlight_ascii. }
  split; [|split].
  - apply (Hrow 0%nat "$9.95"%string eq_refl eq_refl).
    destruct (compensated_sum (python w)); vm_compute; reflexivity.
  - intros Hin. apply (Hrow 1%nat "$49.95"%string eq_refl eq_refl) in Hin.
    destruct (compensated_sum (python w)); vm_compute in Hin; discriminate.
  - rewrite (Hrow 2%nat "$29.95"%string eq_refl eq_refl).
    destruct (compensated_sum (python w)); vm_compute; split; congruence.
Qed.

(** ** [process_query]: early failures, the cleanup, and the records *)

Lemma loop_cleanup_calls (w : World) (h : history) :
  calls (snd (loop_cleanup w h)) = [LoopCleanup].
Proof.
  unfold loop_cleanup. rewrite (bind_ok _ _ _ _ _ (try_run _ _)). cbn [snd].
  unfold call at 2. cbn [snd]. unfold call. cbn [fst snd app].
  now destruct (driver w h LoopCleanup).
Qed.

(** The whole run against its [try] block: the block's events, the error
    record when it raised, then the cleanup. *)
Lemma process_query_calls (w : World) (p : provider) (query : string)
      (h : history) :
  calls (snd (process_query w p query h))
  = calls (snd (process_body w p query h)) ++ [LoopCleanup].
Proof.
  unfold process_query, finally.
  rewrite (bind_ok _ _ _ _ _ (try_run _ _)).
  set (b := process_body w p query h).
  destruct (fst b) as [message|e]; cbn [fst snd];
    match goal with
    | |- context [loop_cleanup w (h ++ snd b ++ snd ?x)] => set (handled := x)
    end;
    assert (Hc := loop_cleanup_returns w (h ++ snd b ++ snd handled));
    pose proof (loop_cleanup_calls w (h ++ snd b ++ snd handled)) as Hl;
    destruct (loop_cleanup w (h ++ snd b ++ snd handled)) as [rc tc];
    cbn [fst snd] in *; subst rc; cbn [fst snd];
    rewrite !calls_app, Hl;
    assert (Hh : calls (snd handled) = []) by reflexivity;
    rewrite Hh, app_nil_r; reflexivity.
Qed.

(** X18.  Whatever happens, the last call of [process_query] is the loop
    cleanup of its [finally] clause: on the success path, the no-results
    path and every error path alike. *)
Theorem cleanup_is_always_the_last_call (w : World) (p : provider)
        (query : string) (h : history) :
  exists before,
    calls (snd (process_query w p query h)) = before ++ [LoopCleanup] /\
    before = calls (snd (process_body w p query h)).
Proof.
  eexists. split; [apply process_query_calls|reflexivity].
Qed.

Lemma process_body_raise (w : World) (p : provider) (query : string)
      (h : history) (e : exn) (t : list event) :
  collect_results w p query h = (Raise e, t) ->
  process_body w p query h = (Raise e, t).
Proof. intros Hc. unfold process_body. now apply bind_raise. Qed.

(** X19.  When [parse_query] raises, no browser is ever started: the calls
    of the run are those of the parser followed by the cleanup, and the
    message is the error message with the parser's exception. *)
Theorem parse_failure_starts_no_browser (w : World) (p : provider)
        (query : string) (h : history) (e : exn) :
  fst (parse_query w p query h) = Raise e ->
  fst (process_query w p query h) = Ok (processing_error e) /\
  calls (snd (process_query w p query h))
  = calls (snd (parse_query w p query h)) ++ [LoopCleanup].
Proof.
  intros Hparse.
  assert (Hp := run_pair (parse_query w p query) h). rewrite Hparse in Hp.
  assert (Hbody : process_body w p query h
                  = (Raise e, snd (parse_query w p query h))).
  { apply process_body_raise. unfold collect_results. now apply bind_raise. }
  destruct (process_query_run w p query h) as [Hq _].
  rewrite Hq, process_query_calls, Hbody. now split.
Qed.

(** X20.  When the parsed reply is not a well-formed intent and the
    compilation raises, no browser is ever started either, and the message
    is the error message with the compiler's exception. *)
Theorem compile_failure_starts_no_browser (w : World) (p : provider)
        (query : string) (h : history) (parsed_query : pyval) (t : list event)
        (e : exn) :
  parse_query w p query h = (Ok parsed_query, t) ->
  generate_mcp_workflow (python w) (repr_container w) parsed_query = Raise e ->
  fst (process_query w p query h) = Ok (processing_error e) /\
  calls (snd (process_query w p query h)) = calls t ++ [LoopCleanup].
Proof.
  intros Hparse Hgen.
  set (records := fst (generate_mcp_workflow_logged (python w) (repr_container w)
                                                    parsed_query)).
  assert (Hbody : process_body w p query h = (Raise e, t ++ records)).
  { apply process_body_raise. unfold collect_results.
    rewrite (bind_ok _ _ _ _ _ Hparse).
    assert (Hl : (workflow <- logged (generate_mcp_workflow_logged
                                        (python w) (repr_container w) parsed_query) ;;
                  browser_block w workflow) (h ++ t) = (Raise e, records)).
    { apply bind_raise. unfold logged. unfold generate_mcp_workflow in Hgen.
      now rewrite Hgen. }
    now rewrite Hl. }
  destruct (process_query_run w p query h) as [Hq _].
  rewrite Hq, process_query_calls, Hbody. cbn [fst snd]. split; [reflexivity|].
  rewrite calls_app.
  rewrite (calls_of_logs records) by apply generate_mcp_workflow_logs.
  now rewrite app_nil_r.
Qed.

(** X21.  The loop over the workflow only ever adds records: it returns
    the records it was given followed by at most five per site workflow,
    and it does not raise. *)
Theorem scrape_workflow_adds_at_most_five_per_site (w : World)
        (workflow : list site_workflow) (all_results : list Listing.t)
        (h : history) :
  exists added,
    fst (scrape_workflow w workflow all_results h) = Ok (all_results ++ added) /\
    (List.length added <= 5 * List.length workflow)%nat.
Proof.
  revert all_results h.
  induction workflow as [|sw workflow IH]; intros all_results h.
  - exists []. cbn. split; [now rewrite app_nil_r|lia].
  - cbn [scrape_workflow].
    destruct (scrape_site_results w (site sw) (steps sw) h)
      as (site_results & Hs & Hl & _).
    assert (Hrun := run_pair (scrape_site w (site sw) (steps sw)) h).
    rewrite Hs in Hrun. rewrite (bind_ok _ _ _ _ _ Hrun). cbn [fst].
    destruct (IH (all_results ++ site_results)
                 (h ++ snd (scrape_site w (site sw) (steps sw) h)))
      as (added & Ha & Hla).
    exists (site_results ++ added). rewrite Ha, <- app_assoc.
    split; [reflexivity|]. rewrite length_app. cbn [List.length]. lia.
Qed.

Lemma loop_cleanup_run (w : World) (h : history) :
  loop_cleanup w h
  = (Ok tt,
     LoopCleanup ::
     match driver w h LoopCleanup with
     | None => []
     | Some e => [Log ERROR ("Error during event loop cleanup: " ++ exn_msg e)]
     end).
Proof.
  unfold loop_cleanup. rewrite (bind_ok _ _ _ _ _ (try_run _ _)).
  unfold call. now destruct (driver w h LoopCleanup).
Qed.

(** X22.  When the intent names no supported site the browser is started
    and torn down all the same: in a world in which starting and stopping
    the browser does not fail, the run records the warnings of the
    compilation, opens and closes an idle browser, returns the no-results
    message and ends with the loop cleanup, followed by its error record
    when the cleanup raises. *)
Theorem no_supported_site_still_opens_browser (w : World) (p : provider)
        (query : string) (h : history) (parsed_query : pyval) (t : list event)
        (warnings : list event) :
  browser_never_fails w ->
  parse_query w p query h = (Ok parsed_query, t) ->
  generate_mcp_workflow_logged (python w) (repr_container w) parsed_query
  = (warnings, Ok []) ->
  let before :=
    t ++ warnings
    ++ [PlaywrightStart; Launch; NewPage; OnDialog; PageClose; BrowserClose;
        PlaywrightStop;
        Log WARNING ("No results found for query: " ++ query)] in
  process_query w p query h
  = (Ok "No results found for the query."%string,
     before
     ++ LoopCleanup
        :: match driver w (h ++ before) LoopCleanup with
           | None => []
           | Some e =>
               [Log ERROR ("Error during event loop cleanup: " ++ exn_msg e)]
           end).
Proof.
  intros Hdrv Hparse Hgen.
  assert (Hcollect : collect_results w p query h
                     = (Ok [], t ++ warnings
                               ++ [PlaywrightStart; Launch; NewPage; OnDialog;
                                   PageClose; BrowserClose; PlaywrightStop])).
  { unfold collect_results. rewrite (bind_ok _ _ _ _ _ Hparse).
    unfold bind at 1, logged. rewrite Hgen. cbn [app fst snd].
    unfold browser_block, browser_session, scrape_workflow, bind, try_, call,
      ret, lift.
    repeat (first [ rewrite (Hdrv _ PlaywrightStart eq_refl)
                  | rewrite (Hdrv _ Launch eq_refl)
                  | rewrite (Hdrv _ NewPage eq_refl)
                  | rewrite (Hdrv _ OnDialog eq_refl)
                  | rewrite (Hdrv _ PageClose eq_refl)
                  | rewrite (Hdrv _ BrowserClose eq_refl)
                  | rewrite (Hdrv _ PlaywrightStop eq_refl) ]; cbn).
    reflexivity. }
  cbv zeta. unfold process_query, finally, process_body.
  rewrite (bind_ok _ _ _ _ _ (try_run _ _)).
  rewrite (bind_ok _ _ _ _ _ Hcollect). cbn [fst snd].
  rewrite log_then. cbn [fst snd ret app]. rewrite loop_cleanup_run.
  rewrite <- !app_assoc. cbn [app]. reflexivity.
Qed.

(** ** The constructor and [main] *)

Lemma key_or_env_given (k : string) (from_env : option string) :
  k <> ""%string -> QueryProcessor.key_or_env (Some k) from_env = Some k.
Proof.
  intros Hk. apply String.eqb_neq in Hk. unfold QueryProcessor.key_or_env.
  now rewrite Hk.
Qed.

Lemma key_or_env_missing (key from_env : option string) :
  QueryProcessor.no_key key = true ->
  QueryProcessor.key_or_env key from_env = from_env.
Proof.
  destruct key as [k|]; cbn; [|reflexivity]. now intros ->.
Qed.

Lemma no_key_given (k : string) :
  k <> ""%string -> QueryProcessor.no_key (Some k) = false.
Proof. intros Hk. now apply String.eqb_neq. Qed.

(** X23.  For the groq and openai providers, spelled in any case, a
    non-empty key argument is the one used, whatever the environment
    holds; without it (absent or empty) a non-empty key of the environment
    variable is used; with neither the constructor raises the "API key is
    required" [ValueError]. *)
Theorem key_argument_then_environment (py : Python)
        (getenv : string -> option string)
        (ollama_list : result unit) (name : string)
        (groq_api_key openai_api_key : option string) (ollama_model k : string) :
  k <> ""%string ->
  let init := QueryProcessor.init py getenv ollama_list name groq_api_key
                                  openai_api_key ollama_model in
  (lower py name = "groq"%string ->
   (groq_api_key = Some k ->
    init = Ok (QueryProcessor.mk Groq (Some k) "mixtral-8x7b-32768")) /\
   (QueryProcessor.no_key groq_api_key = true ->
    getenv "GROQ_API_KEY"%string = Some k ->
    init = Ok (QueryProcessor.mk Groq (Some k) "mixtral-8x7b-32768")) /\
   (QueryProcessor.no_key groq_api_key = true ->
    QueryProcessor.no_key (getenv "GROQ_API_KEY"%string) = true ->
    init = Raise (Exn "ValueError" "Groq API key is required"))) /\
  (lower py name = "openai"%string ->
   (openai_api_key = Some k ->
    init = Ok (QueryProcessor.mk OpenAI (Some k) "gpt-4o-mini")) /\
   (QueryProcessor.no_key openai_api_key = true ->
    getenv "OPENAI_API_KEY"%string = Some k ->
    init = Ok (QueryProcessor.mk OpenAI (Some k) "gpt-4o-mini")) /\
   (QueryProcessor.no_key openai_api_key = true ->
    QueryProcessor.no_key (getenv "OPENAI_API_KEY"%string) = true ->
    init = Raise (Exn "ValueError" "OpenAI API key is required"))).
Proof.
  intros Hk. cbv zeta. unfold QueryProcessor.init, QueryProcessor.init_logged.
  split; intros Hname; rewrite Hname;
    [change ("groq" =? "groq")%string with true
    |change ("openai" =? "groq")%string with false;
     change ("openai" =? "openai")%string with true];
    cbv iota zeta;
    (split; [intros ->; now rewrite key_or_env_given, no_key_given|]);
    (split; intros Hno Henv; rewrite (key_or_env_missing _ _ Hno), Henv;
     [now rewrite no_key_given|reflexivity]).
Qed.

(** X24.  Every exception of the constructor is a [ValueError], and one
    error record is logged before it is raised; a provider name whose
    lower-case form is none of groq, openai and ollama gets the
    "Unsupported LLM provider" one, which quotes the lower-cased name, and
    neither keys nor environment are looked at. *)
Theorem constructor_raises_only_value_errors (py : Python)
        (getenv : string -> option string)
        (ollama_list : result unit) (name : string)
        (groq_api_key openai_api_key : option string) (ollama_model : string) :
  let logged_init := QueryProcessor.init_logged py getenv ollama_list name
                       groq_api_key openai_api_key ollama_model in
  let init := QueryProcessor.init py getenv ollama_list name groq_api_key
                                  openai_api_key ollama_model in
  (forall e, init = Raise e ->
             exn_class e = "ValueError"%string /\
             exists msg, fst logged_init = [Log ERROR msg]) /\
  (forall processor, init = Ok processor -> fst logged_init = []) /\
  (lower py name <> "groq"%string -> lower py name <> "openai"%string ->
   lower py name <> "ollama"%string ->
   logged_init
   = ([Log ERROR ("Unsupported LLM provider: " ++ lower py name)],
      Raise (Exn "ValueError" ("Unsupported LLM provider: " ++ lower py name)))).
Proof.
  cbv zeta. unfold QueryProcessor.init, QueryProcessor.init_logged.
  split; [|split].
  - intros e.
    destruct (lower py name =? "groq")%string.
    { destruct (QueryProcessor.no_key _); [|discriminate].
      intros H. injection H as <-. split; [reflexivity|now eexists]. }
    destruct (lower py name =? "openai")%string.
    { destruct (QueryProcessor.no_key _); [|discriminate].
      intros H. injection H as <-. split; [reflexivity|now eexists]. }
    destruct (lower py name =? "ollama")%string.
    { destruct ollama_list; [discriminate|]. intros H. injection H as <-.
      split; [reflexivity|now eexists]. }
    intros H. injection H as <-. split; [reflexivity|now eexists].
  - intros processor.
    destruct (lower py name =? "groq")%string.
    { now destruct (QueryProcessor.no_key _). }
    destruct (lower py name =? "openai")%string.
    { now destruct (QueryProcessor.no_key _). }
    destruct (lower py name =? "ollama")%string; [now destruct ollama_list|].
    discriminate.
  - intros Hg Ho Hl. apply String.eqb_neq in Hg, Ho, Hl. now rewrite Hg, Ho, Hl.
Qed.

Lemma main_init (w : World) (getenv : string -> option string)
      (ollama_list : result unit) :
  QueryProcessor.init_logged (python w) getenv ollama_list "ollama" None None
                             "llama3"
  = match ollama_list with
    | Ok _ => ([], Ok (QueryProcessor.mk Ollama None "llama3"))
    | Raise e =>
        ([Log ERROR ("Ollama server not running or model llama3 not available: "
                     ++ exn_msg e)],
         Raise (Exn "ValueError"
                    "Ollama server not running or model llama3 not available"))
    end.
Proof.
  unfold QueryProcessor.init_logged.
  rewrite (lower_on_ascii (python w) "ollama" eq_refl).
  now destruct ollama_list.
Qed.

(** X25.  [main] builds an ollama processor for the model llama3.  It
    raises exactly when [ollama.list()] raises: the constructor then logs
    the error record that quotes the cause and raises its [ValueError],
    and nothing else happens.  Otherwise [main] is the run of
    [process_query] with the ollama provider on the laptop query, and it
    returns a message. *)
Theorem main_raises_only_without_ollama (w : World)
        (getenv : string -> option string) (ollama_list : result unit)
        (h : history) :
  (forall e, ollama_list = Raise e ->
     main w getenv ollama_list h
     = (Raise (Exn "ValueError"
                   "Ollama server not running or model llama3 not available"),
        [Log ERROR ("Ollama server not running or model llama3 not available: "
                    ++ exn_msg e)])) /\
  (forall u, ollama_list = Ok u ->
     main w getenv ollama_list h
     = process_query w Ollama "Find me laptops under ₹50,000" h /\
     exists message, fst (main w getenv ollama_list h) = Ok message) /\
  ((exists e, fst (main w getenv ollama_list h) = Raise e) <->
   (exists e, ollama_list = Raise e)).
Proof.
  assert (Hok : forall u, ollama_list = Ok u ->
                main w getenv ollama_list h
                = process_query w Ollama "Find me laptops under ₹50,000" h).
  { intros u ->. unfold main, bind, logged. rewrite main_init. cbn [fst snd].
    rewrite app_nil_r. cbn [QueryProcessor.llm_provider].
    now destruct (process_query w Ollama "Find me laptops under ₹50,000" h). }
  assert (Hraise : forall e, ollama_list = Raise e ->
     main w getenv ollama_list h
     = (Raise (Exn "ValueError"
                   "Ollama server not running or model llama3 not available"),
        [Log ERROR ("Ollama server not running or model llama3 not available: "
                    ++ exn_msg e)])).
  { intros e ->. unfold main, bind, logged. now rewrite main_init. }
  split; [exact Hraise|]. split.
  - intros u Hu. split; [now apply (Hok u)|].
    rewrite (Hok u Hu). eexists. apply process_query_run.
  - split.
    + intros [e He]. destruct ollama_list as [u|e0]; [|now exists e0].
      rewrite (Hok u eq_refl) in He.
      destruct (process_query_run w Ollama "Find me laptops under ₹50,000" h)
        as [Hq _].
      rewrite Hq in He. discriminate.
    + intros [e He]. rewrite (Hraise e He). now eexists.
Qed.

(** * The further properties at concrete inputs *)

Lemma non_string_site_fails_whole_compile_witness :
  generate_mcp_workflow ascii_python repr_none
    (PDict [ ("target_websites", PList [PStr "amazon"; PInt 7; PStr "flipkart"]);
             ("search_params", PDict laptop_params) ])
  = Raise (no_attribute (PInt 7) "lower").
Proof.
  apply (non_string_site_fails_whole_compile
           ascii_python repr_none _ laptop_params ["amazon"%string] (PInt 7)
           [PStr "flipkart"]);
    reflexivity.
Defined.

Lemma non_dict_search_params_raises_witness :
  generate_mcp_workflow ascii_python repr_none
    (PDict [ ("target_websites", PList [PStr "amazon"]);
             ("search_params", PNone) ])
  = Raise (no_attribute PNone "get").
Proof.
  apply (non_dict_search_params_raises ascii_python repr_none _ PNone);
    reflexivity.
Defined.

Lemma string_target_compiles_to_nothing_witness :
  generate_mcp_workflow ascii_python repr_none
    (PDict [ ("target_websites", PStr "amazon");
             ("search_params", PDict laptop_params) ])
  = Ok [].
Proof.
  apply (string_target_compiles_to_nothing
           ascii_python repr_none _ laptop_params "amazon");
    reflexivity.
Defined.

Lemma missing_search_params_defaults_witness :
  generate_mcp_workflow ascii_python repr_none
    (PDict [ ("target_websites", PList (map PStr ["Flipkart"; "ebay"]%string)) ])
  = Ok [ SiteWorkflow "Flipkart"
           [ Step "browser_navigate" None (PStr "https://www.flipkart.com/s?k=");
             Step "browser_scroll" None (PInt 2000);
             Step "browser_wait" None (PInt 2) ] ].
Proof.
  apply (missing_search_params_defaults
           ascii_python repr_none _ ["Flipkart"; "ebay"]%string);
    reflexivity.
Defined.

Lemma missing_target_websites_compiles_to_nothing_witness :
  generate_mcp_workflow ascii_python repr_none
                        (PDict [ ("search_params", PDict laptop_params) ])
  = Ok [].
Proof.
  apply (missing_target_websites_compiles_to_nothing
           ascii_python repr_none _ laptop_params);
    reflexivity.
Defined.

Lemma null_category_searches_for_None_witness :
  exists base_url rest,
    assoc (lower ascii_python "Amazon") supported_sites = Some base_url /\
    steps (compiled_entry ascii_python repr_none [("category", PNone)] "Amazon")
    = Step "browser_navigate" None (PStr (base_url ++ "/s?k=None")) :: rest.
Proof.
  apply (null_category_searches_for_None
           ascii_python repr_none
           (PDict [ ("target_websites", PList [PStr "Amazon"]);
                    ("search_params", PDict [("category", PNone)]) ])
           ["Amazon"%string] [("category", PNone)]
           [compiled_entry ascii_python repr_none [("category", PNone)] "Amazon"]
           (compiled_entry ascii_python repr_none [("category", PNone)] "Amazon")).
  - intent_is_valid.
  - reflexivity.
  - reflexivity.
  - reflexivity.
  - left. reflexivity.
Defined.

Lemma first_answer_is_final_witness :
  parse_query quiet_world Ollama "laptops" []
  = (Ok laptop_intent, [LLMChat Ollama (prompt "laptops")]).
Proof.
  apply (first_answer_is_final quiet_world Ollama "laptops" [] "{}" laptop_intent).
  - reflexivity.
  - discriminate.
  - reflexivity.
Defined.

Lemma parse_query_calls_and_sleeps_bounded_witness :
  chat_calls (snd (parse_query offline_world Groq "laptops" [])) = 3%nat.
Proof.
  destruct (parse_query_calls_and_sleeps_bounded offline_world Groq "laptops" [])
    as [_ Hraise].
  apply (Hraise backend_down). reflexivity.
Defined.

Lemma invalid_json_error_depends_on_provider_witness :
  fst (parse_query chatty_world Ollama "laptops" [])
  = Raise (Exn "ValueError"
               ("Invalid JSON from Ollama: " ++ exn_msg not_json)).
Proof.
  apply (invalid_json_error_depends_on_provider
           chatty_world Ollama "laptops" "Sure! Here are some laptops."
           (exn_msg not_json) []).
  - reflexivity.
  - discriminate.
  - reflexivity.
Defined.

Lemma empty_ollama_reply_raises_witness :
  fst (parse_query silent_world Ollama "laptops" [])
  = Raise (Exn "ValueError" "Empty response from Ollama").
Proof.
  apply (empty_ollama_reply_raises silent_world "laptops" []). reflexivity.
Defined.

Lemma unsupported_site_scrapes_nothing_witness :
  scrape_site stale_item_world "ebay" steps_with_bad_selector []
  = (Ok [], snd (run_steps stale_item_world "ebay" steps_with_bad_selector [])).
Proof.
  apply (unsupported_site_scrapes_nothing
           stale_item_world "ebay" steps_with_bad_selector []);
    intros H; vm_compute in H; discriminate H.
Defined.

Lemma flipkart_wait_failure_skips_query_witness :
  scrape_site slow_page_world "Flipkart" [] []
  = (Ok [],
     snd (run_steps slow_page_world "Flipkart" [] [])
     ++ [WaitForSelector "div._1AtVbE" 10000;
         Log ERROR (scraping_error "Flipkart" wait_timeout)]).
Proof.
  apply (flipkart_wait_failure_skips_query
           slow_page_world "Flipkart" [] [] wait_timeout); reflexivity.
Defined.

Lemma records_carry_site_label_witness :
  Forall (fun r =>
            (lower ascii_python "AMAZON" = "amazon"%string /\
             Listing.site r = "Amazon"%string) \/
            (lower ascii_python "AMAZON" = "flipkart"%string /\
             Listing.site r = "Flipkart"%string))
         [Listing.mk "Amazon" "Laptop" "Laptop" "2024-01-01 00:00:00"].
Proof.
  apply (records_carry_site_label stale_item_world "AMAZON" [] []). reflexivity.
Defined.

Lemma bare_items_yield_placeholders_witness :
  exists results,
    fst (scrape_site bare_items_world "amazon" [] []) = Ok results /\
    List.length results = Nat.min 5 (List.length [1; 2; 3; 4; 5; 6; 7]%nat) /\
    Forall (fun r => Listing.title r = "N/A"%string /\
                     Listing.price r = "N/A"%string) results.
Proof.
  apply (bare_items_yield_placeholders bare_items_world "amazon" [] []).
  - reflexivity.
  - left. reflexivity.
  - reflexivity.
Defined.

Lemma saved_sheet_matches_records_witness :
  exists sheet,
    In (SaveWorkbook "query_report_0123abcd.xlsx" sheet)
       (snd (create_excel_report quiet_world garbage_records "laptops" [])) /\
    map (cell_value sheet 4) [1; 2; 3; 4]%nat
    = [Some "Amazon"; Some "laptop"; Some "garbage";
       Some "2024-01-01 00:00:00"]%string /\
    cell_value sheet 5 1 = None /\
    ws_auto_filter sheet = Some "A1:D4"%string.
Proof.
  exists (report_sheet quiet_world garbage_records).
  assert (Hsaved : In (SaveWorkbook "query_report_0123abcd.xlsx"
                                    (report_sheet quiet_world garbage_records))
                      (snd (create_excel_report quiet_world garbage_records
                                                "laptops" []))).
  { vm_compute. find_event. }
  split; [exact Hsaved|].
  destruct (saved_sheet_matches_records quiet_world garbage_records "laptops" []
              _ _ Hsaved) as (_ & _ & _ & Hrows & Hafter & Hfilter & _).
  split; [exact (Hrows 2%nat (priced "garbage") eq_refl)|].
  split; [apply Hafter; cbn; lia|exact Hfilter].
Defined.

Lemma report_reraises_what_its_call_raised_witness :
  (exists t c,
     snd (create_excel_report disk_full_world garbage_records "laptops" [])
     = t ++ [c; Log ERROR "Error creating Excel report: No space left on device"] /\
     driver disk_full_world ([] ++ t) c = Some disk_full /\
     no_save t) /\
  (exists t c,
     snd (create_excel_report strict_sheet_world garbage_records "laptops" [])
     = t ++ [c; Log ERROR "Error creating Excel report: garbage"] /\
     driver strict_sheet_world ([] ++ t) c = Some illegal_character /\
     no_save t).
Proof.
  split.
  - destruct (report_reraises_what_its_call_raised
                disk_full_world garbage_records "laptops" []) as [Hraise _].
    apply (Hraise disk_full). reflexivity.
  - destruct (report_reraises_what_its_call_raised
                strict_sheet_world garbage_records "laptops" []) as [Hraise _].
    apply (Hraise illegal_character). reflexivity.
Defined.

(** The sheet that refuses "garbage": the write of row 4, column 3 is the
    last call, and nothing is saved. *)
Example refused_cell_ends_the_report :
  create_excel_report strict_sheet_world garbage_records "laptops" []
  = (Raise illegal_character,
     [ CellWrite 1 1 "Site"; CellWrite 1 2 "Product Title";
       CellWrite 1 3 "Price"; CellWrite 1 4 "Timestamp";
       CellWrite 2 1 "Amazon"; CellWrite 2 2 "laptop";
       CellWrite 2 3 "$100"; CellWrite 2 4 "2024-01-01 00:00:00";
       CellWrite 3 1 "Amazon"; CellWrite 3 2 "laptop";
       CellWrite 3 3 "$50"; CellWrite 3 4 "2024-01-01 00:00:00";
       CellWrite 4 1 "Amazon"; CellWrite 4 2 "laptop";
       CellWrite 4 3 "garbage";
       Log ERROR "Error creating Excel report: garbage" ]).
Proof. reflexivity. Qed.

Lemma digitless_price_is_zero_and_unfilled_witness :
  float_of_str ascii_python (sub_non_numeric ascii_python "N/A") = None /\
  numeric_prices quiet_world [priced "N/A"] = [Int 0] /\
  (Listing.price (priced "N/A") <> ""%string ->
   highlight quiet_world (Float (float_of_Z 50)) (Some "N/A"%string) = false) /\
  highlight quiet_world (Float (float_of_Z 50)) (Some ""%string)
  = lt_number fzero (Float (float_of_Z 50)).
Proof.
  apply (digitless_price_is_zero_and_unfilled
           quiet_world (priced "N/A") (Float (float_of_Z 50)));
    reflexivity.
Defined.

Lemma mean_of_cents_depends_on_summation_witness :
  exists sheet,
    In (SaveWorkbook "query_report_0123abcd.xlsx" sheet)
       (snd (create_excel_report quiet_world cents_records "laptops" [])) /\
    In (2, 3)%nat (ws_fills sheet) /\
    ~ In (3, 3)%nat (ws_fills sheet) /\
    In (4, 3)%nat (ws_fills sheet).
Proof.
  exists (report_sheet quiet_world cents_records).
  assert (Hsaved : In (SaveWorkbook "query_report_0123abcd.xlsx"
                                    (report_sheet quiet_world cents_records))
                      (snd (create_excel_report quiet_world cents_records
                                                "laptops" []))).
  { vm_compute. find_event. }
  split; [exact Hsaved|].
  destruct (mean_of_cents_depends_on_summation quiet_world "laptops" [] _ _ Hsaved)
    as (_ & _ & H2 & H3 & H4).
  split; [exact H2|]. split; [exact H3|]. apply H4. reflexivity.
Defined.

Lemma parse_failure_starts_no_browser_witness :
  fst (process_query offline_world Groq "laptops" [])
  = Ok (processing_error backend_down) /\
  calls (snd (process_query offline_world Groq "laptops" []))
  = calls (snd (parse_query offline_world Groq "laptops" [])) ++ [LoopCleanup].
Proof.
  apply (parse_failure_starts_no_browser offline_world Groq "laptops" []).
  reflexivity.
Defined.

Lemma compile_failure_starts_no_browser_witness :
  fst (process_query list_world Groq "laptops" [])
  = Ok (processing_error (no_attribute (PList []) "get")) /\
  calls (snd (process_query list_world Groq "laptops" []))
  = calls [LLMChat Groq (prompt "laptops")] ++ [LoopCleanup].
Proof.
  apply (compile_failure_starts_no_browser
           list_world Groq "laptops" [] (PList []) [LLMChat Groq (prompt "laptops")]);
    reflexivity.
Defined.

(** A model whose JSON is a list: the compiler's error record and the
    record of [process_query] are both in the history. *)
Example compile_failure_is_logged_twice :
  snd (process_query list_world Groq "laptops" [])
  = [ LLMChat Groq (prompt "laptops");
      Log ERROR "Error generating MCP workflow: 'list' object has no attribute 'get'";
      Log ERROR "Error processing query 'laptops': 'list' object has no attribute 'get'";
      LoopCleanup ].
Proof. reflexivity. Qed.

Lemma no_supported_site_still_opens_browser_witness :
  process_query ebay_world Groq "laptops" []
  = (Ok "No results found for the query."%string,
     [ LLMChat Groq (prompt "laptops");
       Log WARNING "Unsupported site: ebay";
       PlaywrightStart; Launch; NewPage; OnDialog; PageClose; BrowserClose;
       PlaywrightStop;
       Log WARNING "No results found for query: laptops";
       LoopCleanup;
       Log ERROR "Error during event loop cleanup: This event loop is already running" ]).
Proof.
  apply (no_supported_site_still_opens_browser
           ebay_world Groq "laptops" [] ebay_intent
           [LLMChat Groq (prompt "laptops")]
           [Log WARNING "Unsupported site: ebay"]).
  - intros h e He. now destruct e.
  - reflexivity.
  - reflexivity.
Defined.

Lemma key_argument_then_environment_witness :
  QueryProcessor.init ascii_python groq_env (Ok tt) "Groq" (Some "gsk_arg") None
                      "gemma3:1b"
  = Ok (QueryProcessor.mk Groq (Some "gsk_arg") "mixtral-8x7b-32768") /\
  QueryProcessor.init ascii_python groq_env (Ok tt) "Groq" (Some "") None
                      "gemma3:1b"
  = Ok (QueryProcessor.mk Groq (Some "gsk_env") "mixtral-8x7b-32768") /\
  QueryProcessor.init ascii_python groq_env (Ok tt) "OpenAI" None None "gemma3:1b"
  = Raise (Exn "ValueError" "OpenAI API key is required").
Proof.
  split; [|split].
  - pose proof (key_argument_then_environment
                  ascii_python groq_env (Ok tt) "Groq" (Some "gsk_arg") None
                  "gemma3:1b" "gsk_arg" ltac:(discriminate)) as H.
    cbv zeta in H. destruct H as [Hgroq _].
    destruct (Hgroq eq_refl) as (Hgiven & _ & _). exact (Hgiven eq_refl).
  - pose proof (key_argument_then_environment
                  ascii_python groq_env (Ok tt) "Groq" (Some "") None "gemma3:1b"
                  "gsk_env" ltac:(discriminate)) as H.
    cbv zeta in H. destruct H as [Hgroq _].
    destruct (Hgroq eq_refl) as (_ & Henv & _). exact (Henv eq_refl eq_refl).
  - pose proof (key_argument_then_environment
                  ascii_python groq_env (Ok tt) "OpenAI" None None "gemma3:1b"
                  "any" ltac:(discriminate)) as H.
    cbv zeta in H. destruct H as [_ Hopenai].
    destruct (Hopenai eq_refl) as (_ & _ & Hnone). exact (Hnone eq_refl eq_refl).
Defined.

Lemma constructor_raises_only_value_errors_witness :
  QueryProcessor.init_logged ascii_python no_env (Ok tt) "Claude" None None
                             "gemma3:1b"
  = ([Log ERROR "Unsupported LLM provider: claude"],
     Raise (Exn "ValueError" "Unsupported LLM provider: claude")).
Proof.
  pose proof (constructor_raises_only_value_errors
                ascii_python no_env (Ok tt) "Claude" None None "gemma3:1b") as H.
  cbv zeta in H. destruct H as (_ & _ & H).
  apply H; intros E; vm_compute in E; discriminate E.
Defined.

Lemma main_raises_only_without_ollama_witness :
  main quiet_world no_env (Raise backend_down) []
  = (Raise (Exn "ValueError"
                "Ollama server not running or model llama3 not available"),
     [Log ERROR "Ollama server not running or model llama3 not available: backend down"]).
Proof.
  destruct (main_raises_only_without_ollama
              quiet_world no_env (Raise backend_down) []) as [Hdown _].
  exact (Hdown backend_down eq_refl).
Defined.
